(** * HypeLens-AI query preprocessing pipeline: a shallow embedding

    The development follows the [preprocess_eng] package of the repository:
    the input handler (Step 1), the spell corrector (Step 2), the
    tokenizer's language identification (Step 3), the smart romanized
    detector, the code-mix detector (Step 4), the transliteration stage
    (Step 5) and the Step-5 routing of the pipeline orchestrator.

    Modelling conventions.
    - A Python [str] holding user text is a list of Unicode code points
      ([Py.pystr]); [str.lower], the character classes ([isdigit],
      [isalpha], ...) and the classes of [re] ([\d], [\w], [\b], and what
      [re.IGNORECASE] adds) follow the tables of [UnicodeData].  Symbolic
      strings of the program (labels, methods, script tags, language
      codes) are Rocq [string]s, of characters below 256.
    - A Python [float] holding a score or a confidence is a rational ([Q]);
      the comparisons and the literals are those of the source.
    - External collaborators (HTTP services, the fastText model, the
      scraper, the URL parser) are function parameters. *)

From Stdlib Require Import List Bool Arith NArith ZArith QArith Lia Lqa String Ascii.
Import ListNotations.

Local Open Scope bool_scope.
Set Warnings "-abstract-large-number".

(* ===================================================================== *)
(** * Unicode data

    The character tables behind the string methods and the regular
    expressions of the program, from the Unicode Character Database 14.0.0
    ([unicodedata.unidata_version] of CPython 3.11). *)
(* ===================================================================== *)

Module UnicodeData.

(** [str.isdecimal], and [\d] of [re]: the decimal digits (category Nd). *)
Definition decimal_ranges : list (N * N) :=
  [ (0x0030, 0x0039); (0x0660, 0x0669); (0x06F0, 0x06F9); (0x07C0, 0x07C9); (0x0966, 0x096F);
    (0x09E6, 0x09EF); (0x0A66, 0x0A6F); (0x0AE6, 0x0AEF); (0x0B66, 0x0B6F); (0x0BE6, 0x0BEF);
    (0x0C66, 0x0C6F); (0x0CE6, 0x0CEF); (0x0D66, 0x0D6F); (0x0DE6, 0x0DEF); (0x0E50, 0x0E59);
    (0x0ED0, 0x0ED9); (0x0F20, 0x0F29); (0x1040, 0x1049); (0x1090, 0x1099); (0x17E0, 0x17E9);
    (0x1810, 0x1819); (0x1946, 0x194F); (0x19D0, 0x19D9); (0x1A80, 0x1A89); (0x1A90, 0x1A99);
    (0x1B50, 0x1B59); (0x1BB0, 0x1BB9); (0x1C40, 0x1C49); (0x1C50, 0x1C59); (0xA620, 0xA629);
    (0xA8D0, 0xA8D9); (0xA900, 0xA909); (0xA9D0, 0xA9D9); (0xA9F0, 0xA9F9); (0xAA50, 0xAA59);
    (0xABF0, 0xABF9); (0xFF10, 0xFF19); (0x104A0, 0x104A9); (0x10D30, 0x10D39);
    (0x11066, 0x1106F); (0x110F0, 0x110F9); (0x11136, 0x1113F); (0x111D0, 0x111D9);
    (0x112F0, 0x112F9); (0x11450, 0x11459); (0x114D0, 0x114D9); (0x11650, 0x11659);
    (0x116C0, 0x116C9); (0x11730, 0x11739); (0x118E0, 0x118E9); (0x11950, 0x11959);
    (0x11C50, 0x11C59); (0x11D50, 0x11D59); (0x11DA0, 0x11DA9); (0x16A60, 0x16A69);
    (0x16AC0, 0x16AC9); (0x16B50, 0x16B59); (0x1D7CE, 0x1D7FF); (0x1E140, 0x1E149);
    (0x1E2F0, 0x1E2F9); (0x1E950, 0x1E959); (0x1FBF0, 0x1FBF9) ]%N.

(** [str.isdigit]: the decimal digits and the other characters with a digit
    value (superscripts, circled digits and the like). *)
Definition digit_ranges : list (N * N) :=
  [ (0x0030, 0x0039); (0x00B2, 0x00B3); (0x00B9, 0x00B9); (0x0660, 0x0669); (0x06F0, 0x06F9);
    (0x07C0, 0x07C9); (0x0966, 0x096F); (0x09E6, 0x09EF); (0x0A66, 0x0A6F); (0x0AE6, 0x0AEF);
    (0x0B66, 0x0B6F); (0x0BE6, 0x0BEF); (0x0C66, 0x0C6F); (0x0CE6, 0x0CEF); (0x0D66, 0x0D6F);
    (0x0DE6, 0x0DEF); (0x0E50, 0x0E59); (0x0ED0, 0x0ED9); (0x0F20, 0x0F29); (0x1040, 0x1049);
    (0x1090, 0x1099); (0x1369, 0x1371); (0x17E0, 0x17E9); (0x1810, 0x1819); (0x1946, 0x194F);
    (0x19D0, 0x19DA); (0x1A80, 0x1A89); (0x1A90, 0x1A99); (0x1B50, 0x1B59); (0x1BB0, 0x1BB9);
    (0x1C40, 0x1C49); (0x1C50, 0x1C59); (0x2070, 0x2070); (0x2074, 0x2079); (0x2080, 0x2089);
    (0x2460, 0x2468); (0x2474, 0x247C); (0x2488, 0x2490); (0x24EA, 0x24EA); (0x24F5, 0x24FD);
    (0x24FF, 0x24FF); (0x2776, 0x277E); (0x2780, 0x2788); (0x278A, 0x2792); (0xA620, 0xA629);
    (0xA8D0, 0xA8D9); (0xA900, 0xA909); (0xA9D0, 0xA9D9); (0xA9F0, 0xA9F9); (0xAA50, 0xAA59);
    (0xABF0, 0xABF9); (0xFF10, 0xFF19); (0x104A0, 0x104A9); (0x10A40, 0x10A43);
    (0x10D30, 0x10D39); (0x10E60, 0x10E68); (0x11052, 0x1105A); (0x11066, 0x1106F);
    (0x110F0, 0x110F9); (0x11136, 0x1113F); (0x111D0, 0x111D9); (0x112F0, 0x112F9);
    (0x11450, 0x11459); (0x114D0, 0x114D9); (0x11650, 0x11659); (0x116C0, 0x116C9);
    (0x11730, 0x11739); (0x118E0, 0x118E9); (0x11950, 0x11959); (0x11C50, 0x11C59);
    (0x11D50, 0x11D59); (0x11DA0, 0x11DA9); (0x16A60, 0x16A69); (0x16AC0, 0x16AC9);
    (0x16B50, 0x16B59); (0x1D7CE, 0x1D7FF); (0x1E140, 0x1E149); (0x1E2F0, 0x1E2F9);
    (0x1E950, 0x1E959); (0x1F100, 0x1F10A); (0x1FBF0, 0x1FBF9) ]%N.

(** [str.isnumeric]: the characters with a numeric value. *)
Definition numeric_ranges : list (N * N) :=
  [ (0x0030, 0x0039); (0x00B2, 0x00B3); (0x00B9, 0x00B9); (0x00BC, 0x00BE); (0x0660, 0x0669);
    (0x06F0, 0x06F9); (0x07C0, 0x07C9); (0x0966, 0x096F); (0x09E6, 0x09EF); (0x09F4, 0x09F9);
    (0x0A66, 0x0A6F); (0x0AE6, 0x0AEF); (0x0B66, 0x0B6F); (0x0B72, 0x0B77); (0x0BE6, 0x0BF2);
    (0x0C66, 0x0C6F); (0x0C78, 0x0C7E); (0x0CE6, 0x0CEF); (0x0D58, 0x0D5E); (0x0D66, 0x0D78);
    (0x0DE6, 0x0DEF); (0x0E50, 0x0E59); (0x0ED0, 0x0ED9); (0x0F20, 0x0F33); (0x1040, 0x1049);
    (0x1090, 0x1099); (0x1369, 0x137C); (0x16EE, 0x16F0); (0x17E0, 0x17E9); (0x17F0, 0x17F9);
    (0x1810, 0x1819); (0x1946, 0x194F); (0x19D0, 0x19DA); (0x1A80, 0x1A89); (0x1A90, 0x1A99);
    (0x1B50, 0x1B59); (0x1BB0, 0x1BB9); (0x1C40, 0x1C49); (0x1C50, 0x1C59); (0x2070, 0x2070);
    (0x2074, 0x2079); (0x2080, 0x2089); (0x2150, 0x2182); (0x2185, 0x2189); (0x2460, 0x249B);
    (0x24EA, 0x24FF); (0x2776, 0x2793); (0x2CFD, 0x2CFD); (0x3007, 0x3007); (0x3021, 0x3029);
    (0x3038, 0x303A); (0x3192, 0x3195); (0x3220, 0x3229); (0x3248, 0x324F); (0x3251, 0x325F);
    (0x3280, 0x3289); (0x32B1, 0x32BF); (0x3405, 0x3405); (0x3483, 0x3483); (0x382A, 0x382A);
    (0x3B4D, 0x3B4D); (0x4E00, 0x4E00); (0x4E03, 0x4E03); (0x4E07, 0x4E07); (0x4E09, 0x4E09);
    (0x4E5D, 0x4E5D); (0x4E8C, 0x4E8C); (0x4E94, 0x4E94); (0x4E96, 0x4E96); (0x4EBF, 0x4EC0);
    (0x4EDF, 0x4EDF); (0x4EE8, 0x4EE8); (0x4F0D, 0x4F0D); (0x4F70, 0x4F70); (0x5104, 0x5104);
    (0x5146, 0x5146); (0x5169, 0x5169); (0x516B, 0x516B); (0x516D, 0x516D); (0x5341, 0x5341);
    (0x5343, 0x5345); (0x534C, 0x534C); (0x53C1, 0x53C4); (0x56DB, 0x56DB); (0x58F1, 0x58F1);
    (0x58F9, 0x58F9); (0x5E7A, 0x5E7A); (0x5EFE, 0x5EFF); (0x5F0C, 0x5F0E); (0x5F10, 0x5F10);
    (0x62FE, 0x62FE); (0x634C, 0x634C); (0x67D2, 0x67D2); (0x6F06, 0x6F06); (0x7396, 0x7396);
    (0x767E, 0x767E); (0x8086, 0x8086); (0x842C, 0x842C); (0x8CAE, 0x8CAE); (0x8CB3, 0x8CB3);
    (0x8D30, 0x8D30); (0x9621, 0x9621); (0x9646, 0x9646); (0x964C, 0x964C); (0x9678, 0x9678);
    (0x96F6, 0x96F6); (0xA620, 0xA629); (0xA6E6, 0xA6EF); (0xA830, 0xA835); (0xA8D0, 0xA8D9);
    (0xA900, 0xA909); (0xA9D0, 0xA9D9); (0xA9F0, 0xA9F9); (0xAA50, 0xAA59); (0xABF0, 0xABF9);
    (0xF96B, 0xF96B); (0xF973, 0xF973); (0xF978, 0xF978); (0xF9B2, 0xF9B2); (0xF9D1, 0xF9D1);
    (0xF9D3, 0xF9D3); (0xF9FD, 0xF9FD); (0xFF10, 0xFF19); (0x10107, 0x10133);
    (0x10140, 0x10178); (0x1018A, 0x1018B); (0x102E1, 0x102FB); (0x10320, 0x10323);
    (0x10341, 0x10341); (0x1034A, 0x1034A); (0x103D1, 0x103D5); (0x104A0, 0x104A9);
    (0x10858, 0x1085F); (0x10879, 0x1087F); (0x108A7, 0x108AF); (0x108FB, 0x108FF);
    (0x10916, 0x1091B); (0x109BC, 0x109BD); (0x109C0, 0x109CF); (0x109D2, 0x109FF);
    (0x10A40, 0x10A48); (0x10A7D, 0x10A7E); (0x10A9D, 0x10A9F); (0x10AEB, 0x10AEF);
    (0x10B58, 0x10B5F); (0x10B78, 0x10B7F); (0x10BA9, 0x10BAF); (0x10CFA, 0x10CFF);
    (0x10D30, 0x10D39); (0x10E60, 0x10E7E); (0x10F1D, 0x10F26); (0x10F51, 0x10F54);
    (0x10FC5, 0x10FCB); (0x11052, 0x1106F); (0x110F0, 0x110F9); (0x11136, 0x1113F);
    (0x111D0, 0x111D9); (0x111E1, 0x111F4); (0x112F0, 0x112F9); (0x11450, 0x11459);
    (0x114D0, 0x114D9); (0x11650, 0x11659); (0x116C0, 0x116C9); (0x11730, 0x1173B);
    (0x118E0, 0x118F2); (0x11950, 0x11959); (0x11C50, 0x11C6C); (0x11D50, 0x11D59);
    (0x11DA0, 0x11DA9); (0x11FC0, 0x11FD4); (0x12400, 0x1246E); (0x16A60, 0x16A69);
    (0x16AC0, 0x16AC9); (0x16B50, 0x16B59); (0x16B5B, 0x16B61); (0x16E80, 0x16E96);
    (0x1D2E0, 0x1D2F3); (0x1D360, 0x1D378); (0x1D7CE, 0x1D7FF); (0x1E140, 0x1E149);
    (0x1E2F0, 0x1E2F9); (0x1E8C7, 0x1E8CF); (0x1E950, 0x1E959); (0x1EC71, 0x1ECAB);
    (0x1ECAD, 0x1ECAF); (0x1ECB1, 0x1ECB4); (0x1ED01, 0x1ED2D); (0x1ED2F, 0x1ED3D);
    (0x1F100, 0x1F10C); (0x1FBF0, 0x1FBF9); (0x20001, 0x20001); (0x20064, 0x20064);
    (0x200E2, 0x200E2); (0x20121, 0x20121); (0x2092A, 0x2092A); (0x20983, 0x20983);
    (0x2098C, 0x2098C); (0x2099C, 0x2099C); (0x20AEA, 0x20AEA); (0x20AFD, 0x20AFD);
    (0x20B19, 0x20B19); (0x22390, 0x22390); (0x22998, 0x22998); (0x23B1B, 0x23B1B);
    (0x2626D, 0x2626D); (0x2F890, 0x2F890) ]%N.

(** [str.isalpha]: the letters (categories Lu, Ll, Lt, Lm, Lo). *)
Definition alpha_ranges : list (N * N) :=
  [ (0x0041, 0x005A); (0x0061, 0x007A); (0x00AA, 0x00AA); (0x00B5, 0x00B5); (0x00BA, 0x00BA);
    (0x00C0, 0x00D6); (0x00D8, 0x00F6); (0x00F8, 0x02C1); (0x02C6, 0x02D1); (0x02E0, 0x02E4);
    (0x02EC, 0x02EC); (0x02EE, 0x02EE); (0x0370, 0x0374); (0x0376, 0x0377); (0x037A, 0x037D);
    (0x037F, 0x037F); (0x0386, 0x0386); (0x0388, 0x038A); (0x038C, 0x038C); (0x038E, 0x03A1);
    (0x03A3, 0x03F5); (0x03F7, 0x0481); (0x048A, 0x052F); (0x0531, 0x0556); (0x0559, 0x0559);
    (0x0560, 0x0588); (0x05D0, 0x05EA); (0x05EF, 0x05F2); (0x0620, 0x064A); (0x066E, 0x066F);
    (0x0671, 0x06D3); (0x06D5, 0x06D5); (0x06E5, 0x06E6); (0x06EE, 0x06EF); (0x06FA, 0x06FC);
    (0x06FF, 0x06FF); (0x0710, 0x0710); (0x0712, 0x072F); (0x074D, 0x07A5); (0x07B1, 0x07B1);
    (0x07CA, 0x07EA); (0x07F4, 0x07F5); (0x07FA, 0x07FA); (0x0800, 0x0815); (0x081A, 0x081A);
    (0x0824, 0x0824); (0x0828, 0x0828); (0x0840, 0x0858); (0x0860, 0x086A); (0x0870, 0x0887);
    (0x0889, 0x088E); (0x08A0, 0x08C9); (0x0904, 0x0939); (0x093D, 0x093D); (0x0950, 0x0950);
    (0x0958, 0x0961); (0x0971, 0x0980); (0x0985, 0x098C); (0x098F, 0x0990); (0x0993, 0x09A8);
    (0x09AA, 0x09B0); (0x09B2, 0x09B2); (0x09B6, 0x09B9); (0x09BD, 0x09BD); (0x09CE, 0x09CE);
    (0x09DC, 0x09DD); (0x09DF, 0x09E1); (0x09F0, 0x09F1); (0x09FC, 0x09FC); (0x0A05, 0x0A0A);
    (0x0A0F, 0x0A10); (0x0A13, 0x0A28); (0x0A2A, 0x0A30); (0x0A32, 0x0A33); (0x0A35, 0x0A36);
    (0x0A38, 0x0A39); (0x0A59, 0x0A5C); (0x0A5E, 0x0A5E); (0x0A72, 0x0A74); (0x0A85, 0x0A8D);
    (0x0A8F, 0x0A91); (0x0A93, 0x0AA8); (0x0AAA, 0x0AB0); (0x0AB2, 0x0AB3); (0x0AB5, 0x0AB9);
    (0x0ABD, 0x0ABD); (0x0AD0, 0x0AD0); (0x0AE0, 0x0AE1); (0x0AF9, 0x0AF9); (0x0B05, 0x0B0C);
    (0x0B0F, 0x0B10); (0x0B13, 0x0B28); (0x0B2A, 0x0B30); (0x0B32, 0x0B33); (0x0B35, 0x0B39);
    (0x0B3D, 0x0B3D); (0x0B5C, 0x0B5D); (0x0B5F, 0x0B61); (0x0B71, 0x0B71); (0x0B83, 0x0B83);
    (0x0B85, 0x0B8A); (0x0B8E, 0x0B90); (0x0B92, 0x0B95); (0x0B99, 0x0B9A); (0x0B9C, 0x0B9C);
    (0x0B9E, 0x0B9F); (0x0BA3, 0x0BA4); (0x0BA8, 0x0BAA); (0x0BAE, 0x0BB9); (0x0BD0, 0x0BD0);
    (0x0C05, 0x0C0C); (0x0C0E, 0x0C10); (0x0C12, 0x0C28); (0x0C2A, 0x0C39); (0x0C3D, 0x0C3D);
    (0x0C58, 0x0C5A); (0x0C5D, 0x0C5D); (0x0C60, 0x0C61); (0x0C80, 0x0C80); (0x0C85, 0x0C8C);
    (0x0C8E, 0x0C90); (0x0C92, 0x0CA8); (0x0CAA, 0x0CB3); (0x0CB5, 0x0CB9); (0x0CBD, 0x0CBD);
    (0x0CDD, 0x0CDE); (0x0CE0, 0x0CE1); (0x0CF1, 0x0CF2); (0x0D04, 0x0D0C); (0x0D0E, 0x0D10);
    (0x0D12, 0x0D3A); (0x0D3D, 0x0D3D); (0x0D4E, 0x0D4E); (0x0D54, 0x0D56); (0x0D5F, 0x0D61);
    (0x0D7A, 0x0D7F); (0x0D85, 0x0D96); (0x0D9A, 0x0DB1); (0x0DB3, 0x0DBB); (0x0DBD, 0x0DBD);
    (0x0DC0, 0x0DC6); (0x0E01, 0x0E30); (0x0E32, 0x0E33); (0x0E40, 0x0E46); (0x0E81, 0x0E82);
    (0x0E84, 0x0E84); (0x0E86, 0x0E8A); (0x0E8C, 0x0EA3); (0x0EA5, 0x0EA5); (0x0EA7, 0x0EB0);
    (0x0EB2, 0x0EB3); (0x0EBD, 0x0EBD); (0x0EC0, 0x0EC4); (0x0EC6, 0x0EC6); (0x0EDC, 0x0EDF);
    (0x0F00, 0x0F00); (0x0F40, 0x0F47); (0x0F49, 0x0F6C); (0x0F88, 0x0F8C); (0x1000, 0x102A);
    (0x103F, 0x103F); (0x1050, 0x1055); (0x105A, 0x105D); (0x1061, 0x1061); (0x1065, 0x1066);
    (0x106E, 0x1070); (0x1075, 0x1081); (0x108E, 0x108E); (0x10A0, 0x10C5); (0x10C7, 0x10C7);
    (0x10CD, 0x10CD); (0x10D0, 0x10FA); (0x10FC, 0x1248); (0x124A, 0x124D); (0x1250, 0x1256);
    (0x1258, 0x1258); (0x125A, 0x125D); (0x1260, 0x1288); (0x128A, 0x128D); (0x1290, 0x12B0);
    (0x12B2, 0x12B5); (0x12B8, 0x12BE); (0x12C0, 0x12C0); (0x12C2, 0x12C5); (0x12C8, 0x12D6);
    (0x12D8, 0x1310); (0x1312, 0x1315); (0x1318, 0x135A); (0x1380, 0x138F); (0x13A0, 0x13F5);
    (0x13F8, 0x13FD); (0x1401, 0x166C); (0x166F, 0x167F); (0x1681, 0x169A); (0x16A0, 0x16EA);
    (0x16F1, 0x16F8); (0x1700, 0x1711); (0x171F, 0x1731); (0x1740, 0x1751); (0x1760, 0x176C);
    (0x176E, 0x1770); (0x1780, 0x17B3); (0x17D7, 0x17D7); (0x17DC, 0x17DC); (0x1820, 0x1878);
    (0x1880, 0x1884); (0x1887, 0x18A8); (0x18AA, 0x18AA); (0x18B0, 0x18F5); (0x1900, 0x191E);
    (0x1950, 0x196D); (0x1970, 0x1974); (0x1980, 0x19AB); (0x19B0, 0x19C9); (0x1A00, 0x1A16);
    (0x1A20, 0x1A54); (0x1AA7, 0x1AA7); (0x1B05, 0x1B33); (0x1B45, 0x1B4C); (0x1B83, 0x1BA0);
    (0x1BAE, 0x1BAF); (0x1BBA, 0x1BE5); (0x1C00, 0x1C23); (0x1C4D, 0x1C4F); (0x1C5A, 0x1C7D);
    (0x1C80, 0x1C88); (0x1C90, 0x1CBA); (0x1CBD, 0x1CBF); (0x1CE9, 0x1CEC); (0x1CEE, 0x1CF3);
    (0x1CF5, 0x1CF6); (0x1CFA, 0x1CFA); (0x1D00, 0x1DBF); (0x1E00, 0x1F15); (0x1F18, 0x1F1D);
    (0x1F20, 0x1F45); (0x1F48, 0x1F4D); (0x1F50, 0x1F57); (0x1F59, 0x1F59); (0x1F5B, 0x1F5B);
    (0x1F5D, 0x1F5D); (0x1F5F, 0x1F7D); (0x1F80, 0x1FB4); (0x1FB6, 0x1FBC); (0x1FBE, 0x1FBE);
    (0x1FC2, 0x1FC4); (0x1FC6, 0x1FCC); (0x1FD0, 0x1FD3); (0x1FD6, 0x1FDB); (0x1FE0, 0x1FEC);
    (0x1FF2, 0x1FF4); (0x1FF6, 0x1FFC); (0x2071, 0x2071); (0x207F, 0x207F); (0x2090, 0x209C);
    (0x2102, 0x2102); (0x2107, 0x2107); (0x210A, 0x2113); (0x2115, 0x2115); (0x2119, 0x211D);
    (0x2124, 0x2124); (0x2126, 0x2126); (0x2128, 0x2128); (0x212A, 0x212D); (0x212F, 0x2139);
    (0x213C, 0x213F); (0x2145, 0x2149); (0x214E, 0x214E); (0x2183, 0x2184); (0x2C00, 0x2CE4);
    (0x2CEB, 0x2CEE); (0x2CF2, 0x2CF3); (0x2D00, 0x2D25); (0x2D27, 0x2D27); (0x2D2D, 0x2D2D);
    (0x2D30, 0x2D67); (0x2D6F, 0x2D6F); (0x2D80, 0x2D96); (0x2DA0, 0x2DA6); (0x2DA8, 0x2DAE);
    (0x2DB0, 0x2DB6); (0x2DB8, 0x2DBE); (0x2DC0, 0x2DC6); (0x2DC8, 0x2DCE); (0x2DD0, 0x2DD6);
    (0x2DD8, 0x2DDE); (0x2E2F, 0x2E2F); (0x3005, 0x3006); (0x3031, 0x3035); (0x303B, 0x303C);
    (0x3041, 0x3096); (0x309D, 0x309F); (0x30A1, 0x30FA); (0x30FC, 0x30FF); (0x3105, 0x312F);
    (0x3131, 0x318E); (0x31A0, 0x31BF); (0x31F0, 0x31FF); (0x3400, 0x4DBF); (0x4E00, 0xA48C);
    (0xA4D0, 0xA4FD); (0xA500, 0xA60C); (0xA610, 0xA61F); (0xA62A, 0xA62B); (0xA640, 0xA66E);
    (0xA67F, 0xA69D); (0xA6A0, 0xA6E5); (0xA717, 0xA71F); (0xA722, 0xA788); (0xA78B, 0xA7CA);
    (0xA7D0, 0xA7D1); (0xA7D3, 0xA7D3); (0xA7D5, 0xA7D9); (0xA7F2, 0xA801); (0xA803, 0xA805);
    (0xA807, 0xA80A); (0xA80C, 0xA822); (0xA840, 0xA873); (0xA882, 0xA8B3); (0xA8F2, 0xA8F7);
    (0xA8FB, 0xA8FB); (0xA8FD, 0xA8FE); (0xA90A, 0xA925); (0xA930, 0xA946); (0xA960, 0xA97C);
    (0xA984, 0xA9B2); (0xA9CF, 0xA9CF); (0xA9E0, 0xA9E4); (0xA9E6, 0xA9EF); (0xA9FA, 0xA9FE);
    (0xAA00, 0xAA28); (0xAA40, 0xAA42); (0xAA44, 0xAA4B); (0xAA60, 0xAA76); (0xAA7A, 0xAA7A);
    (0xAA7E, 0xAAAF); (0xAAB1, 0xAAB1); (0xAAB5, 0xAAB6); (0xAAB9, 0xAABD); (0xAAC0, 0xAAC0);
    (0xAAC2, 0xAAC2); (0xAADB, 0xAADD); (0xAAE0, 0xAAEA); (0xAAF2, 0xAAF4); (0xAB01, 0xAB06);
    (0xAB09, 0xAB0E); (0xAB11, 0xAB16); (0xAB20, 0xAB26); (0xAB28, 0xAB2E); (0xAB30, 0xAB5A);
    (0xAB5C, 0xAB69); (0xAB70, 0xABE2); (0xAC00, 0xD7A3); (0xD7B0, 0xD7C6); (0xD7CB, 0xD7FB);
    (0xF900, 0xFA6D); (0xFA70, 0xFAD9); (0xFB00, 0xFB06); (0xFB13, 0xFB17); (0xFB1D, 0xFB1D);
    (0xFB1F, 0xFB28); (0xFB2A, 0xFB36); (0xFB38, 0xFB3C); (0xFB3E, 0xFB3E); (0xFB40, 0xFB41);
    (0xFB43, 0xFB44); (0xFB46, 0xFBB1); (0xFBD3, 0xFD3D); (0xFD50, 0xFD8F); (0xFD92, 0xFDC7);
    (0xFDF0, 0xFDFB); (0xFE70, 0xFE74); (0xFE76, 0xFEFC); (0xFF21, 0xFF3A); (0xFF41, 0xFF5A);
    (0xFF66, 0xFFBE); (0xFFC2, 0xFFC7); (0xFFCA, 0xFFCF); (0xFFD2, 0xFFD7); (0xFFDA, 0xFFDC);
    (0x10000, 0x1000B); (0x1000D, 0x10026); (0x10028, 0x1003A); (0x1003C, 0x1003D);
    (0x1003F, 0x1004D); (0x10050, 0x1005D); (0x10080, 0x100FA); (0x10280, 0x1029C);
    (0x102A0, 0x102D0); (0x10300, 0x1031F); (0x1032D, 0x10340); (0x10342, 0x10349);
    (0x10350, 0x10375); (0x10380, 0x1039D); (0x103A0, 0x103C3); (0x103C8, 0x103CF);
    (0x10400, 0x1049D); (0x104B0, 0x104D3); (0x104D8, 0x104FB); (0x10500, 0x10527);
    (0x10530, 0x10563); (0x10570, 0x1057A); (0x1057C, 0x1058A); (0x1058C, 0x10592);
    (0x10594, 0x10595); (0x10597, 0x105A1); (0x105A3, 0x105B1); (0x105B3, 0x105B9);
    (0x105BB, 0x105BC); (0x10600, 0x10736); (0x10740, 0x10755); (0x10760, 0x10767);
    (0x10780, 0x10785); (0x10787, 0x107B0); (0x107B2, 0x107BA); (0x10800, 0x10805);
    (0x10808, 0x10808); (0x1080A, 0x10835); (0x10837, 0x10838); (0x1083C, 0x1083C);
    (0x1083F, 0x10855); (0x10860, 0x10876); (0x10880, 0x1089E); (0x108E0, 0x108F2);
    (0x108F4, 0x108F5); (0x10900, 0x10915); (0x10920, 0x10939); (0x10980, 0x109B7);
    (0x109BE, 0x109BF); (0x10A00, 0x10A00); (0x10A10, 0x10A13); (0x10A15, 0x10A17);
    (0x10A19, 0x10A35); (0x10A60, 0x10A7C); (0x10A80, 0x10A9C); (0x10AC0, 0x10AC7);
    (0x10AC9, 0x10AE4); (0x10B00, 0x10B35); (0x10B40, 0x10B55); (0x10B60, 0x10B72);
    (0x10B80, 0x10B91); (0x10C00, 0x10C48); (0x10C80, 0x10CB2); (0x10CC0, 0x10CF2);
    (0x10D00, 0x10D23); (0x10E80, 0x10EA9); (0x10EB0, 0x10EB1); (0x10F00, 0x10F1C);
    (0x10F27, 0x10F27); (0x10F30, 0x10F45); (0x10F70, 0x10F81); (0x10FB0, 0x10FC4);
    (0x10FE0, 0x10FF6); (0x11003, 0x11037); (0x11071, 0x11072); (0x11075, 0x11075);
    (0x11083, 0x110AF); (0x110D0, 0x110E8); (0x11103, 0x11126); (0x11144, 0x11144);
    (0x11147, 0x11147); (0x11150, 0x11172); (0x11176, 0x11176); (0x11183, 0x111B2);
    (0x111C1, 0x111C4); (0x111DA, 0x111DA); (0x111DC, 0x111DC); (0x11200, 0x11211);
    (0x11213, 0x1122B); (0x11280, 0x11286); (0x11288, 0x11288); (0x1128A, 0x1128D);
    (0x1128F, 0x1129D); (0x1129F, 0x112A8); (0x112B0, 0x112DE); (0x11305, 0x1130C);
    (0x1130F, 0x11310); (0x11313, 0x11328); (0x1132A, 0x11330); (0x11332, 0x11333);
    (0x11335, 0x11339); (0x1133D, 0x1133D); (0x11350, 0x11350); (0x1135D, 0x11361);
    (0x11400, 0x11434); (0x11447, 0x1144A); (0x1145F, 0x11461); (0x11480, 0x114AF);
    (0x114C4, 0x114C5); (0x114C7, 0x114C7); (0x11580, 0x115AE); (0x115D8, 0x115DB);
    (0x11600, 0x1162F); (0x11644, 0x11644); (0x11680, 0x116AA); (0x116B8, 0x116B8);
    (0x11700, 0x1171A); (0x11740, 0x11746); (0x11800, 0x1182B); (0x118A0, 0x118DF);
    (0x118FF, 0x11906); (0x11909, 0x11909); (0x1190C, 0x11913); (0x11915, 0x11916);
    (0x11918, 0x1192F); (0x1193F, 0x1193F); (0x11941, 0x11941); (0x119A0, 0x119A7);
    (0x119AA, 0x119D0); (0x119E1, 0x119E1); (0x119E3, 0x119E3); (0x11A00, 0x11A00);
    (0x11A0B, 0x11A32); (0x11A3A, 0x11A3A); (0x11A50, 0x11A50); (0x11A5C, 0x11A89);
    (0x11A9D, 0x11A9D); (0x11AB0, 0x11AF8); (0x11C00, 0x11C08); (0x11C0A, 0x11C2E);
    (0x11C40, 0x11C40); (0x11C72, 0x11C8F); (0x11D00, 0x11D06); (0x11D08, 0x11D09);
    (0x11D0B, 0x11D30); (0x11D46, 0x11D46); (0x11D60, 0x11D65); (0x11D67, 0x11D68);
    (0x11D6A, 0x11D89); (0x11D98, 0x11D98); (0x11EE0, 0x11EF2); (0x11FB0, 0x11FB0);
    (0x12000, 0x12399); (0x12480, 0x12543); (0x12F90, 0x12FF0); (0x13000, 0x1342E);
    (0x14400, 0x14646); (0x16800, 0x16A38); (0x16A40, 0x16A5E); (0x16A70, 0x16ABE);
    (0x16AD0, 0x16AED); (0x16B00, 0x16B2F); (0x16B40, 0x16B43); (0x16B63, 0x16B77);
    (0x16B7D, 0x16B8F); (0x16E40, 0x16E7F); (0x16F00, 0x16F4A); (0x16F50, 0x16F50);
    (0x16F93, 0x16F9F); (0x16FE0, 0x16FE1); (0x16FE3, 0x16FE3); (0x17000, 0x187F7);
    (0x18800, 0x18CD5); (0x18D00, 0x18D08); (0x1AFF0, 0x1AFF3); (0x1AFF5, 0x1AFFB);
    (0x1AFFD, 0x1AFFE); (0x1B000, 0x1B122); (0x1B150, 0x1B152); (0x1B164, 0x1B167);
    (0x1B170, 0x1B2FB); (0x1BC00, 0x1BC6A); (0x1BC70, 0x1BC7C); (0x1BC80, 0x1BC88);
    (0x1BC90, 0x1BC99); (0x1D400, 0x1D454); (0x1D456, 0x1D49C); (0x1D49E, 0x1D49F);
    (0x1D4A2, 0x1D4A2); (0x1D4A5, 0x1D4A6); (0x1D4A9, 0x1D4AC); (0x1D4AE, 0x1D4B9);
    (0x1D4BB, 0x1D4BB); (0x1D4BD, 0x1D4C3); (0x1D4C5, 0x1D505); (0x1D507, 0x1D50A);
    (0x1D50D, 0x1D514); (0x1D516, 0x1D51C); (0x1D51E, 0x1D539); (0x1D53B, 0x1D53E);
    (0x1D540, 0x1D544); (0x1D546, 0x1D546); (0x1D54A, 0x1D550); (0x1D552, 0x1D6A5);
    (0x1D6A8, 0x1D6C0); (0x1D6C2, 0x1D6DA); (0x1D6DC, 0x1D6FA); (0x1D6FC, 0x1D714);
    (0x1D716, 0x1D734); (0x1D736, 0x1D74E); (0x1D750, 0x1D76E); (0x1D770, 0x1D788);
    (0x1D78A, 0x1D7A8); (0x1D7AA, 0x1D7C2); (0x1D7C4, 0x1D7CB); (0x1DF00, 0x1DF1E);
    (0x1E100, 0x1E12C); (0x1E137, 0x1E13D); (0x1E14E, 0x1E14E); (0x1E290, 0x1E2AD);
    (0x1E2C0, 0x1E2EB); (0x1E7E0, 0x1E7E6); (0x1E7E8, 0x1E7EB); (0x1E7ED, 0x1E7EE);
    (0x1E7F0, 0x1E7FE); (0x1E800, 0x1E8C4); (0x1E900, 0x1E943); (0x1E94B, 0x1E94B);
    (0x1EE00, 0x1EE03); (0x1EE05, 0x1EE1F); (0x1EE21, 0x1EE22); (0x1EE24, 0x1EE24);
    (0x1EE27, 0x1EE27); (0x1EE29, 0x1EE32); (0x1EE34, 0x1EE37); (0x1EE39, 0x1EE39);
    (0x1EE3B, 0x1EE3B); (0x1EE42, 0x1EE42); (0x1EE47, 0x1EE47); (0x1EE49, 0x1EE49);
    (0x1EE4B, 0x1EE4B); (0x1EE4D, 0x1EE4F); (0x1EE51, 0x1EE52); (0x1EE54, 0x1EE54);
    (0x1EE57, 0x1EE57); (0x1EE59, 0x1EE59); (0x1EE5B, 0x1EE5B); (0x1EE5D, 0x1EE5D);
    (0x1EE5F, 0x1EE5F); (0x1EE61, 0x1EE62); (0x1EE64, 0x1EE64); (0x1EE67, 0x1EE6A);
    (0x1EE6C, 0x1EE72); (0x1EE74, 0x1EE77); (0x1EE79, 0x1EE7C); (0x1EE7E, 0x1EE7E);
    (0x1EE80, 0x1EE89); (0x1EE8B, 0x1EE9B); (0x1EEA1, 0x1EEA3); (0x1EEA5, 0x1EEA9);
    (0x1EEAB, 0x1EEBB); (0x20000, 0x2A6DF); (0x2A700, 0x2B738); (0x2B740, 0x2B81D);
    (0x2B820, 0x2CEA1); (0x2CEB0, 0x2EBE0); (0x2F800, 0x2FA1D); (0x30000, 0x3134A) ]%N.


(** The property Cased: lower-case, upper-case and title-case characters. *)
Definition cased_ranges : list (N * N) :=
  [ (0x0041, 0x005A); (0x0061, 0x007A); (0x00AA, 0x00AA); (0x00B5, 0x00B5); (0x00BA, 0x00BA);
    (0x00C0, 0x00D6); (0x00D8, 0x00F6); (0x00F8, 0x01BA); (0x01BC, 0x01BF); (0x01C4, 0x0293);
    (0x0295, 0x02B8); (0x02C0, 0x02C1); (0x02E0, 0x02E4); (0x0345, 0x0345); (0x0370, 0x0373);
    (0x0376, 0x0377); (0x037A, 0x037D); (0x037F, 0x037F); (0x0386, 0x0386); (0x0388, 0x038A);
    (0x038C, 0x038C); (0x038E, 0x03A1); (0x03A3, 0x03F5); (0x03F7, 0x0481); (0x048A, 0x052F);
    (0x0531, 0x0556); (0x0560, 0x0588); (0x10A0, 0x10C5); (0x10C7, 0x10C7); (0x10CD, 0x10CD);
    (0x10D0, 0x10FA); (0x10FD, 0x10FF); (0x13A0, 0x13F5); (0x13F8, 0x13FD); (0x1C80, 0x1C88);
    (0x1C90, 0x1CBA); (0x1CBD, 0x1CBF); (0x1D00, 0x1DBF); (0x1E00, 0x1F15); (0x1F18, 0x1F1D);
    (0x1F20, 0x1F45); (0x1F48, 0x1F4D); (0x1F50, 0x1F57); (0x1F59, 0x1F59); (0x1F5B, 0x1F5B);
    (0x1F5D, 0x1F5D); (0x1F5F, 0x1F7D); (0x1F80, 0x1FB4); (0x1FB6, 0x1FBC); (0x1FBE, 0x1FBE);
    (0x1FC2, 0x1FC4); (0x1FC6, 0x1FCC); (0x1FD0, 0x1FD3); (0x1FD6, 0x1FDB); (0x1FE0, 0x1FEC);
    (0x1FF2, 0x1FF4); (0x1FF6, 0x1FFC); (0x2071, 0x2071); (0x207F, 0x207F); (0x2090, 0x209C);
    (0x2102, 0x2102); (0x2107, 0x2107); (0x210A, 0x2113); (0x2115, 0x2115); (0x2119, 0x211D);
    (0x2124, 0x2124); (0x2126, 0x2126); (0x2128, 0x2128); (0x212A, 0x212D); (0x212F, 0x2134);
    (0x2139, 0x2139); (0x213C, 0x213F); (0x2145, 0x2149); (0x214E, 0x214E); (0x2160, 0x217F);
    (0x2183, 0x2184); (0x24B6, 0x24E9); (0x2C00, 0x2CE4); (0x2CEB, 0x2CEE); (0x2CF2, 0x2CF3);
    (0x2D00, 0x2D25); (0x2D27, 0x2D27); (0x2D2D, 0x2D2D); (0xA640, 0xA66D); (0xA680, 0xA69D);
    (0xA722, 0xA787); (0xA78B, 0xA78E); (0xA790, 0xA7CA); (0xA7D0, 0xA7D1); (0xA7D3, 0xA7D3);
    (0xA7D5, 0xA7D9); (0xA7F5, 0xA7F6); (0xA7F8, 0xA7FA); (0xAB30, 0xAB5A); (0xAB5C, 0xAB68);
    (0xAB70, 0xABBF); (0xFB00, 0xFB06); (0xFB13, 0xFB17); (0xFF21, 0xFF3A); (0xFF41, 0xFF5A);
    (0x10400, 0x1044F); (0x104B0, 0x104D3); (0x104D8, 0x104FB); (0x10570, 0x1057A);
    (0x1057C, 0x1058A); (0x1058C, 0x10592); (0x10594, 0x10595); (0x10597, 0x105A1);
    (0x105A3, 0x105B1); (0x105B3, 0x105B9); (0x105BB, 0x105BC); (0x10780, 0x10780);
    (0x10783, 0x10785); (0x10787, 0x107B0); (0x107B2, 0x107BA); (0x10C80, 0x10CB2);
    (0x10CC0, 0x10CF2); (0x118A0, 0x118DF); (0x16E40, 0x16E7F); (0x1D400, 0x1D454);
    (0x1D456, 0x1D49C); (0x1D49E, 0x1D49F); (0x1D4A2, 0x1D4A2); (0x1D4A5, 0x1D4A6);
    (0x1D4A9, 0x1D4AC); (0x1D4AE, 0x1D4B9); (0x1D4BB, 0x1D4BB); (0x1D4BD, 0x1D4C3);
    (0x1D4C5, 0x1D505); (0x1D507, 0x1D50A); (0x1D50D, 0x1D514); (0x1D516, 0x1D51C);
    (0x1D51E, 0x1D539); (0x1D53B, 0x1D53E); (0x1D540, 0x1D544); (0x1D546, 0x1D546);
    (0x1D54A, 0x1D550); (0x1D552, 0x1D6A5); (0x1D6A8, 0x1D6C0); (0x1D6C2, 0x1D6DA);
    (0x1D6DC, 0x1D6FA); (0x1D6FC, 0x1D714); (0x1D716, 0x1D734); (0x1D736, 0x1D74E);
    (0x1D750, 0x1D76E); (0x1D770, 0x1D788); (0x1D78A, 0x1D7A8); (0x1D7AA, 0x1D7C2);
    (0x1D7C4, 0x1D7CB); (0x1DF00, 0x1DF09); (0x1DF0B, 0x1DF1E); (0x1E900, 0x1E943);
    (0x1F130, 0x1F149); (0x1F150, 0x1F169); (0x1F170, 0x1F189) ]%N.

(** The property Case_Ignorable. *)
Definition case_ignorable_ranges : list (N * N) :=
  [ (0x0027, 0x0027); (0x002E, 0x002E); (0x003A, 0x003A); (0x005E, 0x005E); (0x0060, 0x0060);
    (0x00A8, 0x00A8); (0x00AD, 0x00AD); (0x00AF, 0x00AF); (0x00B4, 0x00B4); (0x00B7, 0x00B8);
    (0x02B0, 0x036F); (0x0374, 0x0375); (0x037A, 0x037A); (0x0384, 0x0385); (0x0387, 0x0387);
    (0x0483, 0x0489); (0x0559, 0x0559); (0x055F, 0x055F); (0x0591, 0x05BD); (0x05BF, 0x05BF);
    (0x05C1, 0x05C2); (0x05C4, 0x05C5); (0x05C7, 0x05C7); (0x05F4, 0x05F4); (0x0600, 0x0605);
    (0x0610, 0x061A); (0x061C, 0x061C); (0x0640, 0x0640); (0x064B, 0x065F); (0x0670, 0x0670);
    (0x06D6, 0x06DD); (0x06DF, 0x06E8); (0x06EA, 0x06ED); (0x070F, 0x070F); (0x0711, 0x0711);
    (0x0730, 0x074A); (0x07A6, 0x07B0); (0x07EB, 0x07F5); (0x07FA, 0x07FA); (0x07FD, 0x07FD);
    (0x0816, 0x082D); (0x0859, 0x085B); (0x0888, 0x0888); (0x0890, 0x0891); (0x0898, 0x089F);
    (0x08C9, 0x0902); (0x093A, 0x093A); (0x093C, 0x093C); (0x0941, 0x0948); (0x094D, 0x094D);
    (0x0951, 0x0957); (0x0962, 0x0963); (0x0971, 0x0971); (0x0981, 0x0981); (0x09BC, 0x09BC);
    (0x09C1, 0x09C4); (0x09CD, 0x09CD); (0x09E2, 0x09E3); (0x09FE, 0x09FE); (0x0A01, 0x0A02);
    (0x0A3C, 0x0A3C); (0x0A41, 0x0A42); (0x0A47, 0x0A48); (0x0A4B, 0x0A4D); (0x0A51, 0x0A51);
    (0x0A70, 0x0A71); (0x0A75, 0x0A75); (0x0A81, 0x0A82); (0x0ABC, 0x0ABC); (0x0AC1, 0x0AC5);
    (0x0AC7, 0x0AC8); (0x0ACD, 0x0ACD); (0x0AE2, 0x0AE3); (0x0AFA, 0x0AFF); (0x0B01, 0x0B01);
    (0x0B3C, 0x0B3C); (0x0B3F, 0x0B3F); (0x0B41, 0x0B44); (0x0B4D, 0x0B4D); (0x0B55, 0x0B56);
    (0x0B62, 0x0B63); (0x0B82, 0x0B82); (0x0BC0, 0x0BC0); (0x0BCD, 0x0BCD); (0x0C00, 0x0C00);
    (0x0C04, 0x0C04); (0x0C3C, 0x0C3C); (0x0C3E, 0x0C40); (0x0C46, 0x0C48); (0x0C4A, 0x0C4D);
    (0x0C55, 0x0C56); (0x0C62, 0x0C63); (0x0C81, 0x0C81); (0x0CBC, 0x0CBC); (0x0CBF, 0x0CBF);
    (0x0CC6, 0x0CC6); (0x0CCC, 0x0CCD); (0x0CE2, 0x0CE3); (0x0D00, 0x0D01); (0x0D3B, 0x0D3C);
    (0x0D41, 0x0D44); (0x0D4D, 0x0D4D); (0x0D62, 0x0D63); (0x0D81, 0x0D81); (0x0DCA, 0x0DCA);
    (0x0DD2, 0x0DD4); (0x0DD6, 0x0DD6); (0x0E31, 0x0E31); (0x0E34, 0x0E3A); (0x0E46, 0x0E4E);
    (0x0EB1, 0x0EB1); (0x0EB4, 0x0EBC); (0x0EC6, 0x0EC6); (0x0EC8, 0x0ECD); (0x0F18, 0x0F19);
    (0x0F35, 0x0F35); (0x0F37, 0x0F37); (0x0F39, 0x0F39); (0x0F71, 0x0F7E); (0x0F80, 0x0F84);
    (0x0F86, 0x0F87); (0x0F8D, 0x0F97); (0x0F99, 0x0FBC); (0x0FC6, 0x0FC6); (0x102D, 0x1030);
    (0x1032, 0x1037); (0x1039, 0x103A); (0x103D, 0x103E); (0x1058, 0x1059); (0x105E, 0x1060);
    (0x1071, 0x1074); (0x1082, 0x1082); (0x1085, 0x1086); (0x108D, 0x108D); (0x109D, 0x109D);
    (0x10FC, 0x10FC); (0x135D, 0x135F); (0x1712, 0x1714); (0x1732, 0x1733); (0x1752, 0x1753);
    (0x1772, 0x1773); (0x17B4, 0x17B5); (0x17B7, 0x17BD); (0x17C6, 0x17C6); (0x17C9, 0x17D3);
    (0x17D7, 0x17D7); (0x17DD, 0x17DD); (0x180B, 0x180F); (0x1843, 0x1843); (0x1885, 0x1886);
    (0x18A9, 0x18A9); (0x1920, 0x1922); (0x1927, 0x1928); (0x1932, 0x1932); (0x1939, 0x193B);
    (0x1A17, 0x1A18); (0x1A1B, 0x1A1B); (0x1A56, 0x1A56); (0x1A58, 0x1A5E); (0x1A60, 0x1A60);
    (0x1A62, 0x1A62); (0x1A65, 0x1A6C); (0x1A73, 0x1A7C); (0x1A7F, 0x1A7F); (0x1AA7, 0x1AA7);
    (0x1AB0, 0x1ACE); (0x1B00, 0x1B03); (0x1B34, 0x1B34); (0x1B36, 0x1B3A); (0x1B3C, 0x1B3C);
    (0x1B42, 0x1B42); (0x1B6B, 0x1B73); (0x1B80, 0x1B81); (0x1BA2, 0x1BA5); (0x1BA8, 0x1BA9);
    (0x1BAB, 0x1BAD); (0x1BE6, 0x1BE6); (0x1BE8, 0x1BE9); (0x1BED, 0x1BED); (0x1BEF, 0x1BF1);
    (0x1C2C, 0x1C33); (0x1C36, 0x1C37); (0x1C78, 0x1C7D); (0x1CD0, 0x1CD2); (0x1CD4, 0x1CE0);
    (0x1CE2, 0x1CE8); (0x1CED, 0x1CED); (0x1CF4, 0x1CF4); (0x1CF8, 0x1CF9); (0x1D2C, 0x1D6A);
    (0x1D78, 0x1D78); (0x1D9B, 0x1DFF); (0x1FBD, 0x1FBD); (0x1FBF, 0x1FC1); (0x1FCD, 0x1FCF);
    (0x1FDD, 0x1FDF); (0x1FED, 0x1FEF); (0x1FFD, 0x1FFE); (0x200B, 0x200F); (0x2018, 0x2019);
    (0x2024, 0x2024); (0x2027, 0x2027); (0x202A, 0x202E); (0x2060, 0x2064); (0x2066, 0x206F);
    (0x2071, 0x2071); (0x207F, 0x207F); (0x2090, 0x209C); (0x20D0, 0x20F0); (0x2C7C, 0x2C7D);
    (0x2CEF, 0x2CF1); (0x2D6F, 0x2D6F); (0x2D7F, 0x2D7F); (0x2DE0, 0x2DFF); (0x2E2F, 0x2E2F);
    (0x3005, 0x3005); (0x302A, 0x302D); (0x3031, 0x3035); (0x303B, 0x303B); (0x3099, 0x309E);
    (0x30FC, 0x30FE); (0xA015, 0xA015); (0xA4F8, 0xA4FD); (0xA60C, 0xA60C); (0xA66F, 0xA672);
    (0xA674, 0xA67D); (0xA67F, 0xA67F); (0xA69C, 0xA69F); (0xA6F0, 0xA6F1); (0xA700, 0xA721);
    (0xA770, 0xA770); (0xA788, 0xA78A); (0xA7F2, 0xA7F4); (0xA7F8, 0xA7F9); (0xA802, 0xA802);
    (0xA806, 0xA806); (0xA80B, 0xA80B); (0xA825, 0xA826); (0xA82C, 0xA82C); (0xA8C4, 0xA8C5);
    (0xA8E0, 0xA8F1); (0xA8FF, 0xA8FF); (0xA926, 0xA92D); (0xA947, 0xA951); (0xA980, 0xA982);
    (0xA9B3, 0xA9B3); (0xA9B6, 0xA9B9); (0xA9BC, 0xA9BD); (0xA9CF, 0xA9CF); (0xA9E5, 0xA9E6);
    (0xAA29, 0xAA2E); (0xAA31, 0xAA32); (0xAA35, 0xAA36); (0xAA43, 0xAA43); (0xAA4C, 0xAA4C);
    (0xAA70, 0xAA70); (0xAA7C, 0xAA7C); (0xAAB0, 0xAAB0); (0xAAB2, 0xAAB4); (0xAAB7, 0xAAB8);
    (0xAABE, 0xAABF); (0xAAC1, 0xAAC1); (0xAADD, 0xAADD); (0xAAEC, 0xAAED); (0xAAF3, 0xAAF4);
    (0xAAF6, 0xAAF6); (0xAB5B, 0xAB5F); (0xAB69, 0xAB6B); (0xABE5, 0xABE5); (0xABE8, 0xABE8);
    (0xABED, 0xABED); (0xFB1E, 0xFB1E); (0xFBB2, 0xFBC2); (0xFE00, 0xFE0F); (0xFE13, 0xFE13);
    (0xFE20, 0xFE2F); (0xFE52, 0xFE52); (0xFE55, 0xFE55); (0xFEFF, 0xFEFF); (0xFF07, 0xFF07);
    (0xFF0E, 0xFF0E); (0xFF1A, 0xFF1A); (0xFF3E, 0xFF3E); (0xFF40, 0xFF40); (0xFF70, 0xFF70);
    (0xFF9E, 0xFF9F); (0xFFE3, 0xFFE3); (0xFFF9, 0xFFFB); (0x101FD, 0x101FD);
    (0x102E0, 0x102E0); (0x10376, 0x1037A); (0x10780, 0x10785); (0x10787, 0x107B0);
    (0x107B2, 0x107BA); (0x10A01, 0x10A03); (0x10A05, 0x10A06); (0x10A0C, 0x10A0F);
    (0x10A38, 0x10A3A); (0x10A3F, 0x10A3F); (0x10AE5, 0x10AE6); (0x10D24, 0x10D27);
    (0x10EAB, 0x10EAC); (0x10F46, 0x10F50); (0x10F82, 0x10F85); (0x11001, 0x11001);
    (0x11038, 0x11046); (0x11070, 0x11070); (0x11073, 0x11074); (0x1107F, 0x11081);
    (0x110B3, 0x110B6); (0x110B9, 0x110BA); (0x110BD, 0x110BD); (0x110C2, 0x110C2);
    (0x110CD, 0x110CD); (0x11100, 0x11102); (0x11127, 0x1112B); (0x1112D, 0x11134);
    (0x11173, 0x11173); (0x11180, 0x11181); (0x111B6, 0x111BE); (0x111C9, 0x111CC);
    (0x111CF, 0x111CF); (0x1122F, 0x11231); (0x11234, 0x11234); (0x11236, 0x11237);
    (0x1123E, 0x1123E); (0x112DF, 0x112DF); (0x112E3, 0x112EA); (0x11300, 0x11301);
    (0x1133B, 0x1133C); (0x11340, 0x11340); (0x11366, 0x1136C); (0x11370, 0x11374);
    (0x11438, 0x1143F); (0x11442, 0x11444); (0x11446, 0x11446); (0x1145E, 0x1145E);
    (0x114B3, 0x114B8); (0x114BA, 0x114BA); (0x114BF, 0x114C0); (0x114C2, 0x114C3);
    (0x115B2, 0x115B5); (0x115BC, 0x115BD); (0x115BF, 0x115C0); (0x115DC, 0x115DD);
    (0x11633, 0x1163A); (0x1163D, 0x1163D); (0x1163F, 0x11640); (0x116AB, 0x116AB);
    (0x116AD, 0x116AD); (0x116B0, 0x116B5); (0x116B7, 0x116B7); (0x1171D, 0x1171F);
    (0x11722, 0x11725); (0x11727, 0x1172B); (0x1182F, 0x11837); (0x11839, 0x1183A);
    (0x1193B, 0x1193C); (0x1193E, 0x1193E); (0x11943, 0x11943); (0x119D4, 0x119D7);
    (0x119DA, 0x119DB); (0x119E0, 0x119E0); (0x11A01, 0x11A0A); (0x11A33, 0x11A38);
    (0x11A3B, 0x11A3E); (0x11A47, 0x11A47); (0x11A51, 0x11A56); (0x11A59, 0x11A5B);
    (0x11A8A, 0x11A96); (0x11A98, 0x11A99); (0x11C30, 0x11C36); (0x11C38, 0x11C3D);
    (0x11C3F, 0x11C3F); (0x11C92, 0x11CA7); (0x11CAA, 0x11CB0); (0x11CB2, 0x11CB3);
    (0x11CB5, 0x11CB6); (0x11D31, 0x11D36); (0x11D3A, 0x11D3A); (0x11D3C, 0x11D3D);
    (0x11D3F, 0x11D45); (0x11D47, 0x11D47); (0x11D90, 0x11D91); (0x11D95, 0x11D95);
    (0x11D97, 0x11D97); (0x11EF3, 0x11EF4); (0x13430, 0x13438); (0x16AF0, 0x16AF4);
    (0x16B30, 0x16B36); (0x16B40, 0x16B43); (0x16F4F, 0x16F4F); (0x16F8F, 0x16F9F);
    (0x16FE0, 0x16FE1); (0x16FE3, 0x16FE4); (0x1AFF0, 0x1AFF3); (0x1AFF5, 0x1AFFB);
    (0x1AFFD, 0x1AFFE); (0x1BC9D, 0x1BC9E); (0x1BCA0, 0x1BCA3); (0x1CF00, 0x1CF2D);
    (0x1CF30, 0x1CF46); (0x1D167, 0x1D169); (0x1D173, 0x1D182); (0x1D185, 0x1D18B);
    (0x1D1AA, 0x1D1AD); (0x1D242, 0x1D244); (0x1DA00, 0x1DA36); (0x1DA3B, 0x1DA6C);
    (0x1DA75, 0x1DA75); (0x1DA84, 0x1DA84); (0x1DA9B, 0x1DA9F); (0x1DAA1, 0x1DAAF);
    (0x1E000, 0x1E006); (0x1E008, 0x1E018); (0x1E01B, 0x1E021); (0x1E023, 0x1E024);
    (0x1E026, 0x1E02A); (0x1E130, 0x1E13D); (0x1E2AE, 0x1E2AE); (0x1E2EC, 0x1E2EF);
    (0x1E8D0, 0x1E8D6); (0x1E944, 0x1E94B); (0x1F3FB, 0x1F3FF); (0xE0001, 0xE0001);
    (0xE0020, 0xE007F); (0xE0100, 0xE01EF) ]%N.

(** The code points [str.lower] changes.  An entry [(first, last, step, image)]
    stands for the code points [first], [first + step], ... up to [last];
    the lower-case form of [first + k] is [image + k].  U+0130, the one code
    point whose lower-case form has two code points, is not in the table. *)
Definition lower_runs : list (N * N * N * N) :=
  [ (0x0041, 0x005A, 1, 0x0061); (0x00C0, 0x00D6, 1, 0x00E0); (0x00D8, 0x00DE, 1, 0x00F8);
    (0x0100, 0x012E, 2, 0x0101); (0x0132, 0x0136, 2, 0x0133); (0x0139, 0x0147, 2, 0x013A);
    (0x014A, 0x0176, 2, 0x014B); (0x0178, 0x0178, 1, 0x00FF); (0x0179, 0x017D, 2, 0x017A);
    (0x0181, 0x0181, 1, 0x0253); (0x0182, 0x0184, 2, 0x0183); (0x0186, 0x0186, 1, 0x0254);
    (0x0187, 0x0187, 1, 0x0188); (0x0189, 0x018A, 1, 0x0256); (0x018B, 0x018B, 1, 0x018C);
    (0x018E, 0x018E, 1, 0x01DD); (0x018F, 0x018F, 1, 0x0259); (0x0190, 0x0190, 1, 0x025B);
    (0x0191, 0x0191, 1, 0x0192); (0x0193, 0x0193, 1, 0x0260); (0x0194, 0x0194, 1, 0x0263);
    (0x0196, 0x0196, 1, 0x0269); (0x0197, 0x0197, 1, 0x0268); (0x0198, 0x0198, 1, 0x0199);
    (0x019C, 0x019C, 1, 0x026F); (0x019D, 0x019D, 1, 0x0272); (0x019F, 0x019F, 1, 0x0275);
    (0x01A0, 0x01A4, 2, 0x01A1); (0x01A6, 0x01A6, 1, 0x0280); (0x01A7, 0x01A7, 1, 0x01A8);
    (0x01A9, 0x01A9, 1, 0x0283); (0x01AC, 0x01AC, 1, 0x01AD); (0x01AE, 0x01AE, 1, 0x0288);
    (0x01AF, 0x01AF, 1, 0x01B0); (0x01B1, 0x01B2, 1, 0x028A); (0x01B3, 0x01B5, 2, 0x01B4);
    (0x01B7, 0x01B7, 1, 0x0292); (0x01B8, 0x01B8, 1, 0x01B9); (0x01BC, 0x01BC, 1, 0x01BD);
    (0x01C4, 0x01C4, 1, 0x01C6); (0x01C5, 0x01C5, 1, 0x01C6); (0x01C7, 0x01C7, 1, 0x01C9);
    (0x01C8, 0x01C8, 1, 0x01C9); (0x01CA, 0x01CA, 1, 0x01CC); (0x01CB, 0x01DB, 2, 0x01CC);
    (0x01DE, 0x01EE, 2, 0x01DF); (0x01F1, 0x01F1, 1, 0x01F3); (0x01F2, 0x01F4, 2, 0x01F3);
    (0x01F6, 0x01F6, 1, 0x0195); (0x01F7, 0x01F7, 1, 0x01BF); (0x01F8, 0x021E, 2, 0x01F9);
    (0x0220, 0x0220, 1, 0x019E); (0x0222, 0x0232, 2, 0x0223); (0x023A, 0x023A, 1, 0x2C65);
    (0x023B, 0x023B, 1, 0x023C); (0x023D, 0x023D, 1, 0x019A); (0x023E, 0x023E, 1, 0x2C66);
    (0x0241, 0x0241, 1, 0x0242); (0x0243, 0x0243, 1, 0x0180); (0x0244, 0x0244, 1, 0x0289);
    (0x0245, 0x0245, 1, 0x028C); (0x0246, 0x024E, 2, 0x0247); (0x0370, 0x0372, 2, 0x0371);
    (0x0376, 0x0376, 1, 0x0377); (0x037F, 0x037F, 1, 0x03F3); (0x0386, 0x0386, 1, 0x03AC);
    (0x0388, 0x038A, 1, 0x03AD); (0x038C, 0x038C, 1, 0x03CC); (0x038E, 0x038F, 1, 0x03CD);
    (0x0391, 0x03A1, 1, 0x03B1); (0x03A3, 0x03AB, 1, 0x03C3); (0x03CF, 0x03CF, 1, 0x03D7);
    (0x03D8, 0x03EE, 2, 0x03D9); (0x03F4, 0x03F4, 1, 0x03B8); (0x03F7, 0x03F7, 1, 0x03F8);
    (0x03F9, 0x03F9, 1, 0x03F2); (0x03FA, 0x03FA, 1, 0x03FB); (0x03FD, 0x03FF, 1, 0x037B);
    (0x0400, 0x040F, 1, 0x0450); (0x0410, 0x042F, 1, 0x0430); (0x0460, 0x0480, 2, 0x0461);
    (0x048A, 0x04BE, 2, 0x048B); (0x04C0, 0x04C0, 1, 0x04CF); (0x04C1, 0x04CD, 2, 0x04C2);
    (0x04D0, 0x052E, 2, 0x04D1); (0x0531, 0x0556, 1, 0x0561); (0x10A0, 0x10C5, 1, 0x2D00);
    (0x10C7, 0x10C7, 1, 0x2D27); (0x10CD, 0x10CD, 1, 0x2D2D); (0x13A0, 0x13EF, 1, 0xAB70);
    (0x13F0, 0x13F5, 1, 0x13F8); (0x1C90, 0x1CBA, 1, 0x10D0); (0x1CBD, 0x1CBF, 1, 0x10FD);
    (0x1E00, 0x1E94, 2, 0x1E01); (0x1E9E, 0x1E9E, 1, 0x00DF); (0x1EA0, 0x1EFE, 2, 0x1EA1);
    (0x1F08, 0x1F0F, 1, 0x1F00); (0x1F18, 0x1F1D, 1, 0x1F10); (0x1F28, 0x1F2F, 1, 0x1F20);
    (0x1F38, 0x1F3F, 1, 0x1F30); (0x1F48, 0x1F4D, 1, 0x1F40); (0x1F59, 0x1F5F, 2, 0x1F51);
    (0x1F68, 0x1F6F, 1, 0x1F60); (0x1F88, 0x1F8F, 1, 0x1F80); (0x1F98, 0x1F9F, 1, 0x1F90);
    (0x1FA8, 0x1FAF, 1, 0x1FA0); (0x1FB8, 0x1FB9, 1, 0x1FB0); (0x1FBA, 0x1FBB, 1, 0x1F70);
    (0x1FBC, 0x1FBC, 1, 0x1FB3); (0x1FC8, 0x1FCB, 1, 0x1F72); (0x1FCC, 0x1FCC, 1, 0x1FC3);
    (0x1FD8, 0x1FD9, 1, 0x1FD0); (0x1FDA, 0x1FDB, 1, 0x1F76); (0x1FE8, 0x1FE9, 1, 0x1FE0);
    (0x1FEA, 0x1FEB, 1, 0x1F7A); (0x1FEC, 0x1FEC, 1, 0x1FE5); (0x1FF8, 0x1FF9, 1, 0x1F78);
    (0x1FFA, 0x1FFB, 1, 0x1F7C); (0x1FFC, 0x1FFC, 1, 0x1FF3); (0x2126, 0x2126, 1, 0x03C9);
    (0x212A, 0x212A, 1, 0x006B); (0x212B, 0x212B, 1, 0x00E5); (0x2132, 0x2132, 1, 0x214E);
    (0x2160, 0x216F, 1, 0x2170); (0x2183, 0x2183, 1, 0x2184); (0x24B6, 0x24CF, 1, 0x24D0);
    (0x2C00, 0x2C2F, 1, 0x2C30); (0x2C60, 0x2C60, 1, 0x2C61); (0x2C62, 0x2C62, 1, 0x026B);
    (0x2C63, 0x2C63, 1, 0x1D7D); (0x2C64, 0x2C64, 1, 0x027D); (0x2C67, 0x2C6B, 2, 0x2C68);
    (0x2C6D, 0x2C6D, 1, 0x0251); (0x2C6E, 0x2C6E, 1, 0x0271); (0x2C6F, 0x2C6F, 1, 0x0250);
    (0x2C70, 0x2C70, 1, 0x0252); (0x2C72, 0x2C72, 1, 0x2C73); (0x2C75, 0x2C75, 1, 0x2C76);
    (0x2C7E, 0x2C7F, 1, 0x023F); (0x2C80, 0x2CE2, 2, 0x2C81); (0x2CEB, 0x2CED, 2, 0x2CEC);
    (0x2CF2, 0x2CF2, 1, 0x2CF3); (0xA640, 0xA66C, 2, 0xA641); (0xA680, 0xA69A, 2, 0xA681);
    (0xA722, 0xA72E, 2, 0xA723); (0xA732, 0xA76E, 2, 0xA733); (0xA779, 0xA77B, 2, 0xA77A);
    (0xA77D, 0xA77D, 1, 0x1D79); (0xA77E, 0xA786, 2, 0xA77F); (0xA78B, 0xA78B, 1, 0xA78C);
    (0xA78D, 0xA78D, 1, 0x0265); (0xA790, 0xA792, 2, 0xA791); (0xA796, 0xA7A8, 2, 0xA797);
    (0xA7AA, 0xA7AA, 1, 0x0266); (0xA7AB, 0xA7AB, 1, 0x025C); (0xA7AC, 0xA7AC, 1, 0x0261);
    (0xA7AD, 0xA7AD, 1, 0x026C); (0xA7AE, 0xA7AE, 1, 0x026A); (0xA7B0, 0xA7B0, 1, 0x029E);
    (0xA7B1, 0xA7B1, 1, 0x0287); (0xA7B2, 0xA7B2, 1, 0x029D); (0xA7B3, 0xA7B3, 1, 0xAB53);
    (0xA7B4, 0xA7C2, 2, 0xA7B5); (0xA7C4, 0xA7C4, 1, 0xA794); (0xA7C5, 0xA7C5, 1, 0x0282);
    (0xA7C6, 0xA7C6, 1, 0x1D8E); (0xA7C7, 0xA7C9, 2, 0xA7C8); (0xA7D0, 0xA7D0, 1, 0xA7D1);
    (0xA7D6, 0xA7D8, 2, 0xA7D7); (0xA7F5, 0xA7F5, 1, 0xA7F6); (0xFF21, 0xFF3A, 1, 0xFF41);
    (0x10400, 0x10427, 1, 0x10428); (0x104B0, 0x104D3, 1, 0x104D8);
    (0x10570, 0x1057A, 1, 0x10597); (0x1057C, 0x1058A, 1, 0x105A3);
    (0x1058C, 0x10592, 1, 0x105B3); (0x10594, 0x10595, 1, 0x105BB);
    (0x10C80, 0x10CB2, 1, 0x10CC0); (0x118A0, 0x118BF, 1, 0x118C0);
    (0x16E40, 0x16E5F, 1, 0x16E60); (0x1E900, 0x1E921, 1, 0x1E922) ]%N.

End UnicodeData.

(* ===================================================================== *)
(** * Python string primitives *)
(* ===================================================================== *)

Module Py.

(** A Python string, as the sequence of its code points. *)
Definition pystr := list N.

(** An ASCII literal of the source. *)
Definition str (s : string) : pystr :=
  map N_of_ascii (list_ascii_of_string s).

Fixpoint eqb (a b : pystr) : bool :=
  match a, b with
  | [], [] => true
  | x :: a', y :: b' => N.eqb x y && eqb a' b'
  | _, _ => false
  end.

(** [a <= b] on strings: the order of the code points, a proper prefix
    first. *)
Fixpoint le (a b : pystr) : bool :=
  match a, b with
  | [], _ => true
  | _ :: _, [] => false
  | x :: a', y :: b' => (x <? y)%N || ((x =? y)%N && le a' b')
  end.

(** [c.isspace()] for one code point: the white space of [str.split] and
    [str.strip]. *)
Definition isspace_cp (c : N) : bool :=
  (((9 <=? c) && (c <=? 13)) || ((28 <=? c) && (c <=? 32))
   || (c =? 133) || (c =? 160) || (c =? 5760)
   || ((8192 <=? c) && (c <=? 8202))
   || (c =? 8232) || (c =? 8233) || (c =? 8239) || (c =? 8287)
   || (c =? 12288))%N.

Definition is_ascii_upper (c : N) : bool := ((65 <=? c) && (c <=? 90))%N.
Definition is_ascii_lower (c : N) : bool := ((97 <=? c) && (c <=? 122))%N.
Definition is_ascii_digit (c : N) : bool := ((48 <=? c) && (c <=? 57))%N.
Definition is_ascii_alpha (c : N) : bool := is_ascii_upper c || is_ascii_lower c.

Definition in_range (lo hi c : N) : bool := ((lo <=? c) && (c <=? hi))%N.

(** Membership in a table of ranges. *)
Definition in_ranges (table : list (N * N)) (c : N) : bool :=
  existsb (fun r => in_range (fst r) (snd r) c) table.

(** [c.isdecimal()], which is also [\d] of [re] on a [str]. *)
Definition isdecimal_cp (c : N) : bool := in_ranges UnicodeData.decimal_ranges c.

(** [c.isdigit()], [c.isnumeric()], [c.isalpha()] and [c.isupper()] for one
    code point. *)
Definition isdigit_cp (c : N) : bool := in_ranges UnicodeData.digit_ranges c.
Definition isnumeric_cp (c : N) : bool := in_ranges UnicodeData.numeric_ranges c.
Definition isalpha_cp (c : N) : bool := in_ranges UnicodeData.alpha_ranges c.

(** [c.isalnum()]. *)
Definition isalnum_cp (c : N) : bool :=
  isalpha_cp c || isdecimal_cp c || isdigit_cp c || isnumeric_cp c.

(** [s.isdigit()]. *)
Definition isdigit (s : list N) : bool :=
  match s with
  | [] => false
  | _ => forallb isdigit_cp s
  end.

(** ** [str.lower] *)

Definition in_run (r : N * N * N * N) (c : N) : bool :=
  let '(first, last, step, _) := r in
  ((first <=? c) && (c <=? last) && ((c - first) mod step =? 0))%N.

(** The lower-case form of one code point, whatever stands around it. *)
Definition lower_cp (c : N) : pystr :=
  if (c =? 0x0130)%N then [0x0069; 0x0307]%N
  else
    match find (fun r => in_run r c) UnicodeData.lower_runs with
    | Some (first, _, _, image) => [(image + (c - first))%N]
    | None => [c]
    end.

(** The table written out: every code point of an entry with its
    lower-case form. *)
Definition run_pairs (r : N * N * N * N) : list (N * N) :=
  let '(first, last, step, image) := r in
  map (fun k => (first + step * N.of_nat k, image + step * N.of_nat k)%N)
      (seq 0 (S (N.to_nat ((last - first) / step)))).

Definition lower_pairs : list (N * N) := flat_map run_pairs UnicodeData.lower_runs.

Definition cased_cp (c : N) : bool := in_ranges UnicodeData.cased_ranges c.
Definition case_ignorable_cp (c : N) : bool :=
  in_ranges UnicodeData.case_ignorable_ranges c.

Fixpoint skip_case_ignorable (s : pystr) : pystr :=
  match s with
  | c :: s' => if case_ignorable_cp c then skip_case_ignorable s' else s
  | [] => []
  end.

(** The capital sigma U+03A3 becomes the final sigma U+03C2 when, case
    ignorable code points apart, a cased letter stands before it and none
    after it.  [before] is what stands before it, nearest first. *)
Definition final_sigma (before after : pystr) : bool :=
  match skip_case_ignorable before with
  | c :: _ =>
      cased_cp c
      && match skip_case_ignorable after with
         | d :: _ => negb (cased_cp d)
         | [] => true
         end
  | [] => false
  end.

(** The lower-case form of [c] between [before] and [after]. *)
Definition lower_at (before : pystr) (c : N) (after : pystr) : pystr :=
  if (c =? 0x03A3)%N
  then [if final_sigma before after then 0x03C2 else 0x03C3]%N
  else lower_cp c.

Fixpoint lower_from (before s : pystr) : pystr :=
  match s with
  | [] => []
  | c :: s' => lower_at before c s' ++ lower_from (c :: before) s'
  end.

(** [s.lower()]. *)
Definition lower (s : pystr) : pystr := lower_from [] s.

(** ** Patterns compiled with [re.IGNORECASE] *)

(** An ASCII character [p] of a pattern against a code point of the text:
    a letter matches in both cases, and [re] adds U+0130 and U+0131 to
    [i], U+212A to [k] and U+017F to [s]. *)
Definition re_ieq (p c : N) : bool :=
  ((c =? p)
   || (is_ascii_lower p && (c =? p - 32))
   || (is_ascii_upper p && (c =? p + 32))
   || (((p =? 105) || (p =? 73)) && ((c =? 0x0130) || (c =? 0x0131)))
   || (((p =? 107) || (p =? 75)) && (c =? 0x212A))
   || (((p =? 115) || (p =? 83)) && (c =? 0x017F)))%N.

(** An ASCII literal [p] at the head of [s], ignoring case. *)
Fixpoint re_istartswith (p s : pystr) : bool :=
  match p, s with
  | [], _ => true
  | x :: p', y :: s' => re_ieq x y && re_istartswith p' s'
  | _ :: _, [] => false
  end.

(** [re.fullmatch] of an ASCII literal [p] on [s], ignoring case. *)
Definition re_imatch (p s : pystr) : bool :=
  (List.length p =? List.length s)%nat && re_istartswith p s.

(** The class [[a-z]], ignoring case. *)
Definition re_ialpha (c : N) : bool :=
  (is_ascii_alpha c
   || (c =? 0x0130) || (c =? 0x0131) || (c =? 0x017F) || (c =? 0x212A))%N.

(** [sep.join(parts)]. *)
Fixpoint join (sep : pystr) (parts : list pystr) : pystr :=
  match parts with
  | [] => []
  | [p] => p
  | p :: rest => p ++ sep ++ join sep rest
  end.

Definition space : pystr := [32%N].

(** [s.split()] with no argument: maximal runs of non-space code points.
    [cur] is the run being read, most recent code point first. *)
Fixpoint split_aux (cur : pystr) (s : pystr) : list pystr :=
  match s with
  | [] => match cur with [] => [] | _ => [rev cur] end
  | c :: s' =>
      if isspace_cp c
      then match cur with
           | [] => split_aux [] s'
           | _ => rev cur :: split_aux [] s'
           end
      else split_aux (c :: cur) s'
  end.

Definition split (s : pystr) : list pystr := split_aux [] s.

Fixpoint lstrip (s : pystr) : pystr :=
  match s with
  | c :: s' => if isspace_cp c then lstrip s' else s
  | [] => []
  end.

(** [s.strip()]. *)
Definition strip (s : pystr) : pystr := rev (lstrip (rev (lstrip s))).

(** [s.startswith(p)]. *)
Fixpoint startswith (p s : pystr) : bool :=
  match p, s with
  | [], _ => true
  | x :: p', y :: s' => N.eqb x y && startswith p' s'
  | _ :: _, [] => false
  end.

(** [sub in s]. *)
Fixpoint contains (sub s : pystr) : bool :=
  startswith sub s ||
  match s with
  | [] => false
  | _ :: s' => contains sub s'
  end.

(** [x in xs] for a list or set of strings. *)
Definition mem (x : pystr) (xs : list pystr) : bool := existsb (eqb x) xs.

(** A token of [split]: non-empty and free of white space. *)
Definition is_token (t : pystr) : bool :=
  match t with
  | [] => false
  | _ => forallb (fun c => negb (isspace_cp c)) t
  end.

Definition nonspace (c : N) : bool := negb (isspace_cp c).

(** The white space code points, and the code points below 128. *)
Definition whitespace : list N :=
  [9; 10; 11; 12; 13; 28; 29; 30; 31; 32; 133; 160; 5760;
   8192; 8193; 8194; 8195; 8196; 8197; 8198; 8199; 8200; 8201; 8202;
   8232; 8233; 8239; 8287; 12288]%N.

Definition ascii : list N := map N.of_nat (seq 0 128).

(** A code point [str.lower] leaves as it is. *)
Definition lower_fixed_cp (c : N) : bool := eqb (lower_cp c) [c].

End Py.

(** Membership of a symbolic string in a literal list. *)
Definition in_strings (x : string) (xs : list string) : bool :=
  existsb (String.eqb x) xs.

(** Python's [a > b], [a >= b] and [max(a, b)] on scores. *)
Definition Qgt_bool (a b : Q) : bool := negb (Qle_bool a b).
Definition Qge_bool (a b : Q) : bool := Qle_bool b a.
Definition py_max (a b : Q) : Q := if Qgt_bool b a then b else a.
Definition py_min (a b : Q) : Q := if Qgt_bool a b then b else a.


(* ===================================================================== *)
(** * Step 4: code-mix detector ([code_mix_detector.py]) *)
(* ===================================================================== *)

Module CodeMixDetector.

(** One entry of [tagged_tokens]: the token and its script tag. *)
Record TaggedToken := mkTagged {
  token : Py.pystr;
  script : string
}.

(** The classification dict; [romanized_language] is the entry of that
    name under ['details'], when the branch sets it. *)
Record Classification := mkClass {
  label : string;
  confidence : Q;
  method : string;
  romanized_language : option string
}.

(** What [detect] returns: the classification with its [skip_step5] flag. *)
Record Detection := mkDetection {
  cls : Classification;
  skip_step5 : bool
}.

Definition native_scripts : list string :=
  ["Devanagari"; "Bengali"; "Tamil"; "Telugu"; "Gujarati";
   "Kannada"; "Malayalam"; "Punjabi"; "Odia"; "Gurmukhi"]%string.

Definition native_langs : list string :=
  ["hi"; "bn"; "ta"; "te"; "gu"; "kn"; "ml"; "pa"; "or"; "mr"; "sa"; "as"]%string.

Definition non_word_scripts : list string :=
  ["Number"; "Digit"; "Other"; "Unknown"; "Space"]%string.

(** The [word_scripts] list both stages build from [tagged_tokens]. *)
Definition word_scripts (tagged_tokens : list TaggedToken) : list string :=
  filter (fun s => negb (in_strings s non_word_scripts))
         (map script tagged_tokens).

Definition CONFIDENCE_THRESHOLD : Q := 85 # 100.

Definition ambiguous_heuristic : Classification :=
  mkClass "ambiguous" (5 # 10) "heuristic" None.

(** [CodeMixDetector.detect_heuristic]: the Fast Lane. *)
Definition detect_heuristic (text : Py.pystr) (tagged_tokens : list TaggedToken)
    (language_hint : string) (language_confidence : Q) : Classification :=
  match text, tagged_tokens with
  | [], _ | _, [] => ambiguous_heuristic
  | _, _ =>
      let ws := word_scripts tagged_tokens in
      match ws with
      | [] => ambiguous_heuristic
      | _ =>
          let all_native := forallb (fun s => in_strings s native_scripts) ws in
          let all_latin := forallb (fun s => String.eqb s "Latin") ws in
          if all_native && in_strings language_hint native_langs then
            mkClass "pure_native" (95 # 100) "fast_lane" None
          else if all_latin && String.eqb language_hint "en"
                  && Qgt_bool language_confidence CONFIDENCE_THRESHOLD then
            mkClass "pure_english" language_confidence "fast_lane" None
          else ambiguous_heuristic
      end
  end.

(** [CodeMixDetector.should_skip_step5]. *)
Definition should_skip_step5 (detection_result : Classification) : bool :=
  if String.eqb (label detection_result) "pure_native"
     && Qge_bool (confidence detection_result) (75 # 100) then true
  else if String.eqb (label detection_result) "pure_english" then
    if Qge_bool (confidence detection_result) (75 # 100) then true else false
  else false.

(** ** Regular-expression scans of the detector

    Every pattern has the shape [\b(w1|w2|...)\b] with words made of ASCII
    lower-case letters, and is compiled with [re.IGNORECASE]: a match is a
    maximal run of word characters that is one of the words, case
    ignored. *)

(** [\w] of [re] on a [str]: alphanumeric, or the underscore. *)
Definition is_word_cp (c : N) : bool := Py.isalnum_cp c || (c =? 95)%N.

Fixpoint word_runs_aux (cur : Py.pystr) (s : Py.pystr) : list Py.pystr :=
  match s with
  | [] => match cur with [] => [] | _ => [rev cur] end
  | c :: s' =>
      if is_word_cp c then word_runs_aux (c :: cur) s'
      else match cur with
           | [] => word_runs_aux [] s'
           | _ => rev cur :: word_runs_aux [] s'
           end
  end.

Definition word_runs (s : Py.pystr) : list Py.pystr := word_runs_aux [] s.

Definition words (l : list string) : list Py.pystr := map Py.str l.

(** A run of word characters that is one of the words of the pattern. *)
Definition matches_word (pattern : list Py.pystr) (run : Py.pystr) : bool :=
  existsb (fun word => Py.re_imatch word run) pattern.

(** [len(p.findall(text))] for a pattern given by its word list. *)
Definition findall_count (pattern : list Py.pystr) (text : Py.pystr) : nat :=
  List.length (filter (matches_word pattern) (word_runs text)).

(** [p.search(text)] as a truth value. *)
Definition search (pattern : list Py.pystr) (text : Py.pystr) : bool :=
  existsb (matches_word pattern) (word_runs text).

Definition ROMANIZED_PATTERNS : list (string * list (list Py.pystr)) :=
  [ ("hindi"%string,
     [ words ["hai"; "hain"; "ho"; "ka"; "ki"; "ke"; "ko"; "se"; "me"; "ne";
              "bhi"; "nahi"; "kya"; "kaise"; "kahan"]%string;
       words ["aur"; "yah"; "woh"; "ek"; "do"; "teen"; "char"; "panch";
              "saat"; "aath"; "nau"; "das"]%string;
       words ["kharidna"; "chahiye"; "chahta"; "chahti"; "milega"; "kitna";
              "kitne"]%string;
       words ["accha"; "bahut"; "bohot"; "thoda"; "jyada"; "kam"; "zyada"]%string;
       words ["mujhe"; "mujhko"; "tumhe"; "tumko"; "usko"; "dikhao"; "dikhaye";
              "dikhaiye"]%string ]);
    ("bengali"%string,
     [ words ["ache"; "achhe"; "hobe"; "korbo"; "kora"; "kore"; "keno";
              "kothay"; "kivabe"]%string;
       words ["taka"; "takar"; "dam"; "dam"; "koto"; "kemon"; "bhalo";
              "kharap"]%string;
       words ["ekta"; "duto"; "tin"; "char"; "panch"; "choy"; "saat"; "aat";
              "noy"; "dosh"]%string;
       words ["ami"; "tumi"; "apni"; "amar"; "tomar"; "apnar"; "oder";
              "tader"]%string;
       words ["amake"; "amae"; "amay"; "tomake"; "tomay"; "dekhao"; "dekhaye";
              "ar"; "aar"; "ebong"]%string ]);
    ("tamil"%string,
     [ words ["enna"; "eppadi"; "enga"; "eppo"; "yaar"; "yenna"; "yedhu"]%string;
       words ["irukku"; "irukkum"; "seiyyum"; "panna"; "pannunga"]%string;
       words ["nalla"; "romba"; "konjam"; "adhigam"; "kammiya"]%string ]);
    ("telugu"%string,
     [ words ["undi"; "undhi"; "cheyyi"; "cheyyandi"; "ela"; "ekkada";
              "eppudu"]%string;
       words ["manchidi"; "chala"; "konchem"; "ekkuva"; "thakkuva"]%string ]) ].

Definition PURE_ENGLISH_PATTERNS : list (list Py.pystr) :=
  [ words ["the"; "a"; "an"; "is"; "are"; "was"; "were"; "be"; "been"; "being"]%string;
    words ["have"; "has"; "had"; "do"; "does"; "did"; "will"; "would"; "should";
           "could"]%string;
    words ["in"; "on"; "at"; "to"; "from"; "with"; "by"; "for"; "of"; "about";
           "under"; "over"; "below"; "above"]%string;
    words ["this"; "that"; "these"; "those"; "what"; "which"; "who"; "when";
           "where"]%string;
    words ["best"; "good"; "great"; "nice"; "cheap"; "expensive"; "quality";
           "latest"; "new"]%string;
    words ["buy"; "purchase"; "order"; "price"; "cost"; "sale"; "discount";
           "offer"; "deal"]%string;
    words ["phone"; "mobile"; "smartphone"; "laptop"; "tablet"; "headphone";
           "camera"; "charger"]%string;
    words ["wireless"; "bluetooth"; "wired"; "fast"; "charging"; "battery";
           "storage"]%string;
    words ["samsung"; "iphone"; "oneplus"; "realme"; "xiaomi"; "oppo"; "vivo";
           "nokia"; "apple"]%string;
    words ["rupees"; "india"; "online"; "shopping"; "delivery"; "warranty"]%string ].

(** [max(lang_scores.items(), key=lambda x: x[1])]: the first entry with the
    greatest score, in insertion order. *)
Fixpoint best_entry (cur : string * Q) (rest : list (string * Q)) : string * Q :=
  match rest with
  | [] => cur
  | e :: rest' =>
      if Qgt_bool (snd e) (snd cur) then best_entry e rest' else best_entry cur rest'
  end.

(** [CodeMixDetector.detect_romanized_language]. *)
Definition detect_romanized_language (text : Py.pystr) : string * Q :=
  match text with
  | [] => ("none"%string, 0)
  | _ =>
      let lang_scores :=
        flat_map
          (fun lp : string * list (list Py.pystr) =>
             let total_matches :=
               fold_left (fun acc p => (acc + findall_count p text)%nat) (snd lp) 0%nat in
             if (0 <? total_matches)%nat
             then [(fst lp, py_min (inject_Z (Z.of_nat total_matches) / 2) 1)]
             else [])
          ROMANIZED_PATTERNS in
      match lang_scores with
      | [] => ("none"%string, 0)
      | e :: rest => best_entry e rest
      end
  end.

(** [CodeMixDetector.count_english_markers]. *)
Definition count_english_markers (text : Py.pystr) : nat :=
  List.length (filter (fun p => search p text) PURE_ENGLISH_PATTERNS).

Definition class_labels : list string :=
  ["pure_english"; "pure_native"; "romanized_indic"; "mixed"; "ambiguous"]%string.

Section Detector.

(** [self.onnx_session]: when present, one inference gives the index of
    the predicted class and its probability, or fails ([None]). *)
Variable onnx_session :
  option (Py.pystr -> list TaggedToken -> option (nat * Q)).

(** [CodeMixDetector._classify_with_onnx] (the definition in force, the
    second one of the class body). *)
Definition _classify_with_onnx
    (run : Py.pystr -> list TaggedToken -> option (nat * Q))
    (text : Py.pystr) (tagged_tokens : list TaggedToken) : Classification :=
  match run text tagged_tokens with
  | Some (predicted_class, conf) =>
      match nth_error class_labels predicted_class with
      | Some l => mkClass l conf "onnx" None
      | None => mkClass "ambiguous" (5 # 10) "onnx_failed" None
      end
  | None => mkClass "ambiguous" (5 # 10) "onnx_failed" None
  end.

(** [CodeMixDetector._classify_smart_checkpoint]. *)
Definition _classify_smart_checkpoint (text : Py.pystr)
    (tagged_tokens : list TaggedToken) (language_hint : string)
    (language_confidence : Q) : Classification :=
  match onnx_session with
  | Some run => _classify_with_onnx run text tagged_tokens
  | None =>
      let text_lower := Py.lower text in
      let ws := word_scripts tagged_tokens in
      let has_latin := in_strings "Latin" ws in
      let has_native := existsb (fun s => in_strings s native_scripts) ws in
      if has_latin && has_native then
        mkClass "mixed" (85 # 100) "smart_checkpoint_fallback" None
      else if has_latin && in_strings language_hint native_langs then
        let '(romanized_lang, romanized_conf) := detect_romanized_language text_lower in
        mkClass "romanized_indic" (py_max romanized_conf (70 # 100))
                "smart_checkpoint_fallback" (Some romanized_lang)
      else
        let unable := mkClass "ambiguous" (5 # 10) "smart_checkpoint_fallback" None in
        if has_latin && String.eqb language_hint "en" then
          if (2 <=? count_english_markers text_lower)%nat then
            mkClass "pure_english" (75 # 100) "smart_checkpoint_fallback" None
          else
            let '(romanized_lang, romanized_conf) := detect_romanized_language text_lower in
            if Qgt_bool romanized_conf (3 # 10) then
              mkClass "romanized_indic" romanized_conf
                      "smart_checkpoint_fallback" (Some romanized_lang)
            else unable
        else unable
  end.

(** [CodeMixDetector.detect]. *)
Definition detect (text : Py.pystr) (tagged_tokens : list TaggedToken)
    (language_hint : string) (language_confidence : Q)
    (use_smart_checkpoint : bool) : Detection :=
  let result := detect_heuristic text tagged_tokens language_hint language_confidence in
  if in_strings (label result) ["pure_native"; "pure_english"]%string then
    mkDetection result (should_skip_step5 result)
  else
    let result :=
      if String.eqb (label result) "ambiguous" && use_smart_checkpoint then
        let ml_result :=
          _classify_smart_checkpoint text tagged_tokens language_hint language_confidence in
        if Qgt_bool (confidence ml_result) (6 # 10) then ml_result else result
      else result in
    mkDetection result (should_skip_step5 result).

End Detector.

(** [has_latin] and [has_native] of [_classify_smart_checkpoint]. *)
Definition has_latin (toks : list TaggedToken) : bool :=
  in_strings "Latin" (word_scripts toks).

Definition has_native (toks : list TaggedToken) : bool :=
  existsb (fun s => in_strings s native_scripts) (word_scripts toks).

End CodeMixDetector.

(* ===================================================================== *)
(** * The transliteration client ([transliteration_client.py]) *)
(* ===================================================================== *)

(** The outcome of a call that may raise. *)
Inductive Outcome (A : Type) : Type :=
| Returned (a : A)
| Raised (exc : string).
Arguments Returned {A} a.
Arguments Raised {A} exc.

(** A [functools.lru_cache] with keys [K]: the entries, most recently used
    first, cut to [maxsize]. *)
Section LruCache.
Context {K V : Type}.
Variable key_eqb : K -> K -> bool.

Fixpoint lru_find (k : K) (c : list (K * V)) : option V :=
  match c with
  | [] => None
  | (k', v) :: c' => if key_eqb k k' then Some v else lru_find k c'
  end.

Fixpoint lru_remove (k : K) (c : list (K * V)) : list (K * V) :=
  match c with
  | [] => []
  | (k', v) :: c' => if key_eqb k k' then c' else (k', v) :: lru_remove k c'
  end.

Definition lru_touch (k : K) (v : V) (c : list (K * V)) : list (K * V) :=
  (k, v) :: lru_remove k c.

Definition lru_store (maxsize : nat) (k : K) (v : V) (c : list (K * V)) :
    list (K * V) :=
  firstn maxsize ((k, v) :: c).
End LruCache.

Module TransliterationClient.

(** What the [POST /transliterate] request comes back with. *)
Inductive Response :=
| Ok200 (transliterated : Py.pystr)
| BadStatus
| Timeout
| ConnectionError.

Definition CacheKey : Type := (Py.pystr * string * bool)%type.

Definition key_eqb (a b : CacheKey) : bool :=
  let '(t1, l1, p1) := a in
  let '(t2, l2, p2) := b in
  Py.eqb t1 t2 && String.eqb l1 l2 && Bool.eqb p1 p2.

(** The client object: its health flag, its LRU cache, and two logs kept
    for the proofs: the calls of [transliterate] and the HTTP requests. *)
Record Client := mkClient {
  _is_healthy : bool;
  cache : list (CacheKey * Py.pystr);
  calls : list (Py.pystr * string);
  posts : list (Py.pystr * string)
}.

Section Service.

(** The remote service. *)
Variable service : Py.pystr -> string -> bool -> Response.

(** [TransliterationClient._transliterate_cached] under its
    [lru_cache(maxsize=10000)]; a call that raises is not cached. *)
Definition _transliterate_cached (c : Client) (text : Py.pystr)
    (target_language : string) (preserve_english : bool) :
    Outcome Py.pystr * Client :=
  let k := (text, target_language, preserve_english) in
  match lru_find key_eqb k (cache c) with
  | Some v =>
      (Returned v,
       mkClient (_is_healthy c) (lru_touch key_eqb k v (cache c)) (calls c) (posts c))
  | None =>
      let posted := posts c ++ [(text, target_language)] in
      match service text target_language preserve_english with
      | Ok200 transliterated =>
          (Returned transliterated,
           mkClient (_is_healthy c) (lru_store (N.to_nat 10000) k transliterated (cache c))
                    (calls c) posted)
      | BadStatus =>
          (Raised "RuntimeError", mkClient (_is_healthy c) (cache c) (calls c) posted)
      | Timeout =>
          (Raised "Timeout", mkClient (_is_healthy c) (cache c) (calls c) posted)
      | ConnectionError =>
          (Raised "RuntimeError", mkClient false (cache c) (calls c) posted)
      end
  end.

(** [TransliterationClient.transliterate]. *)
Definition transliterate (c : Client) (text : Py.pystr)
    (target_language : string) (preserve_english : bool) :
    Outcome Py.pystr * Client :=
  let c := mkClient (_is_healthy c) (cache c)
                    (calls c ++ [(text, target_language)]) (posts c) in
  if negb (_is_healthy c) then (Raised "RuntimeError", c)
  else _transliterate_cached c text target_language preserve_english.

End Service.

End TransliterationClient.

(* ===================================================================== *)
(** * Step 5: transliteration stage ([transliteration.py]) *)
(* ===================================================================== *)

Module Transliteration.

Import TransliterationClient.

Record LanguageFlags := mkFlags {
  romanized : bool;
  native : bool;
  english : bool;
  mixed : bool
}.

(** [TransliterationResult], without its wall-clock fields ([latency_ms]
    and the latency-derived [cache_hit]). *)
Record TransliterationResult := mkResult {
  normalized_query : Py.pystr;
  language_flags : LanguageFlags;
  romanized_detected : bool;
  service_used : string
}.

(** [dict.get(key, default)] on a literal dict. *)
Fixpoint dict_get (d : list (string * string)) (k : string) (default : string) : string :=
  match d with
  | [] => default
  | (k', v) :: d' => if String.eqb k k' then v else dict_get d' k default
  end.

(** [str.lower] on a language name, a string of characters below 256:
    the capitals [A] to [Z] and U+00C0 to U+00DE (the multiplication sign
    U+00D7 apart) have their lower-case forms 32 places on. *)
Definition lower_latin1 (a : ascii) : ascii :=
  let n := nat_of_ascii a in
  if ((65 <=? n) && (n <=? 90))%nat
     || ((192 <=? n) && (n <=? 222) && negb (n =? 215))%nat
  then ascii_of_nat (n + 32) else a.

Fixpoint lower_string (s : string) : string :=
  match s with
  | EmptyString => EmptyString
  | String a s' => String (lower_latin1 a) (lower_string s')
  end.

Definition LANGUAGE_NAME_TO_ISO : list (string * string) :=
  [ ("hindi", "hi"); ("bengali", "bn"); ("tamil", "ta"); ("telugu", "te");
    ("marathi", "mr"); ("gujarati", "gu"); ("kannada", "kn");
    ("malayalam", "ml"); ("punjabi", "pa"); ("assamese", "as"); ("odia", "or");
    ("urdu", "ur"); ("sindhi", "sd"); ("kashmiri", "ks"); ("nepali", "ne");
    ("sinhala", "si"); ("sanskrit", "sa"); ("konkani", "gom");
    ("maithili", "mai"); ("bodo", "brx"); ("manipuri", "mni") ]%string.

Definition lang_normalization : list (string * string) :=
  [ ("en", "en"); ("eng", "en");
    ("hi", "hi"); ("bn", "bn"); ("ta", "ta"); ("te", "te"); ("gu", "gu");
    ("kn", "kn"); ("ml", "ml"); ("pa", "pa"); ("mr", "mr"); ("as", "as");
    ("or", "or"); ("ur", "ur"); ("sd", "sd"); ("ks", "ks"); ("ne", "ne");
    ("si", "si"); ("sa", "sa"); ("gom", "gom"); ("mai", "mai"); ("brx", "brx");
    ("mni", "mni");
    ("hin_Deva", "hi"); ("ben_Beng", "bn"); ("tam_Taml", "ta");
    ("tel_Telu", "te"); ("guj_Gujr", "gu"); ("kan_Knda", "kn");
    ("mal_Mlym", "ml"); ("pan_Guru", "pa"); ("mar_Deva", "mr");
    ("asm_Beng", "as"); ("ori_Orya", "or"); ("urd_Arab", "ur");
    ("nep_Deva", "ne"); ("sin_Sinh", "si"); ("san_Deva", "sa");
    ("hi_Latn", "hi"); ("bn_Latn", "bn"); ("ta_Latn", "ta"); ("te_Latn", "te");
    ("gu_Latn", "gu"); ("kn_Latn", "kn"); ("ml_Latn", "ml"); ("pa_Latn", "pa");
    ("mr_Latn", "mr") ]%string.

(** The target language [process] works with, after the name-to-ISO
    mapping of [romanized_language] and the normalization map. *)
Definition resolve_target (target_lang : string)
    (romanized_language : option string) : string :=
  let target_lang :=
    match romanized_language with
    | Some name =>
        if String.eqb name "" then target_lang
        else dict_get LANGUAGE_NAME_TO_ISO (lower_string name) target_lang
    | None => target_lang
    end in
  dict_get lang_normalization target_lang target_lang.

Definition passthrough (query : Py.pystr) (flags : LanguageFlags) :
    TransliterationResult :=
  mkResult query flags false "passthrough".

Section Step5.

Variable service : Py.pystr -> string -> bool -> Response.

(** [self.supported_languages], read from the service at construction. *)
Variable supported_languages : list string.

(** [Step5TransliterationPipeline.process]; the state threaded through
    is the client singleton. *)
Definition process (c : Client) (query : Py.pystr) (flags : LanguageFlags)
    (target_lang : string) (romanized_language : option string) :
    Outcome TransliterationResult * Client :=
  let target_lang := resolve_target target_lang romanized_language in
  let romanized_detected := romanized flags in
  let native_script := native flags in
  if native_script && negb romanized_detected then
    (Returned (passthrough query flags), c)
  else if negb romanized_detected && negb native_script then
    (Returned (passthrough query flags), c)
  else if String.eqb target_lang "en" then
    (Returned (passthrough query flags), c)
  else if negb (in_strings target_lang supported_languages) then
    (Returned (passthrough query flags), c)
  else
    match transliterate service c query target_lang true with
    | (Returned normalized, c') =>
        (Returned (mkResult normalized flags true "ai"), c')
    | (Raised _, c') => (Raised "RuntimeError", c')
    end.

End Step5.

End Transliteration.

(* ===================================================================== *)
(** * Pipeline orchestrator, Steps 4 and 5 ([pipeline.py]) *)
(* ===================================================================== *)

Module Pipeline.

Import CodeMixDetector TransliterationClient Transliteration.

Definition lang_map : list (string * string) :=
  [ ("hi", "hin_Deva"); ("hin_Deva", "hin_Deva"); ("hi_Latn", "hin_Deva");
    ("bn", "ben_Beng"); ("ben_Beng", "ben_Beng"); ("bn_Latn", "ben_Beng");
    ("te", "tel_Telu"); ("tel_Telu", "tel_Telu");
    ("ta", "tam_Taml"); ("tam_Taml", "tam_Taml");
    ("mr", "mar_Deva"); ("mar_Deva", "mar_Deva");
    ("gu", "guj_Gujr"); ("guj_Gujr", "guj_Gujr");
    ("kn", "kan_Knda"); ("kan_Knda", "kan_Knda");
    ("ml", "mal_Mlym"); ("mal_Mlym", "mal_Mlym");
    ("pa", "pan_Guru"); ("pan_Guru", "pan_Guru");
    ("en", "hin_Deva") ]%string.

(** [sub in s] on symbolic strings. *)
Fixpoint string_contains (sub s : string) : bool :=
  String.prefix sub s ||
  match s with
  | EmptyString => false
  | String _ s' => string_contains sub s'
  end.

Definition TranslateKey : Type := (Py.pystr * string * Q)%type.

Definition translate_key_eqb (a b : TranslateKey) : bool :=
  let '(t1, l1, q1) := a in
  let '(t2, l2, q2) := b in
  Py.eqb t1 t2 && String.eqb l1 l2 && Qeq_bool q1 q2.

(** The part of the orchestrator's state Step 5 touches: the LRU cache of
    [_cached_translate], the miss counter, and the client singleton. *)
Record State := mkState {
  translate_cache : list (TranslateKey * Py.pystr);
  cache_misses : nat;
  client : Client
}.

Section Orchestrator.

Variable service : Py.pystr -> string -> bool -> Response.
Variable supported_languages : list string.

(** [OptimizedSemanticPipeline._cached_translate] under its
    [lru_cache(maxsize=10000)]. *)
Definition _cached_translate (st : State) (text : Py.pystr)
    (source_lang : string) (lang_confidence : Q) : Outcome Py.pystr * State :=
  let k := (text, source_lang, lang_confidence) in
  match lru_find translate_key_eqb k (translate_cache st) with
  | Some v =>
      (Returned v,
       mkState (lru_touch translate_key_eqb k v (translate_cache st))
               (cache_misses st) (client st))
  | None =>
      let target_lang := dict_get lang_map source_lang "hin_Deva" in
      let flags :=
        mkFlags (string_contains "_Latn" source_lang
                 || in_strings source_lang
                      ["hi"; "bn"; "te"; "ta"; "mr"; "gu"; "kn"; "ml"; "pa"]%string)
                false (String.eqb source_lang "en") false in
      match process service supported_languages (client st) text flags target_lang None with
      | (Returned result, c') =>
          (Returned (normalized_query result),
           mkState (lru_store (N.to_nat 10000) k (normalized_query result) (translate_cache st))
                   (S (cache_misses st)) c')
      | (Raised e, c') =>
          (Raised e,
           mkState (translate_cache st) (S (cache_misses st)) c')
      end
  end.

(** Step 5 of [process_async]: the routing on the Step-4 result.  The
    value is [english_text]. *)
Definition step5 (st : State) (corrected_text : Py.pystr)
    (detected_lang : string) (lang_confidence : Q)
    (code_mix_result : Detection) : Outcome Py.pystr * State :=
  let script_label := label (cls code_mix_result) in
  let code_mix_confidence := confidence (cls code_mix_result) in
  if String.eqb script_label "pure_english"
     && Qgt_bool code_mix_confidence (70 # 100) then
    (Returned corrected_text, st)
  else if String.eqb script_label "pure_native"
          && Qgt_bool code_mix_confidence (85 # 100) then
    _cached_translate st corrected_text detected_lang lang_confidence
  else if in_strings script_label ["romanized_indic"; "mixed"]%string then
    let romanized_lang :=
      match romanized_language (cls code_mix_result) with
      | Some l => l
      | None => "hindi"%string
      end in
    let flags :=
      mkFlags (String.eqb script_label "romanized_indic") false false
              (String.eqb script_label "mixed") in
    match process service supported_languages (client st) corrected_text flags
                  "en" (Some romanized_lang) with
    | (Returned translit_result, c') =>
        (Returned (normalized_query translit_result),
         mkState (translate_cache st) (cache_misses st) c')
    | (Raised e, c') =>
        (Raised e, mkState (translate_cache st) (cache_misses st) c')
    end
  else if String.eqb detected_lang "en" then
    (Returned corrected_text, st)
  else
    _cached_translate st corrected_text detected_lang lang_confidence.

(** Steps 4 and 5 of [process_async], from the outputs of Step 3.  The
    orchestrator builds its detector with [use_onnx=False]. *)
Definition process_async_steps_4_5 (st : State) (corrected_text : Py.pystr)
    (tagged_tokens : list TaggedToken) (detected_lang : string)
    (lang_confidence : Q) : Detection * (Outcome Py.pystr * State) :=
  let code_mix_result :=
    detect None corrected_text tagged_tokens detected_lang lang_confidence true in
  (code_mix_result,
   step5 st corrected_text detected_lang lang_confidence code_mix_result).

End Orchestrator.

End Pipeline.

(* ===================================================================== *)
(** * Smart romanized detector ([smart_romanized_detector.py]) *)
(* ===================================================================== *)

Module SmartRomanizedDetector.

(** The three-entry [scores] dict, in its insertion order. *)
Record Scores := mkScores {
  hi_Latn : Q;
  bn_Latn : Q;
  en : Q
}.

Definition zero_scores : Scores := mkScores 0 0 0.

(** [scores[lang] += score * weight] for the three languages. *)
Definition add_weighted (acc : Scores) (s : Scores) (w : Q) : Scores :=
  mkScores (hi_Latn acc + hi_Latn s * w)
           (bn_Latn acc + bn_Latn s * w)
           (en acc + en s * w).

Definition hindi_bigrams : list Py.pystr :=
  map Py.str ["ka"; "ki"; "ke"; "ko"; "kh"; "gh"; "ch"; "jh"; "th"; "dh"; "ph";
              "bh"; "sh"; "oo"; "aa"; "ee"; "ai"; "au"]%string.
Definition hindi_trigrams : list Py.pystr :=
  map Py.str ["kha"; "gha"; "cha"; "chh"; "jha"; "tha"; "dha"; "pha"; "bha";
              "sha"; "kya"; "khya"; "gya"]%string.
Definition bengali_bigrams : list Py.pystr :=
  map Py.str ["or"; "er"; "ar"; "ir"; "ur"; "kh"; "gh"; "ch"; "jh"; "th"; "dh";
              "ph"; "bh"]%string.
Definition bengali_trigrams : list Py.pystr :=
  map Py.str ["ore"; "are"; "ere"; "iye"; "aye"; "kha"; "gha"; "cha"; "jha";
              "tha"; "dha"]%string.

Definition core_hindi_words : list Py.pystr :=
  map Py.str ["ka"; "ke"; "ki"; "ko"; "se"; "me"; "mein"; "par"; "tak";
              "hai"; "hain"; "chahiye"; "kharidna"; "khareedna"; "dekhna";
              "milega"; "lagta"; "dena"; "lena";
              "aur"; "ya"; "kya"; "koi"; "yah"; "woh"; "ek"; "do";
              "mujhe"; "mere"; "mera"; "tumhe"; "tumhara";
              "rupay"; "rupaye"; "rupaiye"; "taka"; "paisa";
              "sasta"; "mehenga"; "accha"; "badhiya"; "best";
              "under"; "upor"; "upar"; "niche"; "ke"; "andar"]%string.

Definition core_bengali_words : list Py.pystr :=
  map Py.str ["ar"; "er"; "te"; "ke"; "ba"; "o"; "ebong";
              "ache"; "achhe"; "dekhao"; "dekhabo"; "keno"; "kena";
              "lagbe"; "hobe"; "debo"; "nebo";
              "amake"; "amar"; "tomar"; "take"; "tar"; "ei"; "oi";
              "koto"; "keno"; "ki"; "ekta"; "duti";
              "taka"; "dam"; "damer"; "bhalo"; "sundor";
              "upor"; "upore"; "niche"; "moddhe"; "vitore";
              "under"]%string.

(** [sum(1 for x in xs if p(x))]. *)
Definition count_if {A : Type} (p : A -> bool) (xs : list A) : nat :=
  List.length (filter p xs).

Definition ratio (n d : nat) : Q :=
  inject_Z (Z.of_nat n) / inject_Z (Z.of_nat d).

(** [SmartRomanizedDetector._analyze_core_words]. *)
Definition _analyze_core_words (words : list Py.pystr) : Scores :=
  match words with
  | [] => zero_scores
  | _ =>
      let hindi_matches := count_if (fun w => Py.mem w core_hindi_words) words in
      let bengali_matches := count_if (fun w => Py.mem w core_bengali_words) words in
      let hi :=
        if (0 <? hindi_matches)%nat
        then py_min 1 (inject_Z (Z.of_nat hindi_matches) * (25 # 100)) else 0 in
      let bn :=
        if (0 <? bengali_matches)%nat
        then py_min 1 (inject_Z (Z.of_nat bengali_matches) * (25 # 100)) else 0 in
      let e :=
        if (hindi_matches =? 0)%nat && (bengali_matches =? 0)%nat then 1 else 1 # 10 in
      mkScores hi bn e
  end.

(** The code points [a], [e], [i], [o], [u]. *)
Definition is_vowel (c : N) : bool :=
  ((c =? 97) || (c =? 101) || (c =? 105) || (c =? 111) || (c =? 117))%N.

Definition one_of (l : string) (c : N) : bool := existsb (N.eqb c) (Py.str l).

(** [re.search] of the Hindi [word_patterns]: [^[kgc]h[aeiou]],
    [[aeiou]{2}] and [^[ptk]h]. *)
Fixpoint has_double_vowel (w : Py.pystr) : bool :=
  match w with
  | a :: ((b :: _) as w') => (is_vowel a && is_vowel b) || has_double_vowel w'
  | _ => false
  end.

Definition hindi_word_pattern (w : Py.pystr) : bool :=
  match w with
  | a :: b :: rest =>
      (one_of "kgc" a && (b =? 104)%N
         && match rest with c :: _ => is_vowel c | [] => false end)
      || has_double_vowel w
      || (one_of "ptk" a && (b =? 104)%N)
  | _ => false
  end.

(** [re.search] of the Bengali [word_patterns]: [[aeiou]r$],
    [^[ptk]h[aeiou]] and [[oy]e$]. *)
Definition bengali_word_pattern (w : Py.pystr) : bool :=
  match rev w with
  | z :: y :: _ =>
      ((z =? 114)%N && is_vowel y)
      || match w with
         | a :: b :: c :: _ => one_of "ptk" a && (b =? 104)%N && is_vowel c
         | _ => false
         end
      || ((z =? 101)%N && one_of "oy" y)
  | _ => false
  end.

(** [[text[i:i+n] for i in range(len(text)-n+1)]] for [n] = 2 and 3. *)
Fixpoint slices2 (s : Py.pystr) : list Py.pystr :=
  match s with
  | a :: ((b :: _) as s') => [a; b] :: slices2 s'
  | _ => []
  end.

Fixpoint slices3 (s : Py.pystr) : list Py.pystr :=
  match s with
  | a :: ((b :: c :: _) as s') => [a; b; c] :: slices3 s'
  | _ => []
  end.

Section Detector.

(** [str.isalpha] and [str.isdigit] for one code point.  The detector is
    written over any two tables; [Py.isalpha_cp] and [Py.isdigit_cp] are
    those of Python. *)
Variable isalpha_cp : N -> bool.
Variable isdigit_cp : N -> bool.

Definition isalpha (s : Py.pystr) : bool :=
  match s with [] => false | _ => forallb isalpha_cp s end.

Definition isdigit (s : Py.pystr) : bool :=
  match s with [] => false | _ => forallb isdigit_cp s end.

(** [SmartRomanizedDetector._analyze_ngrams]. *)
Definition _analyze_ngrams (text : Py.pystr) : Scores :=
  let bigrams := filter isalpha (slices2 text) in
  let trigrams := filter isalpha (slices3 text) in
  match bigrams, trigrams with
  | [], [] => zero_scores
  | _, _ =>
      let hindi_bigram_matches := count_if (fun bg => Py.mem bg hindi_bigrams) bigrams in
      let bengali_bigram_matches := count_if (fun bg => Py.mem bg bengali_bigrams) bigrams in
      let hindi_trigram_matches := count_if (fun tg => Py.mem tg hindi_trigrams) trigrams in
      let bengali_trigram_matches :=
        count_if (fun tg => Py.mem tg bengali_trigrams) trigrams in
      let total_ngrams := (List.length bigrams + List.length trigrams)%nat in
      if (0 <? total_ngrams)%nat then
        let hi := ratio (hindi_bigram_matches + hindi_trigram_matches) total_ngrams in
        let bn := ratio (bengali_bigram_matches + bengali_trigram_matches) total_ngrams in
        mkScores hi bn (1 - py_max hi bn)
      else zero_scores
  end.

(** [SmartRomanizedDetector._analyze_phonetic_patterns]. *)
Definition _analyze_phonetic_patterns (text : Py.pystr) : Scores :=
  let words :=
    filter (fun w => isalpha w && (2 <? List.length w)%nat) (Py.split text) in
  match words with
  | [] => zero_scores
  | _ =>
      let hi := ratio (count_if hindi_word_pattern words) (List.length words) in
      let bn := ratio (count_if bengali_word_pattern words) (List.length words) in
      mkScores hi bn (1 - py_max hi bn)
  end.

(** [max(scores, key=scores.get)]: the first key, in insertion order,
    with the greatest score. *)
Definition best_lang_of (scores : Scores) : string :=
  let b1 := ("hi_Latn"%string, hi_Latn scores) in
  let b2 := if Qgt_bool (bn_Latn scores) (snd b1)
            then ("bn_Latn"%string, bn_Latn scores) else b1 in
  let b3 := if Qgt_bool (en scores) (snd b2) then ("en"%string, en scores) else b2 in
  fst b3.

Definition score_of (scores : Scores) (lang : string) : Q :=
  if String.eqb lang "hi_Latn" then hi_Latn scores
  else if String.eqb lang "bn_Latn" then bn_Latn scores
  else en scores.

(** The language [detect_romanized_language] settles on and its score,
    after the close-scores rule and before the 0.30 threshold. *)
Definition select_language (scores : Scores) : string * Q :=
  let best_lang := best_lang_of scores in
  let confidence := score_of scores best_lang in
  if String.eqb best_lang "en" then
    let indic_score := py_max (hi_Latn scores) (bn_Latn scores) in
    if Qgt_bool indic_score 0 && Qle_bool (en scores - indic_score) (15 # 100) then
      let best_lang :=
        if Qgt_bool (hi_Latn scores) (bn_Latn scores)
        then "hi_Latn"%string else "bn_Latn"%string in
      (best_lang, score_of scores best_lang)
    else (best_lang, confidence)
  else (best_lang, confidence).

(** The threshold at the end of [detect_romanized_language]. *)
Definition decide (scores : Scores) : option string * Q :=
  let '(best_lang, confidence) := select_language scores in
  if Qge_bool confidence (30 # 100) && negb (String.eqb best_lang "en")
  then (Some best_lang, confidence)
  else (None, 0).

(** [SmartRomanizedDetector._analyze_char_frequency].  [cosines] holds the
    cosine similarities of the text's letter frequencies with the stored
    Hindi, Bengali and English distributions; they take square roots and
    are an input here.  The function normalizes them by their sum. *)
Definition _analyze_char_frequency (cosines : Scores) (text : Py.pystr) : Scores :=
  match filter isalpha_cp (Py.lower text) with
  | [] => zero_scores
  | _ =>
      let total := 0 + hi_Latn cosines + bn_Latn cosines + en cosines in
      if Qgt_bool total 0
      then mkScores (hi_Latn cosines / total) (bn_Latn cosines / total)
                    (en cosines / total)
      else cosines
  end.

(** The combined scores: 65% core words, 15% n-grams, 10% character
    frequency, 10% phonetic patterns. *)
Definition combined_scores (cosines : Scores) (text_lower : Py.pystr) : Scores :=
  let words := Py.split text_lower in
  let scores := add_weighted zero_scores (_analyze_core_words words) (65 # 100) in
  let scores := add_weighted scores (_analyze_ngrams text_lower) (15 # 100) in
  let scores :=
    add_weighted scores (_analyze_char_frequency cosines text_lower) (10 # 100) in
  add_weighted scores (_analyze_phonetic_patterns text_lower) (10 # 100).

(** [SmartRomanizedDetector.detect_romanized_language]. *)
Definition detect_romanized_language (cosines : Scores) (text : Py.pystr) :
    option string * Q :=
  match Py.strip text with
  | [] => (None, 0)
  | _ =>
      let text_lower := Py.lower text in
      let words := Py.split text_lower in
      if forallb (fun word => isdigit word || (List.length word <=? 2)%nat) words
      then (None, 0)
      else decide (combined_scores cosines text_lower)
  end.

End Detector.

(** Scores that lie in the unit interval. *)
Definition unit_interval (q : Q) : Prop := (0 <= q)%Q /\ (q <= 1)%Q.

Definition unit_scores (s : Scores) : Prop :=
  unit_interval (hi_Latn s) /\ unit_interval (bn_Latn s) /\ unit_interval (en s).

(** Scores that are not negative, as cosine similarities of frequency
    distributions are. *)
Definition nonneg_scores (s : Scores) : Prop :=
  (0 <= hi_Latn s)%Q /\ (0 <= bn_Latn s)%Q /\ (0 <= en s)%Q.

End SmartRomanizedDetector.

(* ===================================================================== *)
(** * Step 3: language identification and script tags ([tokenizer.py]) *)
(* ===================================================================== *)

Module Tokenizer.

Import CodeMixDetector.

Definition hindi_words : list Py.pystr :=
  map Py.str ["mujhe"; "chahiye"; "dikhao"; "dikhaiye"; "dikhaye"; "karo";
              "kariye"; "ka"; "ki"; "ke"; "ko"; "hai"; "ho"; "hain"; "tha";
              "thi"; "the"; "kya"; "kaun"; "kaise"; "kahan"; "dekho";
              "dekhiye"; "lena"; "lijiye"; "dena"; "dijiye"; "hua"; "hoon";
              "tumhara"; "tumhe"; "aapka"; "aapko"; "na"; "nahi"; "nahin";
              "haan"; "toh"; "wala"; "wali"; "mere"; "mera"]%string.

Definition bengali_words : list Py.pystr :=
  map Py.str ["amake"; "amar"; "tomar"; "dekhao"; "dekhaye"; "koro"; "korte";
              "koriye"; "hobe"; "ache"; "achhe"; "niye"; "dao"; "diye";
              "kemon"; "kothay"; "kon"; "tumi"; "ami"; "apni"; "eta"; "ota";
              "ki"; "na"; "haan"; "chilo"; "chhilo"]%string.

Definition english_indicators : list Py.pystr :=
  map Py.str ["wireless"; "bluetooth"; "headphone"; "earphone"; "laptop";
              "mobile"; "phone"; "under"; "show"; "find"; "search"; "buy"]%string.

Definition hindi_matches (text : Py.pystr) : nat :=
  List.length (filter (fun word => Py.mem word hindi_words) (Py.split (Py.lower text))).

Definition bengali_matches (text : Py.pystr) : nat :=
  List.length (filter (fun word => Py.mem word bengali_words) (Py.split (Py.lower text))).

Definition has_english_word (text : Py.pystr) : bool :=
  existsb (fun word => Py.contains word (Py.lower text)) english_indicators.

Definition has_only_ascii (text : Py.pystr) : bool :=
  forallb (fun c => (c <? 128)%N) (filter (fun c => negb (Py.isspace_cp c)) text).

Definition is_native_indic_cp (c : N) : bool :=
  Py.in_range 0x0900 0x097F c || Py.in_range 0x0980 0x09FF c
  || Py.in_range 0x0A80 0x0AFF c || Py.in_range 0x0B00 0x0B7F c
  || Py.in_range 0x0B80 0x0BFF c || Py.in_range 0x0C00 0x0C7F c
  || Py.in_range 0x0C80 0x0CFF c || Py.in_range 0x0D00 0x0D7F c.

(** [text.replace('\n', ' ').strip()]. *)
Definition clean_text (text : Py.pystr) : Py.pystr :=
  Py.strip (map (fun c => if (c =? 10)%N then 32%N else c) text).

Definition has_native_indic (text : Py.pystr) : bool :=
  existsb is_native_indic_cp (clean_text text).

(** What [fasttext_model.predict(clean_text, k=1)] comes to. *)
Inductive Prediction :=
| Predicted (lang_label : string) (confidence : Q)
| Malformed
| Failed.

(** [rom_lang.split('_')[0]]. *)
Fixpoint before_underscore (s : string) : string :=
  match s with
  | EmptyString => EmptyString
  | String a s' =>
      if Ascii.eqb a "_"%char then EmptyString else String a (before_underscore s')
  end.

Section LanguageIdentification.

(** The fastText model, the smart romanized detector (absent when it
    failed to load) and the Unicode fallback of the last resort. *)
Variable fasttext_predict : Py.pystr -> Prediction.
Variable smart_detector : option (Py.pystr -> option string * Q).
Variable _detect_language_unicode_fallback : Py.pystr -> string * Q.

(** [Tokenizer._detect_script_uncached]. *)
Definition _detect_script_uncached (text : Py.pystr) : string * Q :=
  match text with
  | [] => ("unknown"%string, 0)
  | _ =>
      let hm := hindi_matches text in
      let bm := bengali_matches text in
      if (2 <=? hm)%nat || (2 <=? bm)%nat then
        ((if (bm <=? hm)%nat then "hi" else "bn")%string, 65 # 100)
      else if has_english_word text && has_only_ascii text
              && ((hm =? 0)%nat && (bm =? 0)%nat) then
        ("en"%string, 95 # 100)
      else
        let clean := clean_text text in
        let native_result :=
          if has_native_indic text then
            match fasttext_predict clean with
            | Predicted l c => Some (l, c)
            | _ => None
            end
          else None in
        match native_result with
        | Some r => r
        | None =>
            let has_latin :=
              existsb (fun c => Py.le (Py.str "a") (Py.lower [c])
                                && Py.le (Py.lower [c]) (Py.str "z")) clean in
            let romanized :=
              match has_latin, smart_detector with
              | true, Some detect_romanized =>
                  let '(rom_lang, rom_conf) := detect_romanized clean in
                  match rom_lang with
                  | Some l =>
                      let l := before_underscore l in
                      if negb (String.eqb l "") && Qgt_bool rom_conf (25 # 100)
                         && in_strings l ["hi"; "bn"; "mr"; "pa"; "gu"; "ta"; "te"]%string
                      then Some (l, rom_conf) else None
                  | None => None
                  end
              | _, _ => None
              end in
            match romanized with
            | Some r => r
            | None =>
                if (List.length clean <? 2)%nat then ("unknown"%string, 0)
                else
                  match fasttext_predict clean with
                  | Predicted l c => (l, c)
                  | Malformed => ("unknown"%string, 0)
                  | Failed => _detect_language_unicode_fallback text
                  end
            end
        end
  end.

End LanguageIdentification.

(** [Tokenizer.detect_script_unicode_fast]. *)
Definition detect_script_unicode_fast (c : N) : string :=
  if Py.isspace_cp c then "Space"
  else if Py.isdigit_cp c then "Number"
  else if (c <=? 0x00FF)%N then "Latin"
  else if Py.in_range 0x0900 0x097F c then "Devanagari"
  else if Py.in_range 0x0980 0x09FF c then "Bengali"
  else if Py.in_range 0x0B80 0x0BFF c then "Tamil"
  else if Py.in_range 0x0C00 0x0C7F c then "Telugu"
  else if Py.in_range 0x0A80 0x0AFF c then "Gujarati"
  else if Py.in_range 0x0C80 0x0CFF c then "Kannada"
  else if Py.in_range 0x0D00 0x0D7F c then "Malayalam"
  else if Py.in_range 0x0A00 0x0A7F c then "Punjabi"
  else if Py.in_range 0x0B00 0x0B7F c then "Odia"
  else if Py.in_range 0x0600 0x06FF c then "Arabic"
  else "Other".

(** [script_counts[script] = script_counts.get(script, 0) + 1] on a dict
    kept in insertion order. *)
Fixpoint bump (script : string) (counts : list (string * nat)) : list (string * nat) :=
  match counts with
  | [] => [(script, 1%nat)]
  | (s, n) :: counts' =>
      if String.eqb s script then (s, S n) :: counts' else (s, n) :: bump script counts'
  end.

(** [max(filtered, key=filtered.get)]. *)
Fixpoint max_count (cur : string * nat) (rest : list (string * nat)) : string :=
  match rest with
  | [] => fst cur
  | e :: rest' => if (snd cur <? snd e)%nat then max_count e rest' else max_count cur rest'
  end.

(** [Tokenizer.detect_token_script], the dominant script. *)
Definition detect_token_script (token : Py.pystr) : string :=
  match token with
  | [] => "Unknown"
  | _ =>
      let script_counts :=
        fold_left (fun acc c => bump (detect_script_unicode_fast c) acc) token [] in
      let filtered :=
        filter (fun e => negb (in_strings (fst e) ["Number"; "Space"; "Other"]%string))
               script_counts in
      match filtered with
      | e :: rest => max_count e rest
      | [] =>
          if existsb (fun e => String.eqb (fst e) "Number") script_counts
          then "Number" else "Other"
      end
  end%string.

(** The script tag [tokenize_step3_strict] gives one token. *)
Definition tag_token (token : Py.pystr) : string :=
  match token with
  | first_char :: _ =>
      if (first_char <? 128)%N then
        if Py.isdigit token then "Number" else "Latin"
      else if Py.in_range 0x0900 0x097F first_char then "Devanagari"
      else if Py.in_range 0x0980 0x09FF first_char then "Bengali"
      else detect_token_script token
  | [] => detect_token_script token
  end%string.

Record Step3Result := mkStep3 {
  tokens : list Py.pystr;
  script_tags : list string;
  language : string;
  language_confidence : Q;
  tagged_tokens : list TaggedToken
}.

Section Step3.

Variable fasttext_predict : Py.pystr -> Prediction.
Variable smart_detector : option (Py.pystr -> option string * Q).
Variable _detect_language_unicode_fallback : Py.pystr -> string * Q.

(** The Rust pre-tokenizer ([pre_tokenize_str], tokens only). *)
Variable pre_tokenize_str : Py.pystr -> list Py.pystr.

(** [Tokenizer.tokenize_icu_style] in the enforced Rust mode. *)
Definition tokenize_icu_style (text : Py.pystr) : list Py.pystr :=
  match text with
  | [] => []
  | _ =>
      map Py.strip
          (filter (fun t => match Py.strip t with [] => false | _ => true end)
                  (pre_tokenize_str text))
  end.

(** [Tokenizer.tokenize_step3_strict] with [tag_scripts=True]. *)
Definition tokenize_step3_strict (text : Py.pystr) : Step3Result :=
  match text with
  | [] => mkStep3 [] [] "unknown" 0 []
  | _ =>
      let tokens := tokenize_icu_style text in
      let '(language, confidence) :=
        _detect_script_uncached fasttext_predict smart_detector
                                _detect_language_unicode_fallback text in
      mkStep3 tokens (map tag_token tokens) language confidence
              (map (fun t => mkTagged t (tag_token t)) tokens)
  end.

End Step3.

(** The number of the tokenizer's English indicator words found in the
    text: the markers the fast path looks for. *)
Definition english_indicator_hits (text : Py.pystr) : nat :=
  List.length (filter (fun word => Py.contains word (Py.lower text)) english_indicators).

(** [Tokenizer.generate_edge_ngrams]: the prefixes [token[:i]] for [i] in
    [range(min_gram, min(len(token) + 1, max_gram + 1))]. *)
Definition generate_edge_ngrams (token : Py.pystr) (min_gram max_gram : nat) :
    list Py.pystr :=
  if (List.length token <? min_gram)%nat then [token]
  else
    map (fun i => firstn i token)
        (seq min_gram (Nat.min (List.length token + 1) (max_gram + 1) - min_gram)).

(** ** The Unicode fallback of language identification *)

(** The scripts [detect_script_unicode_fast] tells apart. *)
Definition script_names : list string :=
  ["Latin"; "Devanagari"; "Bengali"; "Tamil"; "Telugu"; "Gujarati"; "Kannada";
   "Malayalam"; "Punjabi"; "Odia"; "Arabic"]%string.

Definition script_to_lang : list (string * string) :=
  [ ("Latin", "en"); ("Devanagari", "hi"); ("Bengali", "bn"); ("Tamil", "ta");
    ("Telugu", "te"); ("Gujarati", "gu"); ("Kannada", "kn"); ("Malayalam", "ml");
    ("Punjabi", "pa"); ("Odia", "or"); ("Arabic", "ar") ]%string.

(** The language codes of [script_to_lang]. *)
Definition fallback_languages : list string :=
  ["en"; "hi"; "bn"; "ta"; "te"; "gu"; "kn"; "ml"; "pa"; "or"; "ar"]%string.

(** A script that [script_to_lang] maps to a language. *)
Definition known_script (s : string) : Prop :=
  In (Transliteration.dict_get script_to_lang s "unknown") fallback_languages.

(** A code point that counts towards a script: not a space, a digit or
    a symbol. *)
Definition is_script_cp (c : N) : bool :=
  negb (in_strings (detect_script_unicode_fast c) ["Space"; "Number"; "Other"]%string).

(** One round of the loop over the characters: a script character is
    counted under its script. *)
Definition count_step (acc : list (string * nat)) (c : N) : list (string * nat) :=
  if is_script_cp c then bump (detect_script_unicode_fast c) acc else acc.

(** [script_counts[script]], 0 for a script that has no entry. *)
Fixpoint count_of (script : string) (counts : list (string * nat)) : nat :=
  match counts with
  | [] => 0%nat
  | (s, n) :: counts' => if String.eqb s script then n else count_of script counts'
  end.

(** [sum(script_counts.values())]. *)
Definition total_count (counts : list (string * nat)) : nat :=
  fold_right (fun e acc => (snd e + acc)%nat) 0%nat counts.

(** [Tokenizer._detect_language_unicode_fallback], the function the
    sections above take as a parameter. *)
Definition _detect_language_unicode_fallback (text : Py.pystr) : string * Q :=
  match text with
  | [] => ("unknown"%string, 0)
  | _ =>
      let script_counts := fold_left count_step text [] in
      let total_chars := List.length (filter is_script_cp text) in
      match script_counts with
      | [] => ("unknown"%string, 0)
      | e :: rest =>
          if (total_chars =? 0)%nat then ("unknown"%string, 0)
          else
            let dominant_script := max_count e rest in
            let confidence :=
              inject_Z (Z.of_nat (count_of dominant_script script_counts))
              / inject_Z (Z.of_nat total_chars) in
            (Transliteration.dict_get script_to_lang dominant_script "unknown",
             confidence)
      end
  end.

(** The number of code points of a token that are in a given script. *)
Definition script_count (s : string) (token : Py.pystr) : nat :=
  List.length (filter (fun c => String.eqb (detect_script_unicode_fast c) s) token).

End Tokenizer.

(* ===================================================================== *)
(** * Step 1: input handler ([input_handler.py]) *)
(* ===================================================================== *)

Module InputHandler.

(** Python truthiness of a string. *)
Definition truthy (s : Py.pystr) : bool :=
  match s with [] => false | _ => true end.

(** The scraped product record.  A field that is missing or falsy is the
    empty string; [price] and [rating] hold their [str()] rendering. *)
Record Product := mkProduct {
  name : Py.pystr;
  specs : list (Py.pystr * Py.pystr);
  price : Py.pystr;
  category : Py.pystr;
  brand : Py.pystr;
  rating : Py.pystr
}.

(** [InputHandler._product_to_text]. *)
Definition _product_to_text (product_data : Product) : Py.pystr :=
  let parts :=
    (if truthy (name product_data) then [name product_data] else [])
    ++ flat_map (fun kv : Py.pystr * Py.pystr =>
                   if truthy (snd kv) then [fst kv ++ Py.space ++ snd kv] else [])
                (specs product_data)
    ++ (if truthy (price product_data)
        then [Py.str "price " ++ price product_data] else [])
    ++ (if truthy (category product_data) then [category product_data] else [])
    ++ (if truthy (brand product_data)
           && negb (Py.contains (Py.lower (brand product_data))
                                (Py.lower (name product_data)))
        then [brand product_data] else [])
    ++ (if truthy (rating product_data)
        then [Py.str "rating " ++ rating product_data] else []) in
  Py.join Py.space parts.

(** ** The product cache: a [dict], kept in insertion order *)

Definition Cache := list (Py.pystr * Product).

Fixpoint cache_get (k : Py.pystr) (c : Cache) : option Product :=
  match c with
  | [] => None
  | (k', v) :: c' => if Py.eqb k k' then Some v else cache_get k c'
  end.

(** [cache[k] = v]: an existing key keeps its place, a new one goes last. *)
Fixpoint cache_set (k : Py.pystr) (v : Product) (c : Cache) : Cache :=
  match c with
  | [] => [(k, v)]
  | (k', v') :: c' =>
      if Py.eqb k k' then (k', v) :: c' else (k', v') :: cache_set k v c'
  end.

(** [del cache[k]]. *)
Fixpoint cache_del (k : Py.pystr) (c : Cache) : Cache :=
  match c with
  | [] => []
  | (k', v') :: c' => if Py.eqb k k' then c' else (k', v') :: cache_del k c'
  end.

Definition _cache_max_size : nat := 1000.

(** [InputHandler._cache_product]. *)
Definition _cache_product (c : Cache) (cache_key : Py.pystr)
    (product_data : Product) : Cache :=
  let c :=
    if (_cache_max_size <=? List.length c)%nat then
      match c with
      | (oldest_key, _) :: _ => cache_del oldest_key c
      | [] => c
      end
    else c in
  cache_set cache_key product_data c.

(** [InputHandler.clear_cache]. *)
Definition clear_cache (c : Cache) : Cache := [].

(** ** URL tests *)

(** [InputHandler._looks_like_url_fast]. *)
Definition _looks_like_url_fast (text : Py.pystr) : bool :=
  let text_lower := Py.lower text in
  Py.startswith (Py.str "http://") text_lower
  || Py.startswith (Py.str "https://") text_lower
  || Py.startswith (Py.str "www.") text_lower
  || Py.contains (Py.str ".com") text_lower
  || Py.contains (Py.str ".in") text_lower
  || Py.contains (Py.str ".org") text_lower
  || Py.contains (Py.str ".ly") text_lower.

(** The longest prefix of [s] whose code points satisfy [p], and the rest. *)
Fixpoint span (p : N -> bool) (s : Py.pystr) : Py.pystr * Py.pystr :=
  match s with
  | c :: s' =>
      if p c then let '(a, b) := span p s' in (c :: a, b) else ([], s)
  | [] => ([], [])
  end.

(** [re.search]: the first suffix of [s], from the left, at which [f]
    matches. *)
Fixpoint search_from {A : Type} (f : Py.pystr -> option A) (s : Py.pystr) :
    option A :=
  match f s with
  | Some a => Some a
  | None =>
      match s with
      | [] => None
      | _ :: s' => search_from f s'
      end
  end.

(** [\.[a-z]{2,}/] at the head of [s], ignoring case. *)
Definition domain_extension_at (s : Py.pystr) : option unit :=
  match s with
  | 46%N :: s' =>
      let '(letters, rest) := span Py.re_ialpha s' in
      if (2 <=? List.length letters)%nat && Py.startswith (Py.str "/") rest
      then Some tt else None
  | _ => None
  end.

(** [InputHandler._is_url]: the pattern [^https?://|^www\.|\.[a-z]{2,}/],
    compiled with [re.IGNORECASE]. *)
Definition _is_url (text : Py.pystr) : bool :=
  Py.re_istartswith (Py.str "http://") text
  || Py.re_istartswith (Py.str "https://") text
  || Py.re_istartswith (Py.str "www.") text
  || match search_from domain_extension_at text with
     | Some _ => true
     | None => false
     end.

Definition URL_SHORTENERS : list Py.pystr :=
  map Py.str ["bit.ly"; "tinyurl.com"; "goo.gl"; "t.co"; "ow.ly"; "is.gd";
              "buff.ly"; "adf.ly"; "short.io"; "rb.gy"]%string.

(** [s.replace(sub, '')] for a non-empty [sub]. *)
Fixpoint remove_all_aux (fuel : nat) (sub s : Py.pystr) : Py.pystr :=
  match fuel with
  | O => s
  | S fuel' =>
      match s with
      | [] => []
      | c :: s' =>
          if Py.startswith sub s
          then remove_all_aux fuel' sub (skipn (List.length sub) s)
          else c :: remove_all_aux fuel' sub s'
      end
  end.

Definition remove_all (sub s : Py.pystr) : Py.pystr :=
  remove_all_aux (List.length s) sub s.

Definition is_upper_or_digit (c : N) : bool :=
  Py.is_ascii_upper c || Py.is_ascii_digit c.

(** [/dp/([A-Z0-9]{10})] at the head of [s]. *)
Definition asin_at (s : Py.pystr) : option Py.pystr :=
  if Py.startswith (Py.str "/dp/") s then
    let id := firstn 10 (skipn 4 s) in
    if (List.length id =? 10)%nat && forallb is_upper_or_digit id
    then Some id else None
  else None.

(** [pid=([A-Z0-9]+)] at the head of [s]. *)
Definition pid_at (s : Py.pystr) : option Py.pystr :=
  if Py.startswith (Py.str "pid=") s then
    match fst (span is_upper_or_digit (skipn 4 s)) with
    | [] => None
    | id => Some id
    end
  else None.

(** [/(\d+)/buy] at the head of [s]. *)
Definition myntra_id_at (s : Py.pystr) : option Py.pystr :=
  match s with
  | 47%N :: s' =>
      let '(digits, rest) := span Py.isdecimal_cp s' in
      match digits with
      | [] => None
      | _ => if Py.startswith (Py.str "/buy") rest then Some digits else None
      end
  | _ => None
  end.

Record PlatformInfo := mkPlatformInfo {
  pi_platform : option string;
  pi_product_id : option Py.pystr
}.

(** The result dict of [process]; an entry the code leaves out is [None]. *)
Record ProcessedInput := mkProcessed {
  input_type : string;
  original_input : Py.pystr;
  original_url : option Py.pystr;
  expanded_url : option Py.pystr;
  query_text : Py.pystr;
  platform : option string;
  product_id : option Py.pystr;
  product_data : option Product;
  cache_hit : option bool
}.

Definition text_result (user_input : Py.pystr) : ProcessedInput :=
  mkProcessed "text" user_input None None user_input None None None None.

(** [f"{platform}:{product_id}"]; a [None] id prints as [None]. *)
Definition cache_key (platform : string) (product_id : option Py.pystr) : Py.pystr :=
  Py.str platform ++ [58%N]
  ++ match product_id with Some id => id | None => Py.str "None" end.

Section Handler.

(** [urlparse(url).netloc]; [None] when [urlparse] raises. *)
Variable netloc : Py.pystr -> option Py.pystr.
(** The [HEAD] request with redirects followed: the final URL, or
    [None] when the request raises. *)
Variable head_final_url : Py.pystr -> option Py.pystr.
(** The external scraper; [None] when it raises or returns nothing. *)
Variable scrape_product : Py.pystr -> option Product.

Definition domain_of (url : Py.pystr) : option Py.pystr :=
  match netloc url with
  | Some n => Some (remove_all (Py.str "www.") (Py.lower n))
  | None => None
  end.

(** [InputHandler._is_shortened_url]. *)
Definition _is_shortened_url (url : Py.pystr) : bool :=
  match domain_of url with
  | Some domain => existsb (fun shortener => Py.contains shortener domain) URL_SHORTENERS
  | None => false
  end.

(** [InputHandler._expand_url]. *)
Definition _expand_url (short_url : Py.pystr) : Py.pystr :=
  let short_url :=
    if Py.startswith (Py.str "http") short_url then short_url
    else Py.str "https://" ++ short_url in
  match head_final_url short_url with
  | Some final_url => final_url
  | None => short_url
  end.

(** [InputHandler._extract_platform_info]. *)
Definition _extract_platform_info (url : Py.pystr) : PlatformInfo :=
  match domain_of url with
  | None => mkPlatformInfo None None
  | Some domain =>
      if Py.contains (Py.str "amazon") domain then
        mkPlatformInfo (Some "amazon"%string) (search_from asin_at url)
      else if Py.contains (Py.str "flipkart") domain then
        mkPlatformInfo (Some "flipkart"%string) (search_from pid_at url)
      else if Py.contains (Py.str "myntra") domain then
        mkPlatformInfo (Some "myntra"%string) (search_from myntra_id_at url)
      else if Py.contains (Py.str "snapdeal") domain then
        mkPlatformInfo (Some "snapdeal"%string) None
      else if Py.contains (Py.str "ajio") domain then
        mkPlatformInfo (Some "ajio"%string) None
      else if Py.contains (Py.str "meesho") domain then
        mkPlatformInfo (Some "meesho"%string) None
      else mkPlatformInfo None None
  end.

(** [InputHandler._scrape_product_url]. *)
Definition _scrape_product_url (url : Py.pystr) : option Product :=
  match scrape_product url with
  | Some product_data =>
      if truthy (name product_data) then Some product_data else None
  | None => None
  end.

(** [InputHandler.process]; the class-level cache is threaded through. *)
Definition process (c : Cache) (raw_input : Py.pystr) : ProcessedInput * Cache :=
  let user_input := Py.strip raw_input in
  if negb (_looks_like_url_fast user_input) then (text_result user_input, c)
  else if negb (_is_url user_input) then (text_result user_input, c)
  else
    let quick := _extract_platform_info user_input in
    let quick_hit :=
      match pi_platform quick, pi_product_id quick with
      | Some pf, Some ((_ :: _) as id) =>
          match cache_get (cache_key pf (Some id)) c with
          | Some product_data => Some (pf, id, product_data)
          | None => None
          end
      | _, _ => None
      end in
    match quick_hit with
    | Some (pf, id, product_data) =>
        (mkProcessed "url" user_input (Some user_input) (Some user_input)
                     (_product_to_text product_data) (Some pf) (Some id)
                     (Some product_data) (Some true), c)
    | None =>
        let expanded :=
          if _is_shortened_url user_input then _expand_url user_input
          else user_input in
        let info := _extract_platform_info expanded in
        match pi_platform info with
        | Some pf =>
            let key := cache_key pf (pi_product_id info) in
            match cache_get key c with
            | Some product_data =>
                (mkProcessed "url" user_input (Some user_input) (Some expanded)
                             (_product_to_text product_data) (Some pf)
                             (pi_product_id info) (Some product_data) (Some true), c)
            | None =>
                match _scrape_product_url expanded with
                | Some product_data =>
                    (mkProcessed "url" user_input (Some user_input) (Some expanded)
                                 (_product_to_text product_data) (Some pf)
                                 (pi_product_id info) (Some product_data) (Some false),
                     _cache_product c key product_data)
                | None =>
                    (mkProcessed "url" user_input (Some user_input) (Some expanded)
                                 expanded (Some pf) (pi_product_id info) None
                                 (Some false), c)
                end
            end
        | None =>
            (mkProcessed "url" user_input (Some user_input) (Some expanded)
                         expanded None (pi_product_id info) None None, c)
        end
    end.

End Handler.

(** The cache holds only products that have a name: what [process] keeps
    true of the class-level cache, which starts empty. *)
Definition all_named (c : Cache) : bool :=
  forallb (fun kv : Py.pystr * Product => truthy (name (snd kv))) c.

End InputHandler.

(* ===================================================================== *)
(** * Step 2: spell corrector ([spell_corrector.py]) *)
(* ===================================================================== *)

Module SpellCorrector.

Definition w (x : string) : Py.pystr := Py.str x.

(** [dict.get(k)] on a literal dict with string keys and values. *)
Fixpoint table_get (d : list (Py.pystr * Py.pystr)) (k : Py.pystr) : option Py.pystr :=
  match d with
  | [] => None
  | (k', v) :: d' => if Py.eqb k k' then Some v else table_get d' k
  end.

(** [SpellCorrector._build_rewrite_rules]. *)
Definition REWRITE_RULES : list (Py.pystr * Py.pystr) :=
  [ (w "iphon", w "iphone"); (w "iphne", w "iphone"); (w "iphn", w "iphone");
    (w "sumsung", w "samsung"); (w "samsng", w "samsung"); (w "samsug", w "samsung");
    (w "onplus", w "oneplus"); (w "onepls", w "oneplus");
    (w "realme", w "realme"); (w "reelme", w "realme");
    (w "xiaomi", w "xiaomi"); (w "xiomi", w "xiaomi");
    (w "redmi", w "redmi"); (w "readmi", w "redmi");
    (w "headphon", w "headphone"); (w "headfone", w "headphone");
    (w "hedphone", w "headphone");
    (w "earphon", w "earphone"); (w "earfone", w "earphone");
    (w "bluetooth", w "bluetooth"); (w "blutooth", w "bluetooth");
    (w "bluetoth", w "bluetooth");
    (w "wireles", w "wireless"); (w "wirelss", w "wireless");
    (w "charger", w "charger"); (w "chargr", w "charger");
    (w "takar", w "taka"); (w "takaa", w "taka");
    (w "rupee", w "rupees"); (w "rupaye", w "rupees"); (w "rupya", w "rupees");
    (w "rupe", w "rupees");
    (w "undr", w "under"); (w "belo", w "below"); (w "arond", w "around");
    (w "prise", w "price"); (w "pric", w "price") ].

(** [SpellCorrector._build_unit_patterns]; the two keys outside ASCII are
    the Bengali word for taka and the rupee sign. *)
Definition UNIT_PATTERNS : list (Py.pystr * Py.pystr) :=
  [ (w "taka", w "rupees"); ([0x099F; 0x09BE; 0x0995; 0x09BE]%N, w "rupees");
    (w "rupaye", w "rupees"); (w "rupya", w "rupees");
    (w "rs", w "rupees"); (w "inr", w "rupees"); ([0x20B9]%N, w "rupees");
    (w "pcs", w "pieces"); (w "pc", w "pieces");
    (w "kg", w "kilogram"); (w "gm", w "gram");
    (w "ltr", w "liter"); (w "ml", w "milliliter") ].

(** The terms [_load_ecommerce_terms] puts into SymSpell, with their
    frequencies, in insertion order. *)
Definition ecommerce_terms : list (Py.pystr * N) :=
  [ (w "samsung", 100000); (w "apple", 100000); (w "iphone", 100000);
    (w "oneplus", 80000); (w "xiaomi", 80000); (w "realme", 70000);
    (w "redmi", 70000); (w "vivo", 60000); (w "oppo", 60000);
    (w "nokia", 50000); (w "motorola", 40000); (w "lg", 40000);
    (w "sony", 50000); (w "mi", 60000); (w "poco", 40000);
    (w "headphone", 50000); (w "headphones", 50000); (w "earphone", 40000);
    (w "bluetooth", 60000); (w "wireless", 50000); (w "charger", 40000);
    (w "cable", 30000); (w "adapter", 25000); (w "powerbank", 30000);
    (w "speaker", 35000); (w "watch", 40000); (w "smartwatch", 35000);
    (w "phone", 80000); (w "smartphone", 70000); (w "mobile", 60000);
    (w "laptop", 50000); (w "tablet", 30000); (w "computer", 40000);
    (w "fast", 20000); (w "quick", 15000); (w "charging", 25000);
    (w "battery", 30000); (w "camera", 35000); (w "storage", 25000);
    (w "display", 20000); (w "screen", 25000); (w "processor", 20000);
    (w "memory", 18000); (w "ram", 25000); (w "rom", 20000);
    (w "under", 40000); (w "below", 30000); (w "around", 25000);
    (w "price", 50000); (w "cost", 30000); (w "cheap", 25000);
    (w "budget", 30000); (w "affordable", 20000); (w "deal", 25000);
    (w "rupees", 60000); (w "taka", 40000); (w "lakh", 30000) ]%N.

(** ** SymSpell: the symmetric-delete lookup of the symspellpy library *)

(** One row of the distance table: [ai] against [b], from the row above
    ([prev], from column [j] on), its entry to the upper left ([diag]), the
    row before that ([pp], from column [j-2] on) and the entry to the left
    ([left]). *)
Fixpoint osa_row (ai : N) (ai_prev : option N) (b : Py.pystr) (b_prev : option N)
    (prev : list nat) (diag : nat) (pp : list nat) (left : nat) : list nat :=
  match b, prev with
  | bj :: b', pj :: prev' =>
      let cost := if (ai =? bj)%N then 0%nat else 1%nat in
      let v := Nat.min (Nat.min (pj + 1) (left + 1)) (diag + cost) in
      let v :=
        match ai_prev, b_prev, pp with
        | Some ap, Some bp, ppj :: _ =>
            if (ai =? bp)%N && (ap =? bj)%N then Nat.min v (ppj + 1) else v
        | _, _, _ => v
        end in
      v :: osa_row ai ai_prev b' (Some bj) prev' pj
                   (match b_prev with Some _ => tl pp | None => pp end) v
  | _, _ => []
  end.

Fixpoint osa_rows (a : Py.pystr) (a_prev : option N) (b : Py.pystr) (i : nat)
    (prev pp : list nat) : list nat :=
  match a with
  | [] => prev
  | ai :: a' =>
      let row := i :: osa_row ai a_prev b None (tl prev) (hd 0%nat prev) pp i in
      osa_rows a' (Some ai) b (S i) row prev
  end.

(** The optimal-string-alignment distance of [a] and [b]. *)
Definition edit_distance (a b : Py.pystr) : nat :=
  last (osa_rows a None b 1 (seq 0 (S (List.length b))) []) 0%nat.

Record SuggestItem := mkSuggest {
  term : Py.pystr;
  distance : nat;
  count : N
}.

(** [a] sorts before [b]: smaller distance, then greater frequency. *)
Definition better (a b : SuggestItem) : bool :=
  (distance a <? distance b)%nat
  || ((distance a =? distance b)%nat && (count b <? count a)%N).

Fixpoint closest (max_edit_distance : nat) (token : Py.pystr)
    (dictionary : list (Py.pystr * N)) (best : option SuggestItem) :
    option SuggestItem :=
  match dictionary with
  | [] => best
  | (t, c) :: dictionary' =>
      let d := edit_distance token t in
      let best :=
        if (d <=? max_edit_distance)%nat then
          let cand := mkSuggest t d c in
          match best with
          | Some b => if better cand b then Some cand else best
          | None => Some cand
          end
        else best in
      closest max_edit_distance token dictionary' best
  end.

(** Modelled from the spec: the symspellpy library, which the corrector
    consumes, is not among the sources.  This is
    [sym_spell.lookup(token, Verbosity.CLOSEST, max_edit_distance)[0]],
    when there is a suggestion: the library returns the dictionary terms at
    the smallest Damerau-Levenshtein (optimal string alignment) distance
    from the token, within the maximum, ordered by decreasing frequency.
    Among terms equal in distance and frequency this model takes the first
    in insertion order. *)
Definition lookup (dictionary : list (Py.pystr * N)) (max_edit_distance : nat)
    (token : Py.pystr) : option SuggestItem :=
  closest max_edit_distance token dictionary None.

(** ** The corrector *)

(** [SpellCorrector._apply_rewrite_rules]. *)
Definition rewrite_token (token : Py.pystr) : Py.pystr :=
  match table_get REWRITE_RULES token with
  | Some v => v
  | None => token
  end.

Definition _apply_rewrite_rules (text : Py.pystr) : Py.pystr :=
  Py.join Py.space (map rewrite_token (Py.split (Py.lower text))).

(** [re.fullmatch(pattern, token, re.IGNORECASE)] for some pattern of
    [PRESERVE_PATTERNS]: after a run of digits nothing, one letter
    ([\d+[kmbt]] and [\d+[a-z]]) or one of the unit words; or one letter
    and a run of digits ([[a-z]\d+]). *)
Definition matches_preserve_pattern (token : Py.pystr) : bool :=
  let '(digits, rest) := InputHandler.span Py.isdecimal_cp token in
  match digits with
  | _ :: _ =>
      match rest with
      | [] => true
      | [c] => Py.re_ialpha c
      | _ => existsb (fun unit => Py.re_imatch unit rest)
                     (map w ["gb"; "tb"; "mb"; "mah"; "wh"; "mp"; "mpx"]%string)
      end
  | [] =>
      match token with
      | c :: ((_ :: _) as tail) => Py.re_ialpha c && forallb Py.isdecimal_cp tail
      | _ => false
      end
  end.

(** [SpellCorrector._should_preserve]. *)
Definition _should_preserve (token : Py.pystr) : bool :=
  (List.length token <? 3)%nat || matches_preserve_pattern token.

(** A lower-case token: what every stage of the corrector works on. *)
Definition good (t : Py.pystr) : bool := Py.is_token t && Py.eqb (Py.lower t) t.

Section Corrector.

(** The SymSpell dictionary and [self.max_edit_distance]. *)
Variable dictionary : list (Py.pystr * N).
Variable max_edit_distance : nat.

(** [SpellCorrector._symspell_correct]. *)
Definition _symspell_correct (token : Py.pystr) : Py.pystr :=
  match lookup dictionary max_edit_distance token with
  | Some suggestion =>
      if (distance suggestion <=? 2)%nat then term suggestion else token
  | None => token
  end.

Definition correct_token (token : Py.pystr) : Py.pystr :=
  if _should_preserve token then token else _symspell_correct token.

Definition unit_token (token : Py.pystr) : Py.pystr :=
  match table_get UNIT_PATTERNS token with
  | Some v => v
  | None => token
  end.

(** The tokens of the three stages. *)
Definition rewritten (text : Py.pystr) : list Py.pystr :=
  map rewrite_token (Py.split (Py.lower text)).

Definition spell_checked (text : Py.pystr) : list Py.pystr :=
  map correct_token (rewritten text).

Definition normalized (text : Py.pystr) : list Py.pystr :=
  map unit_token (spell_checked text).

(** [SpellCorrector._normalize_units]. *)
Definition _normalize_units (text : Py.pystr) : Py.pystr :=
  Py.join Py.space (map unit_token (Py.split (Py.lower text))).

(** [SpellCorrector._correct_cached]; the [lru_cache] around it only
    memoizes this function of its arguments. *)
Definition _correct_cached (text : Py.pystr) (apply_unit_normalization : bool) :
    Py.pystr :=
  let text := _apply_rewrite_rules text in
  let tokens := Py.split text in
  let text := Py.join Py.space (map correct_token tokens) in
  if apply_unit_normalization then _normalize_units text else text.

(** [SpellCorrector.correct]. *)
Definition correct (text : Py.pystr) (apply_unit_normalization : bool) : Py.pystr :=
  match text with
  | [] => []
  | _ => _correct_cached text apply_unit_normalization
  end.

End Corrector.

(** The corrector the pipeline builds: the e-commerce terms, maximum edit
    distance 2. *)
Definition default_correct : Py.pystr -> bool -> Py.pystr :=
  correct ecommerce_terms 2.

(** What one pass does to a lower-case token. *)
Definition pass (t : Py.pystr) : Py.pystr :=
  unit_token (correct_token ecommerce_terms 2 (rewrite_token t)).

End SpellCorrector.


(* ===================================================================== *)
(** * Concrete inputs *)
(* ===================================================================== *)

Module Examples.

Import CodeMixDetector TransliterationClient Transliteration Pipeline Tokenizer.
Import InputHandler SmartRomanizedDetector.

(** A Fast Lane input: two Latin tokens. *)
Definition redmi_note : list TaggedToken :=
  [mkTagged (Py.str "redmi") "Latin"; mkTagged (Py.str "note") "Latin"].

(** A transliteration service that answers every request, the 21 language
    codes it advertises, and a healthy client with an empty cache. *)
Definition echo_service : Py.pystr -> string -> bool -> Response :=
  fun text _ _ => Ok200 text.

Definition advertised_languages : list string :=
  ["as"; "bn"; "brx"; "gom"; "gu"; "hi"; "kn"; "ks"; "mai"; "ml"; "mni"; "mr";
   "ne"; "or"; "pa"; "sa"; "sd"; "si"; "ta"; "te"; "ur"]%string.

Definition fresh_client : Client := mkClient true [] [] [].

(** The Hindi query of the orchestrator's own smoke test, in Devanagari:
    two words, [U+0935 ...] and [U+0939 ...]. *)
Definition hindi_query : Py.pystr :=
  [0x0935; 0x093E; 0x092F; 0x0930; 0x0932; 0x0947; 0x0938; 0x20;
   0x0939; 0x0947; 0x0921; 0x092B; 0x093C; 0x094B; 0x0928]%N.

(** Step 3 on that query, with a fastText model that answers Hindi. *)
Definition hindi_step3 : Step3Result :=
  tokenize_step3_strict (fun _ => Predicted "hi" (99 # 100)) None
                        (fun _ => ("unknown"%string, 0)) Py.split hindi_query.

Definition fresh_state : State :=
  mkState [] 0 fresh_client.

Definition hindi_request : Detection * (Outcome Py.pystr * State) :=
  process_async_steps_4_5 echo_service advertised_languages
    fresh_state hindi_query (tagged_tokens hindi_step3) (language hindi_step3)
    (language_confidence hindi_step3).

(** A scraped product. *)
Definition sample_product : Product :=
  mkProduct (Py.str "cabin suitcase") [] (Py.str "3299") (Py.str "luggage") [] [].

Definition sample_key (i : nat) : Py.pystr :=
  Py.str "flipkart:"
  ++ [N.of_nat (48 + i / 100); N.of_nat (48 + (i / 10) mod 10); N.of_nat (48 + i mod 10)].

(** A cache holding 1,000 products, keyed [flipkart:000] to
    [flipkart:999] in insertion order. *)
Definition full_cache : Cache :=
  map (fun i => (sample_key i, sample_product)) (seq 0 1000).


(** The cosine similarities of [amake earphone dekhao] with the Hindi,
    Bengali and English letter distributions, rounded to three places. *)
Definition sample_cosines : Scores := mkScores (804 # 1000) (840 # 1000) (750 # 1000).

(** The query [best se], in which English has the greatest combined
    score and Hindi follows closely, and its three cosine similarities,
    rounded to three places. *)
Definition best_se : Py.pystr := Py.str "best se".
Definition best_se_cosines : Scores := mkScores (413 # 1000) (333 # 1000) (612 # 1000).

(** A fastText model whose prediction fails, and a fallback that knows
    nothing: neither is consulted on the fast paths. *)
Definition no_model : Py.pystr -> Prediction := fun _ => Failed.
Definition no_fallback : Py.pystr -> string * Q := fun _ => ("unknown"%string, 0).

(** The romanized Hindi query of the specification's scenarios. *)
Definition mujhe_query : Py.pystr := Py.str "mujhe wireless headphone chahiye".

Definition mujhe_step3 : Step3Result :=
  tokenize_step3_strict no_model None no_fallback Py.split mujhe_query.

Definition headphones_query : Py.pystr := Py.str "wireless headphones under 5000".

(** The unit the corrector expands [gm] to. *)
Definition gram : Py.pystr := Py.str "gram".


(** A product page on Amazon, a URL parser that knows its host, and a
    scraper that finds the sample product. *)
Definition amazon_url : Py.pystr := Py.str "https://www.amazon.in/dp/B0CHX1W1XY".

Definition amazon_netloc : Py.pystr -> option Py.pystr :=
  fun _ => Some (Py.str "www.amazon.in").

Definition sample_scraper : Py.pystr -> option Product :=
  fun _ => Some sample_product.

Definition no_scraper : Py.pystr -> option Product := fun _ => None.

Definition no_redirect : Py.pystr -> option Py.pystr := fun _ => None.

(** A HEAD request that ends at some other address. *)
Definition elsewhere : Py.pystr -> option Py.pystr :=
  fun _ => Some (Py.str "https://example.com/").

(** A shortened link to that product page: the URL parser finds the
    shortener's host in it, and the HEAD request ends at the page. *)
Definition short_url : Py.pystr := Py.str "https://bit.ly/3xYzAbC".

Definition short_netloc : Py.pystr -> option Py.pystr :=
  fun url => if Py.startswith (Py.str "https://bit.ly/") url then Some (Py.str "bit.ly")
             else if Py.startswith (Py.str "https://www.amazon.in/") url
                  then Some (Py.str "www.amazon.in")
                  else Some (Py.str "example.com").

Definition redirect_to_amazon : Py.pystr -> option Py.pystr :=
  fun _ => Some amazon_url.


(** Steps 3 to 5 on the English query and on the romanized Hindi query,
    with a fresh orchestrator state. *)
Definition headphones_step3 : Step3Result :=
  tokenize_step3_strict no_model None no_fallback Py.split headphones_query.

Definition headphones_request : Detection * (Outcome Py.pystr * State) :=
  process_async_steps_4_5 echo_service advertised_languages
    fresh_state headphones_query (tagged_tokens headphones_step3)
    (language headphones_step3) (language_confidence headphones_step3).

Definition mujhe_request : Detection * (Outcome Py.pystr * State) :=
  process_async_steps_4_5 echo_service advertised_languages
    fresh_state mujhe_query (tagged_tokens mujhe_step3)
    (language mujhe_step3) (language_confidence mujhe_step3).

End Examples.

(* ===================================================================== *)
(** * Properties *)
(* ===================================================================== *)

(** ** Comparisons on scores *)

Lemma Qgt_bool_iff (a b : Q) : Qgt_bool a b = true <-> (b < a)%Q.
Proof.
  unfold Qgt_bool. rewrite negb_true_iff.
  split; intro H.
  - apply Qnot_le_lt. intro Hle. apply Qle_bool_iff in Hle. congruence.
  - destruct (Qle_bool a b) eqn:E; auto.
    apply Qle_bool_iff in E. exfalso. exact (Qlt_not_le _ _ H E).
Qed.

Lemma Qgt_bool_false_iff (a b : Q) : Qgt_bool a b = false <-> (a <= b)%Q.
Proof.
  unfold Qgt_bool. rewrite negb_false_iff. apply Qle_bool_iff.
Qed.

Lemma Qge_bool_iff (a b : Q) : Qge_bool a b = true <-> (b <= a)%Q.
Proof. unfold Qge_bool. apply Qle_bool_iff. Qed.

(** ** Step 4: the skip flag and the Fast Lane *)

Module CodeMixFacts.

Import CodeMixDetector.
Import Examples.

Lemma should_skip_step5_spec (r : Classification) :
  should_skip_step5 r = true <->
  (label r = "pure_english"%string /\ (75 # 100 <= confidence r)%Q) \/
  (label r = "pure_native"%string /\ (75 # 100 <= confidence r)%Q).
Proof.
  unfold should_skip_step5.
  destruct (String.eqb_spec (label r) "pure_native") as [Hn | Hn];
    destruct (String.eqb_spec (label r) "pure_english") as [He | He];
    destruct (Qge_bool (confidence r) (75 # 100)) eqn:Hc; simpl.
  all: try (rewrite Hn in He; discriminate He).
  all: try (apply Qge_bool_iff in Hc).
  all: try (assert (Hnc : ~ (75 # 100 <= confidence r)%Q)
              by (intro Hle; apply Qge_bool_iff in Hle; congruence)).
  all: split; intro Hyp; try discriminate Hyp; try reflexivity; try tauto.
Qed.

Lemma detect_flag (onnx : option (Py.pystr -> list TaggedToken -> option (nat * Q)))
    (text : Py.pystr) (toks : list TaggedToken) (hint : string) (conf : Q)
    (use_smart_checkpoint : bool) :
  let d := detect onnx text toks hint conf use_smart_checkpoint in
  skip_step5 d = should_skip_step5 (cls d).
Proof.
  unfold detect.
  destruct (in_strings _ _); reflexivity.
Qed.

(** C2.  The skip flag of a detection result is true exactly when the
    label is [pure_english] or [pure_native] with confidence at least
    0.75; this holds of [should_skip_step5] on any classification and of
    the flag [detect] attaches to its result, and the flag is false on the
    labels [romanized_indic], [mixed] and [ambiguous]. *)
Theorem skip_step5_iff :
  (forall r : Classification,
      should_skip_step5 r = true <->
      (label r = "pure_english"%string /\ (75 # 100 <= confidence r)%Q) \/
      (label r = "pure_native"%string /\ (75 # 100 <= confidence r)%Q))
  /\
  (forall onnx text toks hint conf usc,
      let d := detect onnx text toks hint conf usc in
      skip_step5 d = true <->
      (label (cls d) = "pure_english"%string /\ (75 # 100 <= confidence (cls d))%Q) \/
      (label (cls d) = "pure_native"%string /\ (75 # 100 <= confidence (cls d))%Q))
  /\
  (forall (c : Q) (m : string) (rl : option string),
      should_skip_step5 (mkClass "romanized_indic" c m rl) = false
      /\ should_skip_step5 (mkClass "mixed" c m rl) = false
      /\ should_skip_step5 (mkClass "ambiguous" c m rl) = false).
Proof.
  split; [exact should_skip_step5_spec |].
  split.
  - intros onnx text toks hint conf usc d.
    subst d. rewrite detect_flag. apply should_skip_step5_spec.
  - intros c m rl. repeat split; reflexivity.
Qed.

(** C4, as stated, fails at a confidence of exactly 0.85: every word token
    is Latin and the language is [en], yet the Fast Lane answers
    [ambiguous] (at 0.5, method [heuristic]). *)
Lemma fast_lane_exactly_085 :
  forallb (fun s => String.eqb s "Latin") (word_scripts redmi_note) = true
  /\ (85 # 100 <= 85 # 100)%Q
  /\ detect_heuristic (Py.str "redmi note") redmi_note "en" (85 # 100)
     = mkClass "ambiguous" (5 # 10) "heuristic" None
  /\ label (detect_heuristic (Py.str "redmi note") redmi_note "en" (85 # 100))
     <> "pure_english"%string.
Proof.
  repeat split; try reflexivity.
  - unfold Qle; simpl; lia.
  - vm_compute. discriminate.
Qed.

(** [detect_heuristic] past its two guards. *)
Lemma detect_heuristic_rules (text : Py.pystr) (toks : list TaggedToken)
    (hint : string) (conf : Q) :
  text <> [] ->
  word_scripts toks <> [] ->
  detect_heuristic text toks hint conf =
  if forallb (fun s => in_strings s native_scripts) (word_scripts toks)
     && in_strings hint native_langs
  then mkClass "pure_native" (95 # 100) "fast_lane" None
  else if forallb (fun s => String.eqb s "Latin") (word_scripts toks)
          && String.eqb hint "en" && Qgt_bool conf CONFIDENCE_THRESHOLD
  then mkClass "pure_english" conf "fast_lane" None
  else ambiguous_heuristic.
Proof.
  intros Htext Hws.
  unfold detect_heuristic.
  destruct text as [| c text']; [exfalso; apply Htext; reflexivity |].
  destruct toks as [| t toks']; [exfalso; apply Hws; reflexivity |].
  destruct (word_scripts (t :: toks')) as [| s0 ws] eqn:Ews;
    [exfalso; apply Hws; reflexivity |].
  reflexivity.
Qed.

(** C4, amended.  For a non-empty query with at least one word token, all
    of whose word tokens are Latin, and a language [en]: with a confidence
    strictly above 0.85 the Fast Lane emits [pure_english] at the LID
    confidence with method [fast_lane]; with a confidence of exactly 0.85,
    or any below, it answers [ambiguous] (at 0.5, method [heuristic]). *)
Theorem fast_lane_pure_english (text : Py.pystr) (toks : list TaggedToken) (conf : Q) :
  text <> [] ->
  word_scripts toks <> [] ->
  forallb (fun s => String.eqb s "Latin") (word_scripts toks) = true ->
  ((85 # 100 < conf)%Q ->
   detect_heuristic text toks "en" conf = mkClass "pure_english" conf "fast_lane" None)
  /\ ((conf == 85 # 100)%Q \/ (conf < 85 # 100)%Q ->
      detect_heuristic text toks "en" conf = mkClass "ambiguous" (5 # 10) "heuristic" None).
Proof.
  intros Htext Hws Hlatin.
  rewrite detect_heuristic_rules by assumption.
  replace (in_strings "en" native_langs) with false by reflexivity.
  rewrite andb_false_r, Hlatin. cbn [andb String.eqb Ascii.eqb Bool.eqb].
  split.
  - intros Hconf.
    assert (Hgt : Qgt_bool conf CONFIDENCE_THRESHOLD = true)
      by (apply Qgt_bool_iff; exact Hconf).
    rewrite Hgt. reflexivity.
  - intros Hconf.
    assert (Hgt : Qgt_bool conf CONFIDENCE_THRESHOLD = false).
    { apply Qgt_bool_false_iff. unfold CONFIDENCE_THRESHOLD.
      destruct Hconf as [Heq | Hlt]; [rewrite Heq; apply Qle_refl | apply Qlt_le_weak, Hlt]. }
    rewrite Hgt. reflexivity.
Qed.

Lemma fast_lane_pure_english_witness :
  detect_heuristic (Py.str "redmi note") redmi_note "en" (99 # 100)
  = mkClass "pure_english" (99 # 100) "fast_lane" None
  /\ detect_heuristic (Py.str "redmi note") redmi_note "en" (85 # 100)
     = mkClass "ambiguous" (5 # 10) "heuristic" None
  /\ detect_heuristic (Py.str "redmi note") redmi_note "en" (17 # 20)
     = mkClass "ambiguous" (5 # 10) "heuristic" None.
Proof.
  split; [| split].
  - apply (fast_lane_pure_english (Py.str "redmi note") redmi_note (99 # 100)).
    + discriminate.
    + discriminate.
    + reflexivity.
    + reflexivity.
  - apply (fast_lane_pure_english (Py.str "redmi note") redmi_note (85 # 100)).
    + discriminate.
    + discriminate.
    + reflexivity.
    + left. reflexivity.
  - apply (fast_lane_pure_english (Py.str "redmi note") redmi_note (17 # 20)).
    + discriminate.
    + discriminate.
    + reflexivity.
    + left. reflexivity.
Defined.

End CodeMixFacts.

(** ** Step 5: the pass-through cases *)

Module Step5Facts.

Import TransliterationClient Transliteration.
Import Examples.

(** C6.  [process] returns the query unchanged, as a pass-through result,
    and leaves the client untouched (no call, no request) when the flags
    say native and not romanized, when they say neither, when the target
    language resolves to English, and when the resolved target language is
    not among the supported codes. *)
Theorem process_pass_through
    (service : Py.pystr -> string -> bool -> Response)
    (supported_languages : list string) (c : Client) (query : Py.pystr)
    (flags : LanguageFlags) (target_lang : string)
    (romanized_language : option string) :
  (native flags = true /\ romanized flags = false)
  \/ (romanized flags = false /\ native flags = false)
  \/ resolve_target target_lang romanized_language = "en"%string
  \/ in_strings (resolve_target target_lang romanized_language) supported_languages
     = false ->
  process service supported_languages c query flags target_lang romanized_language
  = (Returned (mkResult query flags false "passthrough"), c).
Proof.
  intros Hcase. unfold process, passthrough.
  destruct (native flags) eqn:Hn, (romanized flags) eqn:Hr; simpl; try reflexivity.
  - destruct Hcase as [[_ H] | [[H _] | [H | H]]]; try discriminate H.
    + rewrite H. reflexivity.
    + destruct (String.eqb _ "en"); [reflexivity |]. rewrite H. reflexivity.
  - destruct Hcase as [[H _] | [[H _] | [H | H]]]; try discriminate H.
    + rewrite H. reflexivity.
    + destruct (String.eqb _ "en"); [reflexivity |]. rewrite H. reflexivity.
Qed.

Lemma process_pass_through_witness :
  process echo_service advertised_languages fresh_client (Py.str "wireless headphones")
          (mkFlags false false true false) "hi" None
  = (Returned (mkResult (Py.str "wireless headphones")
                        (mkFlags false false true false) false "passthrough"),
     fresh_client).
Proof.
  apply (process_pass_through echo_service advertised_languages fresh_client
           (Py.str "wireless headphones") (mkFlags false false true false) "hi" None).
  right; left. split; reflexivity.
Defined.

End Step5Facts.

(** ** The orchestrator: Step 4's skip flag against Step 5's routing *)

Module PipelineFacts.

Import CodeMixDetector TransliterationClient Transliteration Pipeline Tokenizer.
Import Examples.

(** C1 at the failing input.  Step 4 classifies the Devanagari query as
    [pure_native] and sets [skip_step5]; the orchestrator nevertheless sends
    it through [_cached_translate] to the transliteration stage, flagged as
    romanized Hindi, and the client's [transliterate] is called and posts
    the query to the service. *)
Theorem skip_step5_set_but_client_called :
  map script (tagged_tokens hindi_step3) = ["Devanagari"; "Devanagari"]%string
  /\ language hindi_step3 = "hi"%string
  /\ label (cls (fst hindi_request)) = "pure_native"%string
  /\ skip_step5 (fst hindi_request) = true
  /\ calls (client (snd (snd hindi_request))) = [(hindi_query, "hi"%string)]
  /\ posts (client (snd (snd hindi_request))) = [(hindi_query, "hi"%string)].
Proof.
  vm_compute. repeat split; reflexivity.
Qed.

(** What the orchestrator does honour: a [pure_english] result whose skip
    flag is set never reaches the translator. *)
Lemma step5_pure_english_skips
    (service : Py.pystr -> string -> bool -> Response)
    (supported_languages : list string) (st : State) (text : Py.pystr)
    (lang : string) (conf : Q) (d : Detection) :
  label (cls d) = "pure_english"%string ->
  should_skip_step5 (cls d) = true ->
  step5 service supported_languages st text lang conf d = (Returned text, st).
Proof.
  intros Hl Hs. unfold step5. rewrite Hl. simpl.
  apply CodeMixFacts.should_skip_step5_spec in Hs.
  destruct Hs as [[_ Hc] | [Hn _]]; [| congruence].
  assert (Hgt : Qgt_bool (confidence (cls d)) (70 # 100) = true).
  { apply Qgt_bool_iff. eapply Qlt_le_trans; [| exact Hc]. reflexivity. }
  rewrite Hgt. reflexivity.
Qed.

End PipelineFacts.

(** ** Step 1: the product cache and the query text *)

Module InputHandlerFacts.

Import InputHandler.
Import Examples.

Lemma eqb_refl (a : Py.pystr) : Py.eqb a a = true.
Proof.
  induction a as [| x a IH]; simpl; [reflexivity |].
  rewrite N.eqb_refl. exact IH.
Qed.

Lemma cache_set_length (k : Py.pystr) (v : Product) (c : Cache) :
  (List.length (cache_set k v c) <= S (List.length c))%nat.
Proof.
  induction c as [| [k' v'] c IH]; simpl; [lia |].
  destruct (Py.eqb k k'); simpl; lia.
Qed.

Lemma cache_product_evicts (k0 : Py.pystr) (v0 : Product) (rest : Cache)
    (key : Py.pystr) (data : Product) :
  (_cache_max_size <= List.length ((k0, v0) :: rest))%nat ->
  _cache_product ((k0, v0) :: rest) key data = cache_set key data rest.
Proof.
  intros Hfull. unfold _cache_product.
  apply Nat.leb_le in Hfull. rewrite Hfull.
  cbn [cache_del]. rewrite eqb_refl. reflexivity.
Qed.

Lemma cache_product_no_eviction (c : Cache) (key : Py.pystr) (data : Product) :
  (List.length c < _cache_max_size)%nat ->
  _cache_product c key data = cache_set key data c.
Proof.
  intros Hroom. unfold _cache_product.
  apply Nat.leb_gt in Hroom. rewrite Hroom. reflexivity.
Qed.

Lemma cache_product_bound (c : Cache) (key : Py.pystr) (data : Product) :
  (List.length c <= _cache_max_size)%nat ->
  (List.length (_cache_product c key data) <= _cache_max_size)%nat.
Proof.
  intros Hinv.
  destruct (Nat.lt_ge_cases (List.length c) _cache_max_size) as [Hroom | Hfull].
  - rewrite cache_product_no_eviction by exact Hroom.
    pose proof (cache_set_length key data c). lia.
  - destruct c as [| [k0 v0] rest].
    + unfold _cache_max_size in Hfull. simpl in Hfull. lia.
    + rewrite cache_product_evicts by exact Hfull.
      pose proof (cache_set_length key data rest). simpl in Hinv. lia.
Qed.

Section HandlerFacts.

Variable netloc : Py.pystr -> option Py.pystr.
Variable head_final_url : Py.pystr -> option Py.pystr.
Variable scrape_product : Py.pystr -> option Product.

Lemma process_cache_bound (c : Cache) (raw : Py.pystr) :
  (List.length c <= _cache_max_size)%nat ->
  (List.length (snd (process netloc head_final_url scrape_product c raw))
   <= _cache_max_size)%nat.
Proof.
  intros Hinv. unfold process.
  repeat match goal with
         | |- context [if ?b then _ else _] => destruct b
         | |- context [match ?x with _ => _ end] => destruct x
         end; simpl; try exact Hinv.
  all: apply cache_product_bound; exact Hinv.
Qed.

End HandlerFacts.

(** From the empty cache the class starts with, any sequence of
    [process] calls keeps the bound. *)
Lemma product_cache_bounded_from_empty
    (netloc head_final_url : Py.pystr -> option Py.pystr)
    (scrape_product : Py.pystr -> option Product) (inputs : list Py.pystr) :
  (List.length
     (fold_left (fun c raw => snd (process netloc head_final_url scrape_product c raw))
                inputs [])
   <= _cache_max_size)%nat.
Proof.
  assert (Hgen : forall c,
    (List.length c <= _cache_max_size)%nat ->
    (List.length
       (fold_left (fun c raw => snd (process netloc head_final_url scrape_product c raw))
                  inputs c)
     <= _cache_max_size)%nat).
  { induction inputs as [| raw inputs IH]; intros c Hc; simpl; [exact Hc |].
    apply IH. apply process_cache_bound. exact Hc. }
  apply Hgen. unfold _cache_max_size. simpl. lia.
Qed.

(** C9.  A cache of at most 1,000 entries still has at most 1,000 after
    [_cache_product]; when it holds 1,000 (or more) the entry inserted
    first is removed before the new one is stored; clearing and a whole
    [process] call keep the bound as well. *)
Theorem product_cache_bounded (c : Cache) (key : Py.pystr) (data : Product) :
  (List.length c <= _cache_max_size)%nat ->
  (List.length (_cache_product c key data) <= _cache_max_size)%nat
  /\ (forall k0 v0 rest,
        c = (k0, v0) :: rest -> List.length c = _cache_max_size ->
        _cache_product c key data = cache_set key data rest)
  /\ (List.length (clear_cache c) <= _cache_max_size)%nat
  /\ (forall netloc head_final_url scrape_product raw,
        (List.length (snd (process netloc head_final_url scrape_product c raw))
         <= _cache_max_size)%nat).
Proof.
  intros Hinv. repeat split.
  - apply cache_product_bound; exact Hinv.
  - intros k0 v0 rest Hc Hlen. subst c.
    apply cache_product_evicts. rewrite Hlen. apply Nat.le_refl.
  - unfold clear_cache, _cache_max_size. simpl. lia.
  - intros. apply process_cache_bound; exact Hinv.
Qed.

Lemma product_cache_bounded_witness :
  (List.length full_cache = 1000)%nat
  /\ (List.length (_cache_product full_cache (Py.str "amazon:B0CHX1W1XY") sample_product)
      <= _cache_max_size)%nat
  /\ map fst (firstn 2 (_cache_product full_cache (Py.str "amazon:B0CHX1W1XY")
                                        sample_product))
     = [Py.str "flipkart:001"; Py.str "flipkart:002"].
Proof.
  split; [vm_compute; reflexivity |].
  split.
  - apply (product_cache_bounded full_cache (Py.str "amazon:B0CHX1W1XY") sample_product).
    apply Nat.leb_le. vm_compute. reflexivity.
  - vm_compute. reflexivity.
Defined.





End InputHandlerFacts.

(** ** The smart romanized detector: range of the result *)

Module SmartDetectorFacts.

Import SmartRomanizedDetector.
Import Examples.

Lemma py_max_cases (a b : Q) :
  (py_max a b = a /\ (b <= a)%Q) \/ (py_max a b = b /\ (a < b)%Q).
Proof.
  unfold py_max. destruct (Qgt_bool b a) eqn:E.
  - right. split; [reflexivity | apply Qgt_bool_iff; exact E].
  - left. split; [reflexivity | apply Qgt_bool_false_iff; exact E].
Qed.

Lemma py_min_cases (a b : Q) :
  (py_min a b = b /\ (b < a)%Q) \/ (py_min a b = a /\ (a <= b)%Q).
Proof.
  unfold py_min. destruct (Qgt_bool a b) eqn:E.
  - left. split; [reflexivity | apply Qgt_bool_iff; exact E].
  - right. split; [reflexivity | apply Qgt_bool_false_iff; exact E].
Qed.

Lemma ratio_unit (n d : nat) : (n <= d)%nat -> (0 < d)%nat -> unit_interval (ratio n d).
Proof.
  intros Hnd Hd. unfold unit_interval, ratio.
  assert (Hdq : (0 < inject_Z (Z.of_nat d))%Q).
  { change 0%Q with (inject_Z 0). rewrite <- Zlt_Qlt. lia. }
  split.
  - apply Qle_shift_div_l; [exact Hdq |].
    rewrite Qmult_0_l. change 0%Q with (inject_Z 0). rewrite <- Zle_Qle. lia.
  - apply Qle_shift_div_r; [exact Hdq |].
    rewrite Qmult_1_l. rewrite <- Zle_Qle. lia.
Qed.

Lemma count_if_le {A : Type} (p : A -> bool) (xs : list A) :
  (count_if p xs <= List.length xs)%nat.
Proof. unfold count_if. apply filter_length_le. Qed.

Lemma core_words_unit (words : list Py.pystr) : unit_scores (_analyze_core_words words).
Proof.
  unfold _analyze_core_words.
  destruct words as [| w0 ws]; [unfold unit_scores, unit_interval; simpl; repeat split; lra |].
  set (hm := count_if _ _). set (bm := count_if (fun w => Py.mem w core_bengali_words) _).
  unfold unit_scores, unit_interval; simpl.
  assert (Hh : forall m : nat, (0 <= inject_Z (Z.of_nat m) * (25 # 100))%Q).
  { intro m. apply Qmult_le_0_compat; [| lra].
    change 0%Q with (inject_Z 0). rewrite <- Zle_Qle. lia. }
  repeat split.
  - destruct (0 <? hm)%nat; [| lra].
    destruct (py_min_cases 1 (inject_Z (Z.of_nat hm) * (25 # 100))) as [[-> _] | [-> _]];
      [apply Hh | lra].
  - destruct (0 <? hm)%nat; [| lra].
    destruct (py_min_cases 1 (inject_Z (Z.of_nat hm) * (25 # 100))) as [[-> H] | [-> _]]; lra.
  - destruct (0 <? bm)%nat; [| lra].
    destruct (py_min_cases 1 (inject_Z (Z.of_nat bm) * (25 # 100))) as [[-> _] | [-> _]];
      [apply Hh | lra].
  - destruct (0 <? bm)%nat; [| lra].
    destruct (py_min_cases 1 (inject_Z (Z.of_nat bm) * (25 # 100))) as [[-> H] | [-> _]]; lra.
  - destruct (_ && _); lra.
  - destruct (_ && _); lra.
Qed.


Lemma complement_scores (hi bn : Q) :
  unit_interval hi -> unit_interval bn -> unit_scores (mkScores hi bn (1 - py_max hi bn)).
Proof.
  intros [Hh0 Hh1] [Hb0 Hb1]. unfold unit_scores, unit_interval. simpl.
  destruct (py_max_cases hi bn) as [[-> _] | [-> _]]; repeat split; lra.
Qed.

Lemma zero_scores_unit : unit_scores zero_scores.
Proof. unfold unit_scores, unit_interval. simpl. repeat split; lra. Qed.

Lemma ngrams_unit (isalpha_cp : N -> bool) (text : Py.pystr) :
  unit_scores (_analyze_ngrams isalpha_cp text).
Proof.
  unfold _analyze_ngrams.
  set (bigrams := filter _ (slices2 text)).
  set (trigrams := filter _ (slices3 text)).
  assert (Hgen :
    unit_scores
      (if (0 <? List.length bigrams + List.length trigrams)%nat
       then
         let hi := ratio (count_if (fun bg => Py.mem bg hindi_bigrams) bigrams
                          + count_if (fun tg => Py.mem tg hindi_trigrams) trigrams)
                         (List.length bigrams + List.length trigrams) in
         let bn := ratio (count_if (fun bg => Py.mem bg bengali_bigrams) bigrams
                          + count_if (fun tg => Py.mem tg bengali_trigrams) trigrams)
                         (List.length bigrams + List.length trigrams) in
         mkScores hi bn (1 - py_max hi bn)
       else zero_scores)).
  { destruct (0 <? _)%nat eqn:Hpos; [| apply zero_scores_unit].
    apply Nat.ltb_lt in Hpos. cbv zeta.
    apply complement_scores; apply ratio_unit; try exact Hpos.
    - pose proof (count_if_le (fun bg => Py.mem bg hindi_bigrams) bigrams).
      pose proof (count_if_le (fun tg => Py.mem tg hindi_trigrams) trigrams). lia.
    - pose proof (count_if_le (fun bg => Py.mem bg bengali_bigrams) bigrams).
      pose proof (count_if_le (fun tg => Py.mem tg bengali_trigrams) trigrams). lia. }
  destruct bigrams, trigrams; exact Hgen.
Qed.

Lemma phonetic_unit (isalpha_cp : N -> bool) (text : Py.pystr) :
  unit_scores (_analyze_phonetic_patterns isalpha_cp text).
Proof.
  unfold _analyze_phonetic_patterns.
  set (words := filter _ (Py.split text)).
  destruct words as [| w0 ws] eqn:Hw; [apply zero_scores_unit |].
  apply complement_scores; apply ratio_unit;
    try apply count_if_le; simpl; lia.
Qed.

Lemma share_unit (x total : Q) :
  (0 <= x)%Q -> (x <= total)%Q -> (0 < total)%Q -> unit_interval (x / total).
Proof.
  intros Hx Hle Hpos. split.
  - apply Qle_shift_div_l; [exact Hpos |]. rewrite Qmult_0_l. exact Hx.
  - apply Qle_shift_div_r; [exact Hpos |]. rewrite Qmult_1_l. exact Hle.
Qed.

Lemma char_frequency_unit (isalpha_cp : N -> bool) (cosines : Scores)
    (text : Py.pystr) :
  nonneg_scores cosines -> unit_scores (_analyze_char_frequency isalpha_cp cosines text).
Proof.
  intros [Hh [Hb He]]. unfold _analyze_char_frequency.
  destruct (filter isalpha_cp (Py.lower text)); [apply zero_scores_unit |].
  cbv zeta.
  destruct (Qgt_bool (0 + hi_Latn cosines + bn_Latn cosines + en cosines) 0) eqn:Ht.
  - apply Qgt_bool_iff in Ht.
    unfold unit_scores. simpl.
    repeat split; apply share_unit; try assumption; lra.
  - apply Qgt_bool_false_iff in Ht.
    unfold unit_scores, unit_interval. repeat split; lra.
Qed.

Lemma combined_unit (isalpha_cp : N -> bool) (cosines : Scores) (text_lower : Py.pystr) :
  nonneg_scores cosines -> unit_scores (combined_scores isalpha_cp cosines text_lower).
Proof.
  intros Hcos.
  destruct (char_frequency_unit isalpha_cp cosines text_lower Hcos)
    as [[Hf1 Hf2] [[Hf3 Hf4] [Hf5 Hf6]]].
  destruct (core_words_unit (Py.split text_lower)) as [[Hw1 Hw2] [[Hw3 Hw4] [Hw5 Hw6]]].
  destruct (ngrams_unit isalpha_cp text_lower) as [[Hn1 Hn2] [[Hn3 Hn4] [Hn5 Hn6]]].
  destruct (phonetic_unit isalpha_cp text_lower) as [[Hp1 Hp2] [[Hp3 Hp4] [Hp5 Hp6]]].
  unfold combined_scores, add_weighted, unit_scores, unit_interval. simpl.
  repeat split; lra.
Qed.

Lemma best_lang_of_cases (scores : Scores) :
  best_lang_of scores = "hi_Latn"%string
  \/ best_lang_of scores = "bn_Latn"%string
  \/ best_lang_of scores = "en"%string.
Proof.
  unfold best_lang_of. simpl.
  destruct (Qgt_bool (bn_Latn scores) (hi_Latn scores)); simpl;
    match goal with |- context [if ?b then _ else _] => destruct b end;
    simpl; auto.
Qed.

Lemma select_language_score (scores : Scores) :
  snd (select_language scores) = score_of scores (fst (select_language scores))
  /\ (fst (select_language scores) = "hi_Latn"%string
      \/ fst (select_language scores) = "bn_Latn"%string
      \/ fst (select_language scores) = "en"%string).
Proof.
  unfold select_language.
  pose proof (best_lang_of_cases scores) as Hb.
  destruct (String.eqb (best_lang_of scores) "en"); [| simpl; auto].
  destruct (_ && _); [| simpl; auto].
  destruct (Qgt_bool (hi_Latn scores) (bn_Latn scores)); simpl; auto.
Qed.

(** The selection when the best Indic score is positive and the English
    score exceeds it by at most 0.15: an Indic language, with its score,
    which is the best Indic score. *)
Lemma select_language_close (scores : Scores) :
  (0 < py_max (hi_Latn scores) (bn_Latn scores))%Q ->
  (en scores - py_max (hi_Latn scores) (bn_Latn scores) <= 15 # 100)%Q ->
  exists l, select_language scores = (l, score_of scores l)
    /\ (l = "hi_Latn"%string \/ l = "bn_Latn"%string)
    /\ (score_of scores l == py_max (hi_Latn scores) (bn_Latn scores))%Q.
Proof.
  intros Hpos Hclose.
  apply Qgt_bool_iff in Hpos. apply Qle_bool_iff in Hclose.
  unfold select_language.
  destruct (String.eqb_spec (best_lang_of scores) "en") as [He | He].
  - rewrite Hpos, Hclose. cbn [andb].
    destruct (Qgt_bool (hi_Latn scores) (bn_Latn scores)) eqn:E.
    + exists "hi_Latn"%string. split; [reflexivity |]. split; [left; reflexivity |].
      apply Qgt_bool_iff in E. unfold py_max.
      destruct (Qgt_bool (bn_Latn scores) (hi_Latn scores)) eqn:E2; [| reflexivity].
      apply Qgt_bool_iff in E2. exfalso. lra.
    + exists "bn_Latn"%string. split; [reflexivity |]. split; [right; reflexivity |].
      apply Qgt_bool_false_iff in E. unfold py_max.
      destruct (Qgt_bool (bn_Latn scores) (hi_Latn scores)) eqn:E2; [reflexivity |].
      apply Qgt_bool_false_iff in E2. cbn [score_of String.eqb Ascii.eqb Bool.eqb]. lra.
  - revert He. unfold best_lang_of, py_max. cbv zeta. cbn [snd fst].
    destruct (Qgt_bool (bn_Latn scores) (hi_Latn scores)) eqn:E1; cbn [snd fst];
      match goal with |- context [if ?b then _ else _] => destruct b end;
      cbn [fst]; intros He; try congruence.
    + exists "bn_Latn"%string. split; [reflexivity |]. split; [right; reflexivity |].
      reflexivity.
    + exists "hi_Latn"%string. split; [reflexivity |]. split; [left; reflexivity |].
      reflexivity.
Qed.

Lemma decide_result (scores : Scores) :
  unit_scores scores ->
  decide scores = (None, 0)
  \/ exists l c, decide scores = (Some l, c)
       /\ (l = "hi_Latn"%string \/ l = "bn_Latn"%string)
       /\ (30 # 100 <= c)%Q /\ (c <= 1)%Q.
Proof.
  intros [[H1 H2] [[H3 H4] [H5 H6]]].
  unfold decide.
  destruct (select_language_score scores) as [Hs Hl].
  destruct (select_language scores) as [l c]. simpl in Hs, Hl.
  destruct (Qge_bool c (30 # 100)) eqn:Hc; simpl; [| left; reflexivity].
  destruct (String.eqb_spec l "en") as [He | He]; simpl; [left; reflexivity |].
  right. exists l, c. split; [reflexivity |].
  apply Qge_bool_iff in Hc.
  destruct Hl as [-> | [-> | ->]]; [| | congruence].
  - split; [left; reflexivity |]. split; [exact Hc |]. subst c. exact H2.
  - split; [right; reflexivity |]. split; [exact Hc |]. subst c. exact H4.
Qed.

(** What [decide] makes of such scores: the Indic language with its
    score when that reaches 0.30, nothing otherwise. *)
Lemma decide_close (scores : Scores) :
  (0 < py_max (hi_Latn scores) (bn_Latn scores))%Q ->
  (en scores - py_max (hi_Latn scores) (bn_Latn scores) <= 15 # 100)%Q ->
  ((30 # 100 <= py_max (hi_Latn scores) (bn_Latn scores))%Q ->
   exists l, decide scores = (Some l, score_of scores l)
     /\ (l = "hi_Latn"%string \/ l = "bn_Latn"%string)
     /\ (score_of scores l == py_max (hi_Latn scores) (bn_Latn scores))%Q)
  /\ ((py_max (hi_Latn scores) (bn_Latn scores) < 30 # 100)%Q ->
      decide scores = (None, 0)).
Proof.
  intros Hpos Hclose.
  destruct (select_language_close scores Hpos Hclose) as [l [Hsel [Hl Hscore]]].
  unfold decide. rewrite Hsel. split.
  - intros Hge. exists l.
    assert (Hc : Qge_bool (score_of scores l) (30 # 100) = true)
      by (apply Qge_bool_iff; rewrite Hscore; exact Hge).
    rewrite Hc. destruct Hl as [-> | ->]; (split; [reflexivity |]); auto.
  - intros Hlt.
    assert (Hc : Qge_bool (score_of scores l) (30 # 100) = false).
    { destruct (Qge_bool (score_of scores l) (30 # 100)) eqn:E; [| reflexivity].
      apply Qge_bool_iff in E. rewrite Hscore in E. exfalso. lra. }
    rewrite Hc. reflexivity.
Qed.

(** C8.  With the three cosine similarities of the character-frequency
    analysis not negative, [detect_romanized_language] returns either
    [(None, 0.0)] or one of the labels [hi_Latn], [bn_Latn] with a
    confidence between 0.30 and 1.  And for a text that reaches the
    scoring (not blank, not made of numbers and words of at most two
    characters only), whenever the best Indic combined score is positive
    and the English combined score exceeds it by at most 0.15, English is
    not what decides the answer, also when it has the greatest score: the
    detector returns the Indic language with its score, which is the best
    Indic score, when that score reaches 0.30, and [(None, 0.0)] when it
    does not. *)
Theorem smart_detector_decision (isalpha_cp isdigit_cp : N -> bool)
    (cosines : Scores) (text : Py.pystr) :
  nonneg_scores cosines ->
  let r := detect_romanized_language isalpha_cp isdigit_cp cosines text in
  let scores := combined_scores isalpha_cp cosines (Py.lower text) in
  let indic_score := py_max (hi_Latn scores) (bn_Latn scores) in
  (r = (None, 0)
   \/ exists l c, r = (Some l, c)
        /\ (l = "hi_Latn"%string \/ l = "bn_Latn"%string)
        /\ (30 # 100 <= c)%Q /\ (c <= 1)%Q)
  /\ (Py.strip text <> [] ->
      forallb (fun word => isdigit isdigit_cp word || (List.length word <=? 2)%nat)
              (Py.split (Py.lower text)) = false ->
      (0 < indic_score)%Q ->
      (en scores - indic_score <= 15 # 100)%Q ->
      ((30 # 100 <= indic_score)%Q ->
       exists l, r = (Some l, score_of scores l)
         /\ (l = "hi_Latn"%string \/ l = "bn_Latn"%string)
         /\ (score_of scores l == indic_score)%Q)
      /\ ((indic_score < 30 # 100)%Q -> r = (None, 0))).
Proof.
  intros Hcos. cbv zeta. split.
  - unfold detect_romanized_language.
    destruct (Py.strip text); [left; reflexivity |].
    destruct (forallb _ _); [left; reflexivity |].
    apply decide_result. apply combined_unit. exact Hcos.
  - intros Hstrip Hwords Hpos Hclose.
    unfold detect_romanized_language.
    destruct (Py.strip text); [congruence |].
    rewrite Hwords. apply decide_close; assumption.
Qed.

Lemma smart_detector_decision_witness :
  nonneg_scores best_se_cosines
  /\ best_lang_of (combined_scores Py.isalpha_cp best_se_cosines (Py.lower best_se)) = "en"%string
  /\ fst (detect_romanized_language Py.isalpha_cp Py.isdigit_cp best_se_cosines best_se)
     = Some "hi_Latn"%string
  /\ fst (detect_romanized_language Py.isalpha_cp Py.isdigit_cp sample_cosines
             (Py.str "amake earphone dekhao")) = Some "bn_Latn"%string.
Proof.
  assert (Hu : nonneg_scores best_se_cosines).
  { unfold nonneg_scores, best_se_cosines. simpl. repeat split; lra. }
  assert (Hs : nonneg_scores sample_cosines).
  { unfold nonneg_scores, sample_cosines. simpl. repeat split; lra. }
  split; [exact Hu |]. split; [vm_compute; reflexivity |].
  split.
  - destruct (smart_detector_decision Py.isalpha_cp Py.isdigit_cp best_se_cosines
                best_se Hu) as [_ Hclose].
    destruct Hclose as [Hreturned _].
    + vm_compute. discriminate.
    + vm_compute. reflexivity.
    + vm_compute. reflexivity.
    + vm_compute. discriminate.
    + destruct Hreturned as [l [Hr [[-> | ->] Hscore]]].
      * vm_compute. discriminate.
      * rewrite Hr. reflexivity.
      * vm_compute in Hscore. discriminate Hscore.
  - destruct (smart_detector_decision Py.isalpha_cp Py.isdigit_cp sample_cosines
                (Py.str "amake earphone dekhao") Hs) as [Hrange _].
    destruct Hrange as [Hr | [l [c [Hr _]]]].
    + vm_compute in Hr. discriminate Hr.
    + vm_compute. reflexivity.
Defined.

End SmartDetectorFacts.

(** ** Step 3: the English fast path *)

Module TokenizerFacts.

Import CodeMixDetector Tokenizer.
Import Examples.

Lemma lstrip_In (c : N) (s : Py.pystr) : In c (Py.lstrip s) -> In c s.
Proof.
  induction s as [| x s IH]; simpl; [tauto |].
  destruct (Py.isspace_cp x); simpl; auto.
Qed.

Lemma lstrip_head (s : Py.pystr) (c : N) (r : Py.pystr) :
  Py.lstrip s = c :: r -> Py.isspace_cp c = false.
Proof.
  induction s as [| x s IH]; simpl; [discriminate |].
  destruct (Py.isspace_cp x) eqn:Hx; [exact IH |].
  intros H. injection H as -> _. exact Hx.
Qed.

Lemma lstrip_app_nonspace (s : Py.pystr) (c : N) :
  Py.isspace_cp c = false -> Py.lstrip (s ++ [c]) = Py.lstrip s ++ [c].
Proof.
  intros Hc. induction s as [| x s IH]; simpl.
  - rewrite Hc. reflexivity.
  - destruct (Py.isspace_cp x); [exact IH | reflexivity].
Qed.

(** A stripped string starts with a code point of the original that is
    not white space. *)
Lemma strip_head (t : Py.pystr) (c : N) (r : Py.pystr) :
  Py.strip t = c :: r -> Py.isspace_cp c = false /\ In c t.
Proof.
  unfold Py.strip.
  destruct (Py.lstrip t) as [| c0 u] eqn:Hu; [simpl; discriminate |].
  pose proof (lstrip_head _ _ _ Hu) as Hc0.
  simpl rev at 2. rewrite (lstrip_app_nonspace _ _ Hc0).
  rewrite rev_app_distr. simpl.
  intros H. injection H as <- _.
  split; [exact Hc0 |].
  apply lstrip_In. rewrite Hu. left. reflexivity.
Qed.

Lemma has_only_ascii_In (text : Py.pystr) (c : N) :
  has_only_ascii text = true -> In c text -> Py.isspace_cp c = false ->
  (c <? 128)%N = true.
Proof.
  unfold has_only_ascii. intros H Hin Hc.
  rewrite forallb_forall in H. apply H.
  apply filter_In. split; [exact Hin |]. rewrite Hc. reflexivity.
Qed.

Lemma tokenize_icu_style_In (pre_tokenize_str : Py.pystr -> list Py.pystr)
    (text t : Py.pystr) :
  In t (tokenize_icu_style pre_tokenize_str text) ->
  exists t0, In t0 (pre_tokenize_str text) /\ Py.strip t0 = t /\ t <> [].
Proof.
  unfold tokenize_icu_style. destruct text as [| c0 text0]; [simpl; tauto |].
  intros Hin. apply in_map_iff in Hin. destruct Hin as [t0 [Ht Hin]].
  apply filter_In in Hin. destruct Hin as [Hin Hne].
  exists t0. split; [exact Hin |]. split; [exact Ht |].
  subst t. destruct (Py.strip t0); [discriminate Hne | discriminate].
Qed.

Lemma step3_tagged_tokens
    (fasttext_predict : Py.pystr -> Prediction)
    (smart_detector : option (Py.pystr -> option string * Q))
    (fallback : Py.pystr -> string * Q)
    (pre_tokenize_str : Py.pystr -> list Py.pystr) (text : Py.pystr) :
  text <> [] ->
  map script (tagged_tokens
     (tokenize_step3_strict fasttext_predict smart_detector fallback
                            pre_tokenize_str text))
  = map tag_token (tokenize_icu_style pre_tokenize_str text).
Proof.
  intros Hne. unfold tokenize_step3_strict.
  destruct text as [| c0 text0]; [exfalso; apply Hne; reflexivity |].
  destruct (_detect_script_uncached _ _ _ _) as [l q]. simpl.
  rewrite map_map. reflexivity.
Qed.

(** When the text is ASCII apart from white space and the pre-tokenizer
    cuts the text (a token holds code points of the text only), a token is
    tagged [Number] or [Latin]. *)
Lemma ascii_token_tag (pre_tokenize_str : Py.pystr -> list Py.pystr)
    (text t : Py.pystr) :
  has_only_ascii text = true ->
  (forall t c, In t (pre_tokenize_str text) -> In c t -> In c text) ->
  In t (tokenize_icu_style pre_tokenize_str text) ->
  tag_token t = (if Py.isdigit t then "Number" else "Latin")%string.
Proof.
  intros only_ascii tokens_of_text Hin.
  apply tokenize_icu_style_In in Hin. destruct Hin as [t0 [Hin [Hs Hne]]].
  destruct t as [| c r]; [congruence |].
  destruct (strip_head _ _ _ Hs) as [Hc Hct].
  assert (Hascii : (c <? 128)%N = true).
  { apply (has_only_ascii_In text); [exact only_ascii | | exact Hc].
    eapply tokens_of_text; eassumption. }
  unfold tag_token. rewrite Hascii. reflexivity.
Qed.

Lemma ascii_word_scripts_latin
    (fasttext_predict : Py.pystr -> Prediction)
    (smart_detector : option (Py.pystr -> option string * Q))
    (fallback : Py.pystr -> string * Q)
    (pre_tokenize_str : Py.pystr -> list Py.pystr) (text : Py.pystr) :
  text <> [] ->
  has_only_ascii text = true ->
  (forall t c, In t (pre_tokenize_str text) -> In c t -> In c text) ->
  forallb (fun s => String.eqb s "Latin")
          (word_scripts (tagged_tokens
             (tokenize_step3_strict fasttext_predict smart_detector fallback
                                    pre_tokenize_str text))) = true.
Proof.
  intros Hne only_ascii tokens_of_text.
  unfold word_scripts. rewrite step3_tagged_tokens by exact Hne.
  apply forallb_forall. intros s Hs.
  apply filter_In in Hs. destruct Hs as [Hs Hword].
  apply in_map_iff in Hs. destruct Hs as [t [<- Hin]].
  rewrite (ascii_token_tag pre_tokenize_str text t only_ascii tokens_of_text Hin) in *.
  destruct (Py.isdigit t); [discriminate Hword | reflexivity].
Qed.

Lemma ascii_word_scripts_nonempty
    (fasttext_predict : Py.pystr -> Prediction)
    (smart_detector : option (Py.pystr -> option string * Q))
    (fallback : Py.pystr -> string * Q)
    (pre_tokenize_str : Py.pystr -> list Py.pystr) (text : Py.pystr) :
  text <> [] ->
  has_only_ascii text = true ->
  (forall t c, In t (pre_tokenize_str text) -> In c t -> In c text) ->
  (exists t, In t (tokenize_icu_style pre_tokenize_str text) /\ Py.isdigit t = false) ->
  word_scripts (tagged_tokens
     (tokenize_step3_strict fasttext_predict smart_detector fallback
                            pre_tokenize_str text)) <> [].
Proof.
  intros Hne only_ascii tokens_of_text [t [Hin Hnd]].
  unfold word_scripts. rewrite step3_tagged_tokens by exact Hne.
  intros Hnil.
  assert (Hmem : In (tag_token t)
                   (filter (fun s => negb (in_strings s non_word_scripts))
                           (map tag_token (tokenize_icu_style pre_tokenize_str text)))).
  { apply filter_In. split.
    - apply in_map. exact Hin.
    - rewrite (ascii_token_tag pre_tokenize_str text t only_ascii tokens_of_text Hin), Hnd.
      reflexivity. }
  rewrite Hnil in Hmem. destruct Hmem.
Qed.

(** C3, as stated, fails: the query has no Indic character and at least two
    English product markers (three of the tokenizer's indicator words occur
    in it, two of the detector's marker patterns match), yet the romanized-marker rule, which
    runs first, identifies it as [hi] at 0.65, and the classifier labels it
    [romanized_indic]. *)
Lemma romanized_markers_win :
  existsb is_native_indic_cp mujhe_query = false
  /\ english_indicator_hits mujhe_query = 3%nat
  /\ count_english_markers (Py.lower mujhe_query) = 2%nat
  /\ language mujhe_step3 = "hi"%string
  /\ language mujhe_step3 <> "en"%string
  /\ Qeq_bool (language_confidence mujhe_step3) (65 # 100) = true
  /\ label (cls (detect None mujhe_query (tagged_tokens mujhe_step3)
                        (language mujhe_step3) (language_confidence mujhe_step3) true))
     = "romanized_indic"%string.
Proof.
  vm_compute. repeat split; try reflexivity. discriminate.
Qed.

(** C3, amended.  For a non-empty text whose characters other than white
    space are all ASCII, that contains one of the English indicator words
    (so also when it contains two) and none of whose words is a romanized
    Hindi or Bengali marker, language identification returns [en] at 0.95;
    and when the tokens are cut from the text and one of them is not a
    number, the code-mix classifier labels it [pure_english] (at 0.95, by
    the Fast Lane) and sets the skip flag. *)
Theorem english_fast_path
    (fasttext_predict : Py.pystr -> Prediction)
    (smart_detector : option (Py.pystr -> option string * Q))
    (fallback : Py.pystr -> string * Q)
    (pre_tokenize_str : Py.pystr -> list Py.pystr)
    (text : Py.pystr) :
  text <> [] ->
  has_only_ascii text = true ->
  has_english_word text = true ->
  hindi_matches text = 0%nat ->
  bengali_matches text = 0%nat ->
  _detect_script_uncached fasttext_predict smart_detector fallback text
  = ("en"%string, 95 # 100)
  /\ ((forall t c, In t (pre_tokenize_str text) -> In c t -> In c text) ->
      (exists t, In t (tokenize_icu_style pre_tokenize_str text) /\ Py.isdigit t = false) ->
      let r := tokenize_step3_strict fasttext_predict smart_detector fallback
                                     pre_tokenize_str text in
      detect None text (tagged_tokens r) (language r) (language_confidence r) true
      = mkDetection (mkClass "pure_english" (95 # 100) "fast_lane" None) true).
Proof.
  intros Hne Hascii Heng Hh Hb.
  assert (Hlid : _detect_script_uncached fasttext_predict smart_detector fallback text
                 = ("en"%string, 95 # 100)).
  { unfold _detect_script_uncached.
    destruct text as [| c0 text0] eqn:Htext; [exfalso; apply Hne; reflexivity |].
    rewrite <- Htext in *.
    rewrite Hh, Hb, Heng, Hascii. reflexivity. }
  split; [exact Hlid |].
  intros Hcut Hword r.
  pose proof (ascii_word_scripts_latin fasttext_predict smart_detector fallback
                pre_tokenize_str text Hne Hascii Hcut) as Hlatin.
  pose proof (ascii_word_scripts_nonempty fasttext_predict smart_detector fallback
                pre_tokenize_str text Hne Hascii Hcut Hword) as Hnonempty.
  assert (Hr : language r = "en"%string /\ language_confidence r = 95 # 100).
  { subst r. unfold tokenize_step3_strict.
    destruct text as [| c0 text0] eqn:Htext; [exfalso; apply Hne; reflexivity |].
    rewrite <- Htext in *. rewrite Hlid. simpl. split; reflexivity. }
  destruct Hr as [Hl Hc]. rewrite Hl, Hc.
  fold r in Hlatin, Hnonempty.
  unfold detect.
  rewrite (CodeMixFacts.detect_heuristic_rules text (tagged_tokens r) "en" (95 # 100)
             Hne Hnonempty).
  replace (in_strings "en" native_langs) with false by reflexivity.
  rewrite andb_false_r, Hlatin. reflexivity.
Qed.

Lemma english_fast_path_witness :
  _detect_script_uncached no_model None no_fallback headphones_query
  = ("en"%string, 95 # 100)
  /\ (let r := tokenize_step3_strict no_model None no_fallback Py.split headphones_query in
      detect None headphones_query (tagged_tokens r) (language r)
             (language_confidence r) true
      = mkDetection (mkClass "pure_english" (95 # 100) "fast_lane" None) true).
Proof.
  assert (H1 : headphones_query <> []) by discriminate.
  assert (H2 : has_only_ascii headphones_query = true) by (vm_compute; reflexivity).
  assert (H3 : has_english_word headphones_query = true) by (vm_compute; reflexivity).
  assert (H4 : hindi_matches headphones_query = 0%nat) by (vm_compute; reflexivity).
  assert (H5 : bengali_matches headphones_query = 0%nat) by (vm_compute; reflexivity).
  destruct (english_fast_path no_model None no_fallback Py.split headphones_query
              H1 H2 H3 H4 H5) as [Hlid Hlabel].
  split; [exact Hlid |].
  apply Hlabel.
  - intros t c Ht Hc. vm_compute in Ht.
    repeat (destruct Ht as [<- | Ht]; [vm_compute in Hc |- *; tauto |]).
    destruct Ht.
  - exists (Py.str "wireless"). split; vm_compute; auto.
Defined.

End TokenizerFacts.

(** ** Python strings: [split], [join] and [lower] *)

Module PyFacts.

Import Py.

Lemma eqb_eq (a b : pystr) : eqb a b = true <-> a = b.
Proof.
  revert b. induction a as [| x a IH]; intros [| y b]; simpl;
    try (split; [discriminate | discriminate]); [tauto |].
  rewrite andb_true_iff, N.eqb_eq, IH.
  split; [intros [-> ->]; reflexivity | intros H; injection H; auto].
Qed.

Lemma is_token_spec (t : pystr) :
  is_token t = true <-> t <> [] /\ forallb nonspace t = true.
Proof.
  destruct t as [| c t]; simpl.
  - split; [discriminate | intros [H _]; congruence].
  - split; [intros H; split; [discriminate | exact H] | intros [_ H]; exact H].
Qed.

(** *** The tables *)

Lemma in_ranges_true (table : list (N * N)) (lo hi c : N) :
  In (lo, hi) table -> (lo <= c <= hi)%N -> in_ranges table c = true.
Proof.
  intros Hin Hc. unfold in_ranges. apply existsb_exists.
  exists (lo, hi). split; [exact Hin |].
  unfold in_range. simpl. apply andb_true_iff. split; apply N.leb_le; lia.
Qed.

Lemma whitespace_spec (c : N) : isspace_cp c = true <-> In c whitespace.
Proof.
  split.
  - unfold isspace_cp. rewrite !orb_true_iff, !andb_true_iff, !N.leb_le, !N.eqb_eq.
    intros H. simpl. lia.
  - intros H. simpl in H.
    repeat (destruct H as [<- | H]; [reflexivity |]). contradiction.
Qed.

Lemma whitespace_forall (p : N -> bool) :
  forallb p whitespace = true -> forall c, isspace_cp c = true -> p c = true.
Proof.
  intros H c Hc. rewrite forallb_forall in H. apply H, whitespace_spec, Hc.
Qed.

Lemma ascii_spec (c : N) : (c < 128)%N -> In c ascii.
Proof.
  intros Hc. unfold ascii. apply in_map_iff. exists (N.to_nat c).
  split; [apply N2Nat.id | apply in_seq; lia].
Qed.

Lemma ascii_forall (p : N -> bool) :
  forallb p ascii = true -> forall c, (c < 128)%N -> p c = true.
Proof.
  intros H c Hc. rewrite forallb_forall in H. apply H, ascii_spec, Hc.
Qed.

Lemma letter_not_space (c : N) : (48 <= c <= 122)%N -> isspace_cp c = false.
Proof.
  intros Hc. destruct (isspace_cp c) eqn:E; [| reflexivity].
  apply whitespace_spec in E. simpl in E. lia.
Qed.


(** *** [lower], one code point at a time *)

Lemma find_lower_pairs (c first last step image : N) :
  find (fun r => in_run r c) UnicodeData.lower_runs = Some (first, last, step, image) ->
  In (c, (image + (c - first))%N) lower_pairs.
Proof.
  intros H. apply find_some in H as [Hin Hrun].
  unfold lower_pairs. apply in_flat_map. exists (first, last, step, image).
  split; [exact Hin |].
  unfold in_run in Hrun. apply andb_prop in Hrun as [Hrun Hmod].
  apply andb_prop in Hrun as [Hlo Hhi].
  apply N.leb_le in Hlo. apply N.leb_le in Hhi. apply N.eqb_eq in Hmod.
  assert (Hq : (c - first = step * ((c - first) / step))%N).
  { rewrite (N.Div0.div_mod (c - first) step) at 1. rewrite Hmod. lia. }
  unfold run_pairs. apply in_map_iff. exists (N.to_nat ((c - first) / step)). split.
  - rewrite N2Nat.id, <- Hq. f_equal. lia.
  - apply in_seq. split; [apply Nat.le_0_l |].
    assert (Hle : ((c - first) / step <= (last - first) / step)%N)
      by (apply N.Div0.div_le_mono; lia).
    revert Hle. generalize ((c - first) / step)%N, ((last - first) / step)%N.
    intros a b Hle. lia.
Qed.

(** A property of a code point and a code point of its lower-case form
    that holds of the unchanged code points, of U+0130 and of the table
    holds of all. *)
Lemma lower_cp_forall (q : N -> N -> Prop) :
  (forall c, lower_cp c = [c] -> q c c) ->
  q 0x0130%N 0x0069%N -> q 0x0130%N 0x0307%N ->
  (forall c d, In (c, d) lower_pairs -> q c d) ->
  forall c d, In d (lower_cp c) -> q c d.
Proof.
  intros Hfix Hi Hj Hpairs c d Hd.
  pose proof (Hfix c) as Hc. unfold lower_cp in Hd, Hc.
  destruct (N.eqb_spec c 0x0130) as [-> | Hne].
  - destruct Hd as [<- | [<- | []]]; assumption.
  - destruct (find (fun r => in_run r c) UnicodeData.lower_runs)
      as [[[[first last] step] image] |] eqn:Hfind.
    + destruct Hd as [<- | []]. apply Hpairs. apply (find_lower_pairs _ _ _ _ _ Hfind).
    + destruct Hd as [<- | []]. apply Hc. reflexivity.
Qed.

Lemma lower_at_forall (q : N -> N -> Prop) :
  (forall c, lower_cp c = [c] -> q c c) ->
  q 0x0130%N 0x0069%N -> q 0x0130%N 0x0307%N ->
  (forall c d, In (c, d) lower_pairs -> q c d) ->
  q 0x03A3%N 0x03C2%N ->
  forall before c after d, In d (lower_at before c after) -> q c d.
Proof.
  intros Hfix Hi Hj Hpairs Hsigma before c after d Hd.
  unfold lower_at in Hd. destruct (N.eqb_spec c 0x03A3) as [-> | Hne].
  - destruct (final_sigma before after); destruct Hd as [<- | []].
    + exact Hsigma.
    + apply Hpairs.
      change (In (0x03A3, 0x03C3 + (0x03A3 - 0x03A3))%N lower_pairs).
      apply (find_lower_pairs _ _ 0x03AB%N 1%N). vm_compute. reflexivity.
  - exact (lower_cp_forall q Hfix Hi Hj Hpairs c d Hd).
Qed.

Lemma lower_pairs_forall (p : N -> N -> bool) :
  forallb (fun cd => p (fst cd) (snd cd)) lower_pairs = true ->
  forall c d, In (c, d) lower_pairs -> p c d = true.
Proof.
  intros H c d Hin. rewrite forallb_forall in H. exact (H (c, d) Hin).
Qed.

Lemma lower_at_nonempty (before : pystr) (c : N) (after : pystr) :
  lower_at before c after <> [].
Proof.
  unfold lower_at, lower_cp.
  destruct (c =? 0x03A3)%N; [discriminate |].
  destruct (c =? 0x0130)%N; [discriminate |].
  destruct (find _ _) as [[[[first last] step] image] |]; discriminate.
Qed.

Lemma lower_fixed_cp_spec (c : N) : lower_fixed_cp c = true <-> lower_cp c = [c].
Proof. unfold lower_fixed_cp. apply eqb_eq. Qed.

(** A code point [lower] puts out is one it leaves as it is. *)
Lemma lower_at_fixed (before : pystr) (c : N) (after : pystr) :
  forallb lower_fixed_cp (lower_at before c after) = true.
Proof.
  apply forallb_forall. intros d Hd.
  apply (lower_at_forall (fun _ d => lower_fixed_cp d = true)) in Hd; [exact Hd | | | | |].
  - intros c0 H. apply lower_fixed_cp_spec. exact H.
  - vm_compute. reflexivity.
  - vm_compute. reflexivity.
  - apply (lower_pairs_forall (fun _ d => lower_fixed_cp d)). vm_compute. reflexivity.
  - vm_compute. reflexivity.
Qed.

Lemma lower_from_fixed (before s : pystr) :
  forallb lower_fixed_cp (lower_from before s) = true.
Proof.
  revert before. induction s as [| c s IH]; intros before; [reflexivity |].
  cbn [lower_from]. rewrite forallb_app, lower_at_fixed, IH. reflexivity.
Qed.

Lemma lower_fixed_not_sigma (c : N) : lower_fixed_cp c = true -> (c =? 0x03A3)%N = false.
Proof.
  intros H. destruct (N.eqb_spec c 0x03A3) as [-> | Hne]; [| reflexivity].
  vm_compute in H. discriminate H.
Qed.

Lemma lower_from_id (before s : pystr) :
  forallb lower_fixed_cp s = true -> lower_from before s = s.
Proof.
  revert before. induction s as [| c s IH]; intros before H; [reflexivity |].
  cbn [forallb] in H. apply andb_prop in H as [Hc Hs].
  cbn [lower_from]. unfold lower_at. rewrite (lower_fixed_not_sigma c Hc).
  apply lower_fixed_cp_spec in Hc. rewrite Hc, (IH _ Hs). reflexivity.
Qed.

Lemma lower_idem (s : pystr) : lower (lower s) = lower s.
Proof. apply lower_from_id. apply lower_from_fixed. Qed.



(** *** White space is left alone and puts an end to the context of the
    final sigma *)

Lemma isspace_lower_at (before : pystr) (c : N) (after : pystr) (d : N) :
  In d (lower_at before c after) -> isspace_cp d = isspace_cp c.
Proof.
  apply (lower_at_forall (fun c d => isspace_cp d = isspace_cp c)).
  - reflexivity.
  - reflexivity.
  - reflexivity.
  - intros c0 d0 H.
    apply (lower_pairs_forall
             (fun c d => negb (isspace_cp c) && negb (isspace_cp d))) in H;
      [| vm_compute; reflexivity].
    apply andb_prop in H as [H1 H2].
    apply negb_true_iff in H1. apply negb_true_iff in H2. congruence.
  - reflexivity.
Qed.

Lemma forallb_nonspace_lower_at (before : pystr) (c : N) (after : pystr) :
  forallb nonspace (lower_at before c after) = nonspace c.
Proof.
  pose proof (isspace_lower_at before c after) as H.
  pose proof (lower_at_nonempty before c after) as Hne.
  destruct (lower_at before c after) as [| d l]; [congruence |].
  assert (Hall : forall x, In x (d :: l) -> nonspace x = nonspace c)
    by (intros x Hx; unfold nonspace; rewrite (H x Hx); reflexivity).
  clear H Hne. revert d Hall. induction l as [| e l IH]; intros d Hall.
  - simpl. rewrite (Hall d) by (left; reflexivity). apply andb_true_r.
  - cbn [forallb] in *. rewrite (Hall d) by (left; reflexivity).
    rewrite (IH e) by (intros x Hx; apply Hall; right; exact Hx).
    apply andb_diag.
Qed.

Lemma forallb_nonspace_lower_from (before t : pystr) :
  forallb nonspace (lower_from before t) = forallb nonspace t.
Proof.
  revert before. induction t as [| c t IH]; intros before; [reflexivity |].
  cbn [lower_from forallb]. rewrite forallb_app, forallb_nonspace_lower_at, IH.
  reflexivity.
Qed.

Lemma forallb_nonspace_lower (t : pystr) :
  forallb nonspace (lower t) = forallb nonspace t.
Proof. apply forallb_nonspace_lower_from. Qed.

Lemma lower_nonempty (t : pystr) : t <> [] -> lower t <> [].
Proof.
  intros Ht H. destruct t as [| c t]; [congruence |].
  unfold lower in H. cbn [lower_from] in H. apply app_eq_nil in H as [H _].
  exact (lower_at_nonempty _ _ _ H).
Qed.

Lemma is_token_lower (t : pystr) : is_token (lower t) = is_token t.
Proof.
  destruct t as [| c t]; [reflexivity |].
  assert (Hne : lower (c :: t) <> []) by (apply lower_nonempty; discriminate).
  change (is_token (c :: t)) with (forallb nonspace (c :: t)).
  rewrite <- forallb_nonspace_lower.
  destruct (lower (c :: t)); [congruence | reflexivity].
Qed.

Lemma space_lower_at (before : pystr) (w : N) (after : pystr) :
  isspace_cp w = true -> lower_at before w after = [w].
Proof.
  intros Hw.
  assert (H : (negb (w =? 0x03A3)%N && lower_fixed_cp w) = true)
    by (apply (whitespace_forall (fun w => negb (w =? 0x03A3)%N && lower_fixed_cp w));
        [vm_compute; reflexivity | exact Hw]).
  apply andb_prop in H as [H1 H2]. apply negb_true_iff in H1.
  unfold lower_at. rewrite H1. apply lower_fixed_cp_spec. exact H2.
Qed.

Lemma space_not_cased (w : N) :
  isspace_cp w = true -> case_ignorable_cp w = false /\ cased_cp w = false.
Proof.
  intros Hw.
  assert (H : (negb (case_ignorable_cp w) && negb (cased_cp w)) = true)
    by (apply (whitespace_forall (fun w => negb (case_ignorable_cp w) && negb (cased_cp w)));
        [vm_compute; reflexivity | exact Hw]).
  apply andb_prop in H as [H1 H2].
  apply negb_true_iff in H1. apply negb_true_iff in H2. split; assumption.
Qed.

Lemma final_sigma_after (before a : pystr) (w : N) (s : pystr) :
  isspace_cp w = true ->
  final_sigma before (a ++ w :: s) = final_sigma before a.
Proof.
  intros Hw. destruct (space_not_cased w Hw) as [Hi Hc].
  unfold final_sigma. destruct (skip_case_ignorable before) as [| x l]; [reflexivity |].
  f_equal. induction a as [| c a IH]; cbn [app skip_case_ignorable].
  - rewrite Hi, Hc. reflexivity.
  - destruct (case_ignorable_cp c); [exact IH | reflexivity].
Qed.

Lemma final_sigma_before (b : pystr) (w : N) (q after : pystr) :
  isspace_cp w = true ->
  final_sigma (b ++ w :: q) after = final_sigma b after.
Proof.
  intros Hw. destruct (space_not_cased w Hw) as [Hi Hc].
  unfold final_sigma. induction b as [| c b IH]; cbn [app skip_case_ignorable].
  - rewrite Hi, Hc. reflexivity.
  - destruct (case_ignorable_cp c); [exact IH | reflexivity].
Qed.

Lemma lower_from_before (s b : pystr) (w : N) (q : pystr) :
  isspace_cp w = true -> lower_from (b ++ w :: q) s = lower_from b s.
Proof.
  intros Hw. revert b. induction s as [| c s IH]; intros b; [reflexivity |].
  cbn [lower_from]. unfold lower_at. rewrite (final_sigma_before b w q _ Hw).
  f_equal. apply (IH (c :: b)).
Qed.

Lemma lower_from_space (s1 : pystr) (w : N) (s2 b : pystr) :
  isspace_cp w = true ->
  lower_from b (s1 ++ w :: s2) = lower_from b s1 ++ w :: lower s2.
Proof.
  intros Hw. revert b. induction s1 as [| c s1 IH]; intros b.
  - cbn [app lower_from]. rewrite (space_lower_at _ _ _ Hw).
    cbn [app]. f_equal. apply (lower_from_before s2 [] w b Hw).
  - cbn [app lower_from]. rewrite IH, <- app_assoc. f_equal.
    unfold lower_at. rewrite (final_sigma_after b s1 w s2 Hw). reflexivity.
Qed.

Lemma lower_space (s1 : pystr) (w : N) (s2 : pystr) :
  isspace_cp w = true -> lower (s1 ++ w :: s2) = lower s1 ++ w :: lower s2.
Proof. apply lower_from_space. Qed.

Lemma lower_join_space (ts : list pystr) :
  lower (join space ts) = join space (map lower ts).
Proof.
  induction ts as [| t ts IH]; [reflexivity |].
  destruct ts as [| t' ts]; [reflexivity |].
  change (join space (t :: t' :: ts)) with (t ++ 32%N :: join space (t' :: ts)).
  change (join space (map lower (t :: t' :: ts)))
    with (lower t ++ 32%N :: join space (map lower (t' :: ts))).
  rewrite lower_space by reflexivity. rewrite IH. reflexivity.
Qed.

(** *** [split] *)

Lemma split_aux_run (t cur s : pystr) :
  forallb nonspace t = true ->
  split_aux cur (t ++ s) = split_aux (rev t ++ cur) s.
Proof.
  revert cur. induction t as [| c t IH]; intros cur Ht; simpl; [reflexivity |].
  simpl in Ht. apply andb_true_iff in Ht. destruct Ht as [Hc Ht].
  unfold nonspace in Hc. apply negb_true_iff in Hc. rewrite Hc.
  rewrite IH by exact Ht. rewrite <- app_assoc. reflexivity.
Qed.

Lemma split_aux_space (cur s : pystr) :
  cur <> [] -> split_aux cur (32%N :: s) = rev cur :: split_aux [] s.
Proof.
  intros Hcur. destruct cur as [| x cur]; [congruence |]. reflexivity.
Qed.

Lemma split_aux_end (cur : pystr) : cur <> [] -> split_aux cur [] = [rev cur].
Proof.
  intros Hcur. destruct cur as [| x cur]; [congruence |]. reflexivity.
Qed.

Lemma rev_nonempty (t : pystr) : t <> [] -> rev t <> [].
Proof.
  intros Ht H. apply (f_equal (@rev N)) in H. rewrite rev_involutive in H.
  simpl in H. congruence.
Qed.

Lemma split_join (ts : list pystr) :
  forallb is_token ts = true -> split (join space ts) = ts.
Proof.
  unfold split.
  induction ts as [| t ts IH]; intros Hts; [reflexivity |].
  simpl in Hts. apply andb_true_iff in Hts. destruct Hts as [Ht Hts].
  apply is_token_spec in Ht. destruct Ht as [Hne Hns].
  destruct ts as [| t' ts].
  - simpl join. rewrite <- (app_nil_r t) at 1.
    rewrite split_aux_run by exact Hns. rewrite app_nil_r.
    rewrite split_aux_end by (apply rev_nonempty; exact Hne).
    rewrite rev_involutive. reflexivity.
  - change (join space (t :: t' :: ts)) with (t ++ 32%N :: join space (t' :: ts)).
    rewrite split_aux_run by exact Hns. rewrite app_nil_r.
    rewrite split_aux_space by (apply rev_nonempty; exact Hne).
    rewrite rev_involutive. rewrite IH by exact Hts. reflexivity.
Qed.

Lemma forallb_rev' (p : N -> bool) (l : pystr) : forallb p (rev l) = forallb p l.
Proof.
  induction l as [| x l IH]; [reflexivity |].
  simpl. rewrite forallb_app, IH. simpl. rewrite andb_true_r. apply andb_comm.
Qed.

Lemma split_aux_tokens (s cur : pystr) :
  forallb nonspace cur = true -> forallb is_token (split_aux cur s) = true.
Proof.
  assert (Htok : forall u, u <> [] -> forallb nonspace u = true ->
                           is_token (rev u) = true).
  { intros u Hne Hns. apply is_token_spec. split.
    - apply rev_nonempty. exact Hne.
    - rewrite forallb_rev'. exact Hns. }
  revert cur. induction s as [| c s IH]; intros cur Hcur.
  - destruct cur as [| x cur]; [reflexivity |].
    rewrite split_aux_end by discriminate.
    cbn [forallb]. rewrite Htok by (try discriminate; exact Hcur). reflexivity.
  - cbn [split_aux]. destruct (isspace_cp c) eqn:Hc.
    + destruct cur as [| x cur]; [apply IH; reflexivity |].
      cbn [forallb]. rewrite IH by reflexivity.
      rewrite Htok by (try discriminate; exact Hcur). reflexivity.
    + apply IH. cbn [forallb]. unfold nonspace at 1. rewrite Hc. exact Hcur.
Qed.

Lemma split_tokens (s : pystr) : forallb is_token (split s) = true.
Proof. apply split_aux_tokens. reflexivity. Qed.

(** A string is a run of code points that are not white space, followed
    by nothing or by white space and the rest. *)
Lemma first_run (s : pystr) :
  exists t rest, s = t ++ rest /\ forallb nonspace t = true
    /\ (rest = [] \/ exists w s2, rest = w :: s2 /\ isspace_cp w = true).
Proof.
  induction s as [| c s [t [rest [Hs [Ht Hrest]]]]].
  - exists [], []. repeat split. left. reflexivity.
  - destruct (isspace_cp c) eqn:Hc.
    + exists [], (c :: s). repeat split. right. exists c, s. split; [reflexivity | exact Hc].
    + exists (c :: t), rest. split; [rewrite Hs; reflexivity |].
      split; [| exact Hrest].
      cbn [forallb]. unfold nonspace at 1. rewrite Hc. exact Ht.
Qed.

Lemma split_run (t : pystr) :
  forallb nonspace t = true -> split t = match t with [] => [] | _ => [t] end.
Proof.
  intros Ht. unfold split. rewrite <- (app_nil_r t) at 1.
  rewrite split_aux_run by exact Ht. rewrite app_nil_r.
  destruct t as [| c t]; [reflexivity |].
  rewrite split_aux_end by (apply rev_nonempty; discriminate).
  rewrite rev_involutive. reflexivity.
Qed.

Lemma split_run_space (t : pystr) (w : N) (s : pystr) :
  forallb nonspace t = true -> isspace_cp w = true ->
  split (t ++ w :: s) = match t with [] => split s | _ => t :: split s end.
Proof.
  intros Ht Hw. unfold split.
  rewrite split_aux_run by exact Ht. rewrite app_nil_r.
  cbn [split_aux]. rewrite Hw.
  destruct t as [| c t]; [reflexivity |].
  pose proof (rev_nonempty (c :: t)) as Hne.
  destruct (rev (c :: t)) as [| x l] eqn:Hr; [exfalso; apply Hne; [discriminate | reflexivity] |].
  rewrite <- Hr, rev_involutive. reflexivity.
Qed.

Lemma match_nonempty {A : Type} (l : pystr) (a b : A) :
  l <> [] -> match l with [] => a | _ :: _ => b end = b.
Proof. destruct l; [congruence | reflexivity]. Qed.

Lemma split_lower_bounded (n : nat) (s : pystr) :
  (List.length s <= n)%nat -> split (lower s) = map lower (split s).
Proof.
  revert s. induction n as [| n IH]; intros s Hlen.
  - destruct s; [reflexivity | simpl in Hlen; lia].
  - destruct (first_run s) as [t [rest [-> [Ht [-> | [w [s2 [-> Hw]]]]]]]].
    + rewrite app_nil_r.
      rewrite (split_run t Ht).
      rewrite split_run by (rewrite forallb_nonspace_lower; exact Ht).
      destruct t as [| c t]; [reflexivity |].
      cbn [map]. apply match_nonempty. apply lower_nonempty. discriminate.
    + rewrite (lower_space t w s2 Hw).
      rewrite (split_run_space t w s2 Ht Hw).
      rewrite split_run_space by (try rewrite forallb_nonspace_lower; assumption).
      rewrite IH by (rewrite length_app in Hlen; simpl in Hlen; lia).
      destruct t as [| c t]; [reflexivity |].
      cbn [map]. apply match_nonempty. apply lower_nonempty. discriminate.
Qed.

Lemma split_lower (s : pystr) : split (lower s) = map lower (split s).
Proof. apply (split_lower_bounded (List.length s)). apply Nat.le_refl. Qed.

Lemma join_nonempty (t : pystr) (ts : list pystr) :
  t <> [] -> join space (t :: ts) <> [].
Proof.
  intros Ht H. destruct ts; simpl in H.
  - congruence.
  - apply app_eq_nil in H. destruct H. congruence.
Qed.

End PyFacts.

(** ** Step 2: the shape of a corrected string *)

Module SpellCorrectorFacts.

Import Py PyFacts SpellCorrector.
Import Examples.

Lemma good_spec (t : pystr) : good t = true <-> is_token t = true /\ lower t = t.
Proof. unfold good. rewrite andb_true_iff, eqb_eq. tauto. Qed.

Lemma forallb_good_tokens (ts : list pystr) :
  forallb good ts = true -> forallb is_token ts = true.
Proof.
  rewrite !forallb_forall. intros H t Ht. apply H in Ht.
  apply good_spec in Ht. tauto.
Qed.

Lemma forallb_good_lower (ts : list pystr) :
  forallb good ts = true -> map lower ts = ts.
Proof.
  induction ts as [| t ts IH]; simpl; [reflexivity |].
  rewrite andb_true_iff. intros [Ht Hts].
  apply good_spec in Ht. destruct Ht as [_ Ht].
  rewrite Ht, IH by exact Hts. reflexivity.
Qed.

Lemma split_lower_good (text : pystr) : forallb good (split (lower text)) = true.
Proof.
  apply forallb_forall. intros t Ht. apply good_spec. split.
  - pose proof (split_tokens (lower text)) as H.
    rewrite forallb_forall in H. apply H. exact Ht.
  - rewrite split_lower in Ht. apply in_map_iff in Ht.
    destruct Ht as [t0 [<- _]]. apply lower_idem.
Qed.

Lemma table_get_In (d : list (pystr * pystr)) (k v : pystr) :
  table_get d k = Some v -> In v (map snd d).
Proof.
  induction d as [| [k' v'] d IH]; simpl; [discriminate |].
  destruct (eqb k k').
  - intros H. injection H as ->. left. reflexivity.
  - intros H. right. apply IH. exact H.
Qed.

Lemma rewrite_values_good : forallb good (map snd REWRITE_RULES) = true.
Proof. vm_compute. reflexivity. Qed.

Lemma unit_values_good : forallb good (map snd UNIT_PATTERNS) = true.
Proof. vm_compute. reflexivity. Qed.

Lemma ecommerce_terms_good : forallb good (map fst ecommerce_terms) = true.
Proof. vm_compute. reflexivity. Qed.

Lemma rewrite_token_good (t : pystr) : good t = true -> good (rewrite_token t) = true.
Proof.
  intros Ht. unfold rewrite_token.
  destruct (table_get REWRITE_RULES t) as [v |] eqn:Hv; [| exact Ht].
  apply table_get_In in Hv.
  pose proof rewrite_values_good as H. rewrite forallb_forall in H. apply H. exact Hv.
Qed.

Lemma unit_token_good (t : pystr) : good t = true -> good (unit_token t) = true.
Proof.
  intros Ht. unfold unit_token.
  destruct (table_get UNIT_PATTERNS t) as [v |] eqn:Hv; [| exact Ht].
  apply table_get_In in Hv.
  pose proof unit_values_good as H. rewrite forallb_forall in H. apply H. exact Hv.
Qed.

Lemma forallb_map_good (f : pystr -> pystr) (ts : list pystr) :
  (forall t, good t = true -> good (f t) = true) ->
  forallb good ts = true -> forallb good (map f ts) = true.
Proof.
  intros Hf. rewrite !forallb_forall. intros H t Ht.
  apply in_map_iff in Ht. destruct Ht as [t0 [<- Ht0]]. apply Hf, H, Ht0.
Qed.

(** *** SymSpell suggestions come from the dictionary *)

Lemma closest_term_in (m : nat) (token : pystr) (dictionary : list (pystr * N))
    (best : option SuggestItem) (s : SuggestItem) :
  closest m token dictionary best = Some s ->
  best = Some s \/ In (term s) (map fst dictionary).
Proof.
  revert best. induction dictionary as [| [t c] dictionary IH]; intros best; simpl.
  - intros H. left. exact H.
  - intros H. apply IH in H. destruct H as [H | H]; [| right; right; exact H].
    destruct (edit_distance token t <=? m)%nat; [| left; exact H].
    destruct best as [b |].
    + destruct (better _ b); [| left; exact H].
      injection H as <-. right. left. reflexivity.
    + injection H as <-. right. left. reflexivity.
Qed.

Lemma lookup_term_in (dictionary : list (pystr * N)) (m : nat) (token : pystr)
    (s : SuggestItem) :
  lookup dictionary m token = Some s -> In (term s) (map fst dictionary).
Proof.
  unfold lookup. intros H. apply closest_term_in in H.
  destruct H as [H | H]; [discriminate | exact H].
Qed.

(** What [_symspell_correct] returns: the token, or a dictionary term. *)
Lemma symspell_correct_cases (dictionary : list (pystr * N)) (m : nat) (token : pystr) :
  _symspell_correct dictionary m token = token
  \/ In (_symspell_correct dictionary m token) (map fst dictionary).
Proof.
  unfold _symspell_correct.
  destruct (lookup dictionary m token) as [s |] eqn:Hs; [| left; reflexivity].
  destruct (distance s <=? 2)%nat; [| left; reflexivity].
  right. eapply lookup_term_in. exact Hs.
Qed.

Section AnyDictionary.

Variable dictionary : list (pystr * N).
Variable max_edit_distance : nat.
Hypothesis dictionary_good : forallb good (map fst dictionary) = true.

Lemma correct_token_good (t : pystr) :
  good t = true -> good (correct_token dictionary max_edit_distance t) = true.
Proof.
  intros Ht. unfold correct_token.
  destruct (_should_preserve t); [exact Ht |].
  destruct (symspell_correct_cases dictionary max_edit_distance t) as [-> | Hin];
    [exact Ht |].
  pose proof dictionary_good as H. rewrite forallb_forall in H. apply H. exact Hin.
Qed.

Lemma rewritten_good (text : pystr) : forallb good (rewritten text) = true.
Proof.
  apply forallb_map_good; [exact rewrite_token_good | apply split_lower_good].
Qed.

Lemma spell_checked_good (text : pystr) : forallb good (spell_checked dictionary max_edit_distance text) = true.
Proof.
  apply forallb_map_good; [exact correct_token_good | apply rewritten_good].
Qed.

Lemma normalized_good (text : pystr) : forallb good (normalized dictionary max_edit_distance text) = true.
Proof.
  apply forallb_map_good; [exact unit_token_good | apply spell_checked_good].
Qed.

(** [_correct_cached] joins the tokens of its last stage with single
    spaces. *)
Lemma correct_cached_tokens (text : pystr) (flag : bool) :
  _correct_cached dictionary max_edit_distance text flag
  = join space (if flag then normalized dictionary max_edit_distance text else spell_checked dictionary max_edit_distance text).
Proof.
  unfold _correct_cached, _apply_rewrite_rules.
  fold (rewritten text).
  rewrite split_join by (apply forallb_good_tokens, rewritten_good).
  fold (spell_checked dictionary max_edit_distance text).
  destruct flag; [| reflexivity].
  unfold _normalize_units.
  rewrite lower_join_space.
  rewrite forallb_good_lower by apply spell_checked_good.
  rewrite split_join by (apply forallb_good_tokens, spell_checked_good).
  reflexivity.
Qed.



End AnyDictionary.




(** *** Idempotence, token by token *)

Lemma rewrite_values_fixed :
  forallb (fun v => eqb (rewrite_token v) v) (map snd REWRITE_RULES) = true.
Proof. vm_compute. reflexivity. Qed.

Lemma ecommerce_terms_stable :
  forallb (fun d => eqb (rewrite_token d) d
                    && eqb (correct_token ecommerce_terms 2 d) d)
          (map fst ecommerce_terms) = true.
Proof. vm_compute. reflexivity. Qed.

Lemma unit_values_stable :
  forallb (fun v => eqb v gram || eqb (pass v) v) (map snd UNIT_PATTERNS) = true.
Proof. vm_compute. reflexivity. Qed.

Lemma rewrite_token_idem (t : pystr) :
  rewrite_token (rewrite_token t) = rewrite_token t.
Proof.
  destruct (table_get REWRITE_RULES t) as [v |] eqn:Hv.
  - assert (Ht : rewrite_token t = v)
      by (unfold rewrite_token; rewrite Hv; reflexivity).
    rewrite Ht. apply table_get_In in Hv.
    pose proof rewrite_values_fixed as H. rewrite forallb_forall in H.
    apply eqb_eq. apply H. exact Hv.
  - assert (Ht : rewrite_token t = t)
      by (unfold rewrite_token; rewrite Hv; reflexivity).
    rewrite !Ht. reflexivity.
Qed.

(** A token the rewrite table leaves alone comes out of the spell check
    as a token both leave alone. *)
Lemma correct_token_stable (t : pystr) :
  rewrite_token t = t ->
  rewrite_token (correct_token ecommerce_terms 2 t) = correct_token ecommerce_terms 2 t
  /\ correct_token ecommerce_terms 2 (correct_token ecommerce_terms 2 t)
     = correct_token ecommerce_terms 2 t.
Proof.
  intros Hrw.
  destruct (_should_preserve t) eqn:Hp.
  - assert (Ht : correct_token ecommerce_terms 2 t = t)
      by (unfold correct_token; rewrite Hp; reflexivity).
    rewrite !Ht. split; [exact Hrw | reflexivity].
  - assert (Ht : correct_token ecommerce_terms 2 t = _symspell_correct ecommerce_terms 2 t)
      by (unfold correct_token; rewrite Hp; reflexivity).
    destruct (symspell_correct_cases ecommerce_terms 2 t) as [Hsame | Hin].
    + rewrite Hsame in Ht. rewrite !Ht. split; [exact Hrw | reflexivity].
    + rewrite <- Ht in Hin.
      pose proof ecommerce_terms_stable as H. rewrite forallb_forall in H.
      specialize (H _ Hin). apply andb_true_iff in H.
      destruct H as [H1 H2]. apply eqb_eq in H1, H2. split; assumption.
Qed.

Lemma pass_idem (t : pystr) : pass t = gram \/ pass (pass t) = pass t.
Proof.
  destruct (correct_token_stable (rewrite_token t) (rewrite_token_idem t))
    as [Hrw Hsp].
  remember (correct_token ecommerce_terms 2 (rewrite_token t)) as t2 eqn:Ht2.
  assert (Hpass : pass t = unit_token t2) by (unfold pass; rewrite <- Ht2; reflexivity).
  destruct (table_get UNIT_PATTERNS t2) as [v |] eqn:Hv.
  - assert (Hu : unit_token t2 = v) by (unfold unit_token; rewrite Hv; reflexivity).
    rewrite Hpass, Hu.
    apply table_get_In in Hv.
    pose proof unit_values_stable as H. rewrite forallb_forall in H.
    specialize (H _ Hv). apply orb_true_iff in H.
    destruct H as [H | H]; apply eqb_eq in H; [left | right]; exact H.
  - assert (Hu : unit_token t2 = t2) by (unfold unit_token; rewrite Hv; reflexivity).
    right. rewrite Hpass, Hu. unfold pass. rewrite Hrw, Hsp. exact Hu.
Qed.

Lemma correct_as_pass (text : pystr) :
  text <> [] ->
  default_correct text true = join space (map pass (split (lower text))).
Proof.
  intros Hne. unfold default_correct.
  destruct text as [| c text]; [congruence |].
  unfold correct. rewrite correct_cached_tokens by exact ecommerce_terms_good.
  unfold normalized, spell_checked, rewritten. rewrite !map_map. reflexivity.
Qed.

(** C5, as stated, fails: [gm] is corrected to [gram] (unit normalization),
    and [gram] to [ram] (the closest dictionary term, one deletion away). *)
Lemma correct_gm_twice :
  default_correct (Py.str "gm") true = Py.str "gram"
  /\ default_correct (Py.str "gram") true = Py.str "ram"
  /\ default_correct (default_correct (Py.str "gm") true) true
     <> default_correct (Py.str "gm") true.
Proof.
  repeat split; try (vm_compute; reflexivity).
  vm_compute. discriminate.
Qed.

(** C5, amended.  Spell correction (default dictionary, unit normalization
    on) is idempotent on every string whose corrected form has no token
    [gram]. *)
Theorem correct_idempotent_without_gram (x : pystr) :
  ~ In gram (split (default_correct x true)) ->
  default_correct (default_correct x true) true = default_correct x true.
Proof.
  intros Hgram.
  destruct x as [| c x]; [reflexivity |].
  assert (Hne : c :: x <> []) by discriminate.
  rewrite (correct_as_pass _ Hne) in *.
  set (ts := split (lower (c :: x))) in *.
  assert (Hgood : forallb good (map pass ts) = true).
  { replace (map pass ts) with (normalized ecommerce_terms 2 (c :: x)).
    - apply (normalized_good ecommerce_terms 2 ecommerce_terms_good).
    - unfold normalized, spell_checked, rewritten. rewrite !map_map. reflexivity. }
  rewrite split_join in Hgram by (apply forallb_good_tokens; exact Hgood).
  destruct (map pass ts) as [| t0 rest] eqn:Hts; [reflexivity |].
  rewrite correct_as_pass by (apply join_nonempty; apply forallb_good_tokens in Hgood;
    simpl in Hgood; apply andb_true_iff in Hgood; destruct Hgood as [Ht0 _];
    apply is_token_spec in Ht0; tauto).
  rewrite lower_join_space, forallb_good_lower by exact Hgood.
  rewrite split_join by (apply forallb_good_tokens; exact Hgood).
  f_equal. rewrite <- Hts in *.
  rewrite map_map. apply map_ext_in. intros t Ht.
  destruct (pass_idem t) as [Hg | Hidem]; [| exact Hidem].
  exfalso. apply Hgram. rewrite <- Hg. apply in_map. exact Ht.
Qed.

Lemma correct_idempotent_without_gram_witness :
  default_correct (default_correct (Py.str "iPhn 12 128gb") true) true
  = default_correct (Py.str "iPhn 12 128gb") true.
Proof.
  apply (correct_idempotent_without_gram (Py.str "iPhn 12 128gb")).
  vm_compute. intros H. repeat (destruct H as [H | H]; [discriminate H |]). exact H.
Defined.

End SpellCorrectorFacts.

(** ** Step 1: lookups in the product cache *)

Module ProductCacheFacts.

Import InputHandler InputHandlerFacts.
Import Examples.

Lemma eqb_neq (a b : Py.pystr) : a <> b -> Py.eqb a b = false.
Proof.
  intros H. destruct (Py.eqb a b) eqn:E; [| reflexivity].
  apply PyFacts.eqb_eq in E. contradiction.
Qed.

Lemma cache_get_set_same (k : Py.pystr) (v : Product) (c : Cache) :
  cache_get k (cache_set k v c) = Some v.
Proof.
  induction c as [| [k' v'] c IH]; simpl.
  - rewrite eqb_refl. reflexivity.
  - destruct (Py.eqb k k') eqn:E; simpl; rewrite E; [reflexivity | exact IH].
Qed.

Lemma cache_get_set_other (k k' : Py.pystr) (v : Product) (c : Cache) :
  Py.eqb k' k = false -> cache_get k' (cache_set k v c) = cache_get k' c.
Proof.
  intros Hk. induction c as [| [k0 v0] c IH]; simpl.
  - rewrite Hk. reflexivity.
  - destruct (Py.eqb k k0) eqn:E; simpl.
    + apply PyFacts.eqb_eq in E. subst k0. rewrite Hk. reflexivity.
    + rewrite IH. reflexivity.
Qed.

Lemma cache_get_del_absent (k k' : Py.pystr) (c : Cache) :
  cache_get k' c = None -> cache_get k' (cache_del k c) = None.
Proof.
  induction c as [| [k0 v0] c IH]; simpl; [reflexivity |].
  destruct (Py.eqb k' k0) eqn:E; [discriminate |].
  intros H. destruct (Py.eqb k k0); simpl; [exact H |].
  rewrite E. apply IH. exact H.
Qed.

Lemma cache_product_get_same (c : Cache) (key : Py.pystr) (data : Product) :
  cache_get key (_cache_product c key data) = Some data.
Proof. unfold _cache_product. apply cache_get_set_same. Qed.

Lemma cache_product_get_absent (c : Cache) (key k : Py.pystr) (data : Product) :
  Py.eqb k key = false -> cache_get k c = None ->
  cache_get k (_cache_product c key data) = None.
Proof.
  intros Hk Hnone. unfold _cache_product.
  rewrite cache_get_set_other by exact Hk.
  destruct (_cache_max_size <=? List.length c)%nat; [| exact Hnone].
  destruct c as [| [k0 v0] rest]; [reflexivity |].
  apply cache_get_del_absent. exact Hnone.
Qed.


(** X1.  Storing a product and looking its key up gives that product
    back, whatever the cache held and whether or not an entry was evicted;
    a key other than the stored one that was absent is still absent; and
    below the capacity every other key keeps its entry. *)
Theorem cache_product_lookup (c : Cache) (key : Py.pystr) (data : Product) :
  cache_get key (_cache_product c key data) = Some data
  /\ (forall k, k <> key -> cache_get k c = None ->
        cache_get k (_cache_product c key data) = None)
  /\ (forall k, k <> key -> (List.length c < _cache_max_size)%nat ->
        cache_get k (_cache_product c key data) = cache_get k c).
Proof.
  split; [apply cache_product_get_same |]. split.
  - intros k Hk Hnone.
    apply cache_product_get_absent; [apply eqb_neq; exact Hk | exact Hnone].
  - intros k Hk Hroom. rewrite cache_product_no_eviction by exact Hroom.
    apply cache_get_set_other. apply eqb_neq. exact Hk.
Qed.

Lemma cache_product_lookup_witness :
  cache_get (Py.str "amazon:B0CHX1W1XY")
            (_cache_product full_cache (Py.str "amazon:B0CHX1W1XY") sample_product)
  = Some sample_product
  /\ cache_get (Py.str "myntra:42")
               (_cache_product full_cache (Py.str "amazon:B0CHX1W1XY") sample_product)
     = None
  /\ cache_get (Py.str "flipkart:007")
               (_cache_product [] (Py.str "amazon:B0CHX1W1XY") sample_product)
     = cache_get (Py.str "flipkart:007") [].
Proof.
  destruct (cache_product_lookup full_cache (Py.str "amazon:B0CHX1W1XY") sample_product)
    as [Hsame [Habsent _]].
  destruct (cache_product_lookup [] (Py.str "amazon:B0CHX1W1XY") sample_product)
    as [_ [_ Hkept]].
  split; [exact Hsame |]. split.
  - apply Habsent; [vm_compute; discriminate | vm_compute; reflexivity].
  - apply Hkept; [vm_compute; discriminate | vm_compute; lia].
Defined.




(** The proviso of the theorem is needed: when the HEAD request of the
    second call ends elsewhere, the shortened link is no cache hit. *)
Lemma second_call_after_other_redirect :
  let first := process short_netloc redirect_to_amazon sample_scraper [] short_url in
  let second := process short_netloc elsewhere no_scraper (snd first) short_url in
  cache_hit (fst first) = Some false
  /\ product_data (fst first) = Some sample_product
  /\ cache_hit (fst second) = None
  /\ product_data (fst second) = None
  /\ query_text (fst second) = Py.str "https://example.com/".
Proof. repeat split; vm_compute; reflexivity. Qed.

(** *** Product data always carries a name *)

Lemma startswith_app (p s : Py.pystr) : Py.startswith p (p ++ s) = true.
Proof.
  induction p as [| x p IH]; simpl; [reflexivity |].
  rewrite N.eqb_refl. exact IH.
Qed.

Lemma join_head (sep p : Py.pystr) (rest : list Py.pystr) :
  exists tail, Py.join sep (p :: rest) = p ++ tail.
Proof.
  destruct rest as [| q rest].
  - exists []. simpl. rewrite app_nil_r. reflexivity.
  - eexists. reflexivity.
Qed.

Lemma product_to_text_name (p : Product) :
  truthy (name p) = true ->
  Py.startswith (name p) (_product_to_text p) = true /\ _product_to_text p <> [].
Proof.
  intros Hname. unfold _product_to_text. rewrite Hname.
  destruct (name p) as [| x n] eqn:Hn; [discriminate |].
  cbn [app].
  match goal with
  | |- context [Py.join Py.space (?h :: ?r)] =>
      destruct (join_head Py.space h r) as [tail Htail]; rewrite Htail
  end.
  split; [apply startswith_app | discriminate].
Qed.

Lemma scraped_named (scrape_product : Py.pystr -> option Product) (url : Py.pystr)
    (p : Product) :
  _scrape_product_url scrape_product url = Some p -> truthy (name p) = true.
Proof.
  unfold _scrape_product_url.
  destruct (scrape_product url) as [pd |]; [| discriminate].
  destruct (truthy (name pd)) eqn:Hn; [| discriminate].
  intros H. injection H as <-. exact Hn.
Qed.

Lemma all_named_get (c : Cache) (k : Py.pystr) (p : Product) :
  all_named c = true -> cache_get k c = Some p -> truthy (name p) = true.
Proof.
  induction c as [| [k0 v0] c IH]; simpl; [discriminate |].
  intros Hall Hget. apply andb_prop in Hall as [H0 Hall].
  destruct (Py.eqb k k0); [| exact (IH Hall Hget)].
  injection Hget as <-. exact H0.
Qed.

Lemma all_named_del (k : Py.pystr) (c : Cache) :
  all_named c = true -> all_named (cache_del k c) = true.
Proof.
  induction c as [| [k0 v0] c IH]; simpl; [reflexivity |].
  intros Hall. apply andb_prop in Hall as [H0 Hall].
  destruct (Py.eqb k k0); simpl; [exact Hall |].
  rewrite H0. exact (IH Hall).
Qed.

Lemma all_named_set (k : Py.pystr) (p : Product) (c : Cache) :
  truthy (name p) = true -> all_named c = true -> all_named (cache_set k p c) = true.
Proof.
  intros Hp. induction c as [| [k0 v0] c IH]; simpl.
  - intros _. rewrite Hp. reflexivity.
  - intros Hall. apply andb_prop in Hall as [H0 Hall].
    destruct (Py.eqb k k0); simpl.
    + rewrite Hp. exact Hall.
    + rewrite H0. exact (IH Hall).
Qed.

Lemma all_named_cache_product (c : Cache) (key : Py.pystr) (p : Product) :
  truthy (name p) = true -> all_named c = true ->
  all_named (_cache_product c key p) = true.
Proof.
  intros Hp Hall. unfold _cache_product. apply all_named_set; [exact Hp |].
  destruct (_cache_max_size <=? List.length c)%nat; [| exact Hall].
  destruct c as [| [k0 v0] rest]; [reflexivity |].
  apply all_named_del. exact Hall.
Qed.

Lemma process_named
    (netloc head_final_url : Py.pystr -> option Py.pystr)
    (scrape_product : Py.pystr -> option Product) (c : Cache) (raw : Py.pystr) :
  all_named c = true ->
  all_named (snd (process netloc head_final_url scrape_product c raw)) = true
  /\ forall p,
       product_data (fst (process netloc head_final_url scrape_product c raw)) = Some p ->
       truthy (name p) = true
       /\ query_text (fst (process netloc head_final_url scrape_product c raw))
          = _product_to_text p.
Proof.
  intros Hall. unfold process.
  repeat match goal with
         | |- context [match ?x with _ => _ end] =>
             match x with
             | _is_shortened_url _ _ => fail 1
             | _ => destruct x eqn:?
             end
         end; cbn -[cache_key _product_to_text _cache_product cache_get].
  all: split;
    [first [exact Hall
           | apply all_named_cache_product;
             [eapply scraped_named; eassumption | exact Hall]] |].
  all: intros pq Hpq;
    first [discriminate Hpq | injection Hpq as Hpq; subst pq; split; [| reflexivity]].
  all: try (eapply scraped_named; eassumption).
  all: try (eapply all_named_get; [exact Hall | eassumption]).
  match goal with
  | H : match pi_platform ?q with _ => _ end = Some _ |- _ =>
      destruct (pi_platform q); [| discriminate H];
      destruct (pi_product_id q) as [[| ? ?] |]; try discriminate H;
      match type of H with
      | context [cache_get ?k c] => destruct (cache_get k c) eqn:Hget
      end; [| discriminate H];
      injection H as _ _ Hpd; subst;
      eapply all_named_get; [exact Hall | exact Hget]
  end.
Qed.

(** X3.  On a cache whose products all have a name (the empty cache the
    class starts with is one), [process] leaves such a cache, and whenever
    its result carries product data, that product has a name and the query
    text is not empty and begins with the name. *)
Theorem process_product_text_begins_with_name
    (netloc head_final_url : Py.pystr -> option Py.pystr)
    (scrape_product : Py.pystr -> option Product) (c : Cache) (raw : Py.pystr) :
  all_named c = true ->
  let r := process netloc head_final_url scrape_product c raw in
  all_named (snd r) = true
  /\ forall p, product_data (fst r) = Some p ->
       name p <> []
       /\ Py.startswith (name p) (query_text (fst r)) = true
       /\ query_text (fst r) <> [].
Proof.
  intros Hall. cbv zeta.
  destruct (process_named netloc head_final_url scrape_product c raw Hall) as [Hc Hp].
  split; [exact Hc |].
  intros p Hdata. destruct (Hp p Hdata) as [Hname Htext].
  rewrite Htext. destruct (product_to_text_name p Hname) as [Hstart Hne].
  split; [| split; assumption].
  intros Hnil. rewrite Hnil in Hname. discriminate.
Qed.

Lemma process_product_text_begins_with_name_witness :
  let r := process amazon_netloc no_redirect sample_scraper [] amazon_url in
  all_named (snd r) = true
  /\ forall p, product_data (fst r) = Some p ->
       name p <> []
       /\ Py.startswith (name p) (query_text (fst r)) = true
       /\ query_text (fst r) <> [].
Proof.
  apply (process_product_text_begins_with_name amazon_netloc no_redirect sample_scraper
           [] amazon_url).
  reflexivity.
Defined.

End ProductCacheFacts.

(** ** Step 1: what counts as a URL, and the product ids read off it *)

Module UrlFacts.

Import InputHandler InputHandlerFacts ProductCacheFacts.
Import Examples.

Lemma startswith_split (p s : Py.pystr) :
  Py.startswith p s = true -> exists r, s = p ++ r.
Proof.
  revert s. induction p as [| x p IH]; intros s H.
  - exists s. reflexivity.
  - destruct s as [| y s]; simpl in H; [discriminate |].
    apply andb_prop in H as [Hxy H]. apply N.eqb_eq in Hxy. subst y.
    destruct (IH s H) as [r ->]. exists r. reflexivity.
Qed.

Lemma contains_app (sub pre s : Py.pystr) :
  Py.startswith sub s = true -> Py.contains sub (pre ++ s) = true.
Proof.
  intros H. induction pre as [| c pre IH]; simpl.
  - destruct s; simpl; rewrite H; reflexivity.
  - rewrite IH. apply orb_true_r.
Qed.

Lemma contains_split (sub s : Py.pystr) :
  Py.contains sub s = true -> exists pre r, s = pre ++ sub ++ r.
Proof.
  induction s as [| c s IH]; simpl.
  - rewrite orb_false_r. intros H. apply startswith_split in H as [r Hr].
    exists [], r. exact Hr.
  - intros H. apply orb_prop in H as [H | H].
    + apply startswith_split in H as [r Hr]. exists [], r. exact Hr.
    + destruct (IH H) as [pre [r ->]]. exists (c :: pre), r. reflexivity.
Qed.

Lemma search_from_some {A : Type} (f : Py.pystr -> option A) (s : Py.pystr) (a : A) :
  search_from f s = Some a -> exists pre s', s = pre ++ s' /\ f s' = Some a.
Proof.
  induction s as [| c s IH]; simpl.
  - destruct (f []) eqn:E; [| discriminate].
    intros H. injection H as <-. exists [], []. split; [reflexivity | exact E].
  - destruct (f (c :: s)) eqn:E.
    + intros H. injection H as <-. exists [], (c :: s). split; [reflexivity | exact E].
    + intros H. destruct (IH H) as [pre [s' [-> Hs']]].
      exists (c :: pre), s'. split; [reflexivity | exact Hs'].
Qed.

Lemma span_spec (p : N -> bool) (s a b : Py.pystr) :
  span p s = (a, b) -> s = a ++ b /\ forallb p a = true.
Proof.
  revert a b. induction s as [| c s IH]; intros a b; simpl.
  - intros H. injection H as <- <-. split; reflexivity.
  - destruct (p c) eqn:Hc.
    + destruct (span p s) as [a' b'] eqn:E. intros H. injection H as <- <-.
      destruct (IH a' b' eq_refl) as [-> Ha]. simpl. rewrite Hc.
      split; [reflexivity | exact Ha].
    + intros H. injection H as <- <-. split; reflexivity.
Qed.

Lemma startswith_firstn (n : nat) (s : Py.pystr) : Py.startswith (firstn n s) s = true.
Proof.
  revert s. induction n as [| n IH]; intros s; [reflexivity |].
  destruct s as [| c s]; simpl; [reflexivity |].
  rewrite N.eqb_refl. apply IH.
Qed.

Lemma startswith_app_both (p a b : Py.pystr) :
  Py.startswith a b = true -> Py.startswith (p ++ a) (p ++ b) = true.
Proof.
  intros H. induction p as [| x p IH]; simpl; [exact H |].
  rewrite N.eqb_refl. exact IH.
Qed.

Lemma asin_at_spec (s id : Py.pystr) :
  asin_at s = Some id ->
  List.length id = 10%nat /\ forallb is_upper_or_digit id = true
  /\ Py.startswith (Py.str "/dp/" ++ id) s = true.
Proof.
  unfold asin_at.
  destruct (Py.startswith (Py.str "/dp/") s) eqn:Hs; [| discriminate].
  apply startswith_split in Hs as [r ->].
  change (skipn 4 (Py.str "/dp/" ++ r)) with r.
  pose proof (startswith_firstn 10 r) as Hpre.
  remember (firstn 10 r) as id0 eqn:Hid0. clear Hid0.
  destruct ((List.length id0 =? 10)%nat && forallb is_upper_or_digit id0)
    eqn:E; [| discriminate].
  intros H. injection H as <-. apply andb_prop in E as [Hlen Hall].
  apply Nat.eqb_eq in Hlen.
  split; [exact Hlen |]. split; [exact Hall |].
  apply startswith_app_both. exact Hpre.
Qed.

Lemma pid_at_spec (s id : Py.pystr) :
  pid_at s = Some id ->
  id <> [] /\ forallb is_upper_or_digit id = true
  /\ Py.startswith (Py.str "pid=" ++ id) s = true.
Proof.
  unfold pid_at.
  destruct (Py.startswith (Py.str "pid=") s) eqn:Hs; [| discriminate].
  apply startswith_split in Hs as [r ->].
  change (skipn 4 (Py.str "pid=" ++ r)) with r.
  destruct (span is_upper_or_digit r) as [a b] eqn:E.
  apply span_spec in E as [-> Ha]. cbn [fst].
  destruct a as [| x a]; [discriminate |].
  intros H. injection H as <-.
  split; [discriminate |]. split; [exact Ha |].
  apply startswith_app_both. apply startswith_app.
Qed.

Lemma not_slash (c : N) (x : option Py.pystr) :
  c <> 47%N -> match c with 47%N => x | _ => None end = None.
Proof.
  intros Hne. destruct c as [| p]; [reflexivity |].
  do 6 (destruct p as [p | p |]; try reflexivity). congruence.
Qed.

Lemma myntra_id_at_spec (s id : Py.pystr) :
  myntra_id_at s = Some id ->
  id <> [] /\ forallb Py.isdecimal_cp id = true
  /\ Py.startswith (Py.str "/" ++ id ++ Py.str "/buy") s = true.
Proof.
  unfold myntra_id_at.
  destruct s as [| c s]; [discriminate |].
  destruct (N.eqb c 47) eqn:Hc.
  2:{ apply N.eqb_neq in Hc. rewrite not_slash by exact Hc. discriminate. }
  apply N.eqb_eq in Hc. subst c.
  destruct (span Py.isdecimal_cp s) as [a b] eqn:E.
  apply span_spec in E as [-> Ha].
  destruct a as [| x a]; [discriminate |].
  destruct (Py.startswith (Py.str "/buy") b) eqn:Hb; [| discriminate].
  intros H. injection H as <-.
  split; [discriminate |]. split; [exact Ha |].
  change (Py.str "/" ++ (x :: a) ++ Py.str "/buy")
    with ([47%N] ++ ((x :: a) ++ Py.str "/buy")).
  change (47%N :: (x :: a) ++ b) with ([47%N] ++ ((x :: a) ++ b)).
  apply startswith_app_both. apply startswith_app_both. exact Hb.
Qed.

Lemma search_from_contains (f : Py.pystr -> option Py.pystr)
    (marker : Py.pystr -> Py.pystr) (s id : Py.pystr) :
  (forall s', f s' = Some id -> Py.startswith (marker id) s' = true) ->
  search_from f s = Some id -> Py.contains (marker id) s = true.
Proof.
  intros Hf H. apply search_from_some in H as [pre [s' [-> Hs']]].
  apply contains_app. apply Hf. exact Hs'.
Qed.

(** X4.  A product id is reported only for Amazon, Flipkart and Myntra,
    and it is read off the URL: for Amazon, ten upper-case letters or digits
    that follow [/dp/]; for Flipkart, a non-empty run of upper-case letters
    or digits that follows [pid=]; for Myntra, a non-empty run of digits
    between [/] and [/buy]. *)
Theorem extract_platform_info_product_id
    (netloc : Py.pystr -> option Py.pystr) (url id : Py.pystr) :
  pi_product_id (_extract_platform_info netloc url) = Some id ->
  (pi_platform (_extract_platform_info netloc url) = Some "amazon"%string
   /\ List.length id = 10%nat /\ forallb is_upper_or_digit id = true
   /\ Py.contains (Py.str "/dp/" ++ id) url = true)
  \/ (pi_platform (_extract_platform_info netloc url) = Some "flipkart"%string
      /\ id <> [] /\ forallb is_upper_or_digit id = true
      /\ Py.contains (Py.str "pid=" ++ id) url = true)
  \/ (pi_platform (_extract_platform_info netloc url) = Some "myntra"%string
      /\ id <> [] /\ forallb Py.isdecimal_cp id = true
      /\ Py.contains (Py.str "/" ++ id ++ Py.str "/buy") url = true).
Proof.
  unfold _extract_platform_info.
  destruct (domain_of netloc url) as [domain |]; [| discriminate].
  destruct (Py.contains (Py.str "amazon") domain).
  { cbn [pi_platform pi_product_id]. intros H. left.
    pose proof H as H'. apply search_from_some in H' as [pre [s' [_ Hs']]].
    apply asin_at_spec in Hs' as [Hlen [Hall _]].
    split; [reflexivity |]. split; [exact Hlen |]. split; [exact Hall |].
    apply (search_from_contains asin_at (fun id => Py.str "/dp/" ++ id)); [| exact H].
    intros s0 H0. apply asin_at_spec in H0. tauto. }
  destruct (Py.contains (Py.str "flipkart") domain).
  { cbn [pi_platform pi_product_id]. intros H. right. left.
    pose proof H as H'. apply search_from_some in H' as [pre [s' [_ Hs']]].
    apply pid_at_spec in Hs' as [Hne [Hall _]].
    split; [reflexivity |]. split; [exact Hne |]. split; [exact Hall |].
    apply (search_from_contains pid_at (fun id => Py.str "pid=" ++ id)); [| exact H].
    intros s0 H0. apply pid_at_spec in H0. tauto. }
  destruct (Py.contains (Py.str "myntra") domain).
  { cbn [pi_platform pi_product_id]. intros H. right. right.
    pose proof H as H'. apply search_from_some in H' as [pre [s' [_ Hs']]].
    apply myntra_id_at_spec in Hs' as [Hne [Hall _]].
    split; [reflexivity |]. split; [exact Hne |]. split; [exact Hall |].
    apply (search_from_contains myntra_id_at
             (fun id => Py.str "/" ++ id ++ Py.str "/buy")); [| exact H].
    intros s0 H0. apply myntra_id_at_spec in H0. tauto. }
  repeat match goal with
         | |- context [if ?b then _ else _] => destruct b
         end; cbn [pi_product_id]; discriminate.
Qed.

Lemma extract_platform_info_product_id_witness :
  pi_platform (_extract_platform_info amazon_netloc amazon_url) = Some "amazon"%string
  /\ List.length (Py.str "B0CHX1W1XY") = 10%nat
  /\ Py.contains (Py.str "/dp/" ++ Py.str "B0CHX1W1XY") amazon_url = true.
Proof.
  destruct (extract_platform_info_product_id amazon_netloc amazon_url
              (Py.str "B0CHX1W1XY"))
    as [[Hp [Hlen [_ Hin]]] | [[Hp _] | [Hp _]]].
  - vm_compute. reflexivity.
  - split; [exact Hp |]. split; [exact Hlen | exact Hin].
  - vm_compute in Hp. discriminate Hp.
  - vm_compute in Hp. discriminate Hp.
Defined.

Lemma startswith_In (p s : Py.pystr) (c : N) :
  Py.startswith p s = true -> In c p -> In c s.
Proof.
  intros H Hc. apply startswith_split in H as [r ->].
  apply in_or_app. left. exact Hc.
Qed.

Lemma contains_In (p s : Py.pystr) (c : N) :
  Py.contains p s = true -> In c p -> In c s.
Proof.
  intros H Hc. apply contains_split in H as [pre [r ->]].
  apply in_or_app. right. apply in_or_app. left. exact Hc.
Qed.

(** A code point that is the lower-case form of no other comes out of
    [lower] only where it went in. *)
Lemma lower_In (c : N) (s : Py.pystr) :
  forallb (fun cd => negb (snd cd =? c)%N) Py.lower_pairs
  && negb (c =? 0x0069)%N && negb (c =? 0x0307)%N && negb (c =? 0x03C2)%N = true ->
  In c (Py.lower s) -> In c s.
Proof.
  intros Hc. apply andb_prop in Hc as [Hc H3]. apply andb_prop in Hc as [Hc H2].
  apply andb_prop in Hc as [Hc H1].
  apply negb_true_iff, N.eqb_neq in H1, H2, H3.
  assert (Hq : forall before x after d,
             In d (Py.lower_at before x after) -> d = c -> x = c).
  { apply (PyFacts.lower_at_forall (fun x d => d = c -> x = c)).
    - intros c0 _ H. exact H.
    - congruence.
    - congruence.
    - intros c0 d H Hd. subst d.
      apply (PyFacts.lower_pairs_forall (fun _ d => negb (d =? c)%N) Hc) in H.
      rewrite N.eqb_refl in H. discriminate H.
    - congruence. }
  unfold Py.lower. generalize (@nil N) as before.
  induction s as [| x s IH]; intros before Hin; [destruct Hin |].
  cbn [Py.lower_from] in Hin. apply in_app_or in Hin as [Hin | Hin].
  - left. exact (Hq _ _ _ _ Hin eq_refl).
  - right. exact (IH _ Hin).
Qed.

Lemma strip_In (c : N) (s : Py.pystr) : In c (Py.strip s) -> In c s.
Proof.
  unfold Py.strip. intros H.
  apply in_rev in H. apply TokenizerFacts.lstrip_In in H.
  apply in_rev in H. apply TokenizerFacts.lstrip_In in H. exact H.
Qed.

Lemma looks_like_url_marks (text : Py.pystr) :
  _looks_like_url_fast text = true -> In 46%N text \/ In 58%N text.
Proof.
  unfold _looks_like_url_fast. intros H.
  repeat (apply orb_prop in H as [H | H]).
  1,2: right; apply (lower_In 58); [vm_compute; reflexivity |];
       eapply startswith_In; [exact H |]; vm_compute; tauto.
  1: left; apply (lower_In 46); [vm_compute; reflexivity |];
     eapply startswith_In; [exact H |]; vm_compute; tauto.
  all: left; apply (lower_In 46); [vm_compute; reflexivity |];
       eapply contains_In; [exact H |]; vm_compute; tauto.
Qed.

(** X5.  An input with no full stop and no colon is never taken for a
    URL: [process] returns the text result for the stripped input and
    leaves the cache alone, whatever the URL parser, the network and the
    scraper would say. *)
Theorem plain_query_is_text
    (netloc head_final_url : Py.pystr -> option Py.pystr)
    (scrape_product : Py.pystr -> option Product) (c : Cache) (raw : Py.pystr) :
  ~ In 46%N raw -> ~ In 58%N raw ->
  process netloc head_final_url scrape_product c raw = (text_result (Py.strip raw), c).
Proof.
  intros Hdot Hcolon. unfold process.
  destruct (_looks_like_url_fast (Py.strip raw)) eqn:Hfast; [| reflexivity].
  exfalso.
  apply looks_like_url_marks in Hfast as [H | H]; apply strip_In in H; contradiction.
Qed.

Lemma plain_query_is_text_witness :
  process amazon_netloc no_redirect sample_scraper full_cache
          (Py.str "  wireless headphones under 5000 ")
  = (text_result (Py.str "wireless headphones under 5000"), full_cache).
Proof.
  apply (plain_query_is_text amazon_netloc no_redirect sample_scraper full_cache
           (Py.str "  wireless headphones under 5000 ")).
  - vm_compute. intuition discriminate.
  - vm_compute. intuition discriminate.
Defined.

End UrlFacts.

(** ** Step 2: correction word by word *)

Module SpellTokenFacts.

Import Py PyFacts SpellCorrector SpellCorrectorFacts.
Import Examples.

(** The tokens of the corrected text, from the tokens of the input. *)
Lemma correct_tokens (text : pystr) (flag : bool) :
  split (default_correct text flag)
  = map (fun t => (if flag then unit_token else fun u => u)
                    (correct_token ecommerce_terms 2 (rewrite_token (lower t))))
        (split text).
Proof.
  unfold default_correct. destruct text as [| c text]; [reflexivity |].
  unfold correct. rewrite correct_cached_tokens by exact ecommerce_terms_good.
  rewrite split_join.
  - unfold normalized, spell_checked, rewritten. rewrite split_lower.
    destruct flag; rewrite !map_map; [reflexivity |].
    apply map_ext. reflexivity.
  - apply forallb_good_tokens.
    destruct flag;
      [apply normalized_good | apply spell_checked_good]; exact ecommerce_terms_good.
Qed.

(** X6.  Correction works word by word: the words of the corrected text
    are the words of the input, in order, each lower-cased, rewritten,
    spell-checked and (when asked) unit-normalized on its own.  No word is
    dropped, merged or split, so the number of words is kept. *)
Theorem correct_word_by_word (text : pystr) (apply_unit_normalization : bool) :
  split (default_correct text apply_unit_normalization)
  = map (fun t => (if apply_unit_normalization then unit_token else fun u => u)
                    (correct_token ecommerce_terms 2 (rewrite_token (lower t))))
        (split text)
  /\ List.length (split (default_correct text apply_unit_normalization))
     = List.length (split text).
Proof.
  split; [apply correct_tokens |].
  rewrite correct_tokens. apply length_map.
Qed.

Lemma table_get_key (d : list (pystr * pystr)) (k v : pystr) :
  table_get d k = Some v -> In k (map fst d).
Proof.
  induction d as [| [k' v'] d IH]; simpl; [discriminate |].
  destruct (eqb k k') eqn:E.
  - apply eqb_eq in E. subst k'. intros _. left. reflexivity.
  - intros H. right. exact (IH H).
Qed.

Lemma rewrite_keys_no_digit :
  forallb (fun k => negb (is_ascii_digit (hd 0%N k))) (map fst REWRITE_RULES) = true.
Proof. vm_compute. reflexivity. Qed.

Lemma unit_keys_no_digit :
  forallb (fun k => negb (is_ascii_digit (hd 0%N k))) (map fst UNIT_PATTERNS) = true.
Proof. vm_compute. reflexivity. Qed.

Lemma table_get_digit (d : list (pystr * pystr)) (t : pystr) :
  forallb (fun k => negb (is_ascii_digit (hd 0%N k))) (map fst d) = true ->
  is_ascii_digit (hd 0%N t) = true -> table_get d t = None.
Proof.
  intros Hd Ht. destruct (table_get d t) as [v |] eqn:E; [| reflexivity].
  apply table_get_key in E. rewrite forallb_forall in Hd.
  specialize (Hd _ E). rewrite Ht in Hd. discriminate.
Qed.

Lemma digit_not_upper (c : N) : is_ascii_digit c = true -> lower_fixed_cp c = true.
Proof.
  intros H. pose proof H as Hc. unfold is_ascii_digit in Hc.
  apply andb_prop in Hc as [H1 H2]. apply N.leb_le in H1. apply N.leb_le in H2.
  assert (Hf : negb (is_ascii_digit c) || lower_fixed_cp c = true)
    by (apply (ascii_forall (fun c => negb (is_ascii_digit c) || lower_fixed_cp c));
        [vm_compute; reflexivity | lia]).
  rewrite H in Hf. exact Hf.
Qed.

Lemma digits_lower (t : pystr) : forallb is_ascii_digit t = true -> lower t = t.
Proof.
  intros H. apply lower_from_id.
  rewrite forallb_forall in *. intros c Hc. apply digit_not_upper, H, Hc.
Qed.

Lemma span_all (p : N -> bool) (t : pystr) :
  forallb p t = true -> InputHandler.span p t = (t, []).
Proof.
  induction t as [| c t IH]; simpl; [reflexivity |].
  intros H. apply andb_prop in H as [Hc Ht]. rewrite Hc, (IH Ht). reflexivity.
Qed.

Lemma digit_decimal (t : pystr) :
  forallb is_ascii_digit t = true -> forallb isdecimal_cp t = true.
Proof.
  intros H. rewrite forallb_forall in *. intros c Hc.
  specialize (H c Hc). unfold is_ascii_digit in H.
  apply andb_prop in H as [H1 H2]. apply N.leb_le in H1. apply N.leb_le in H2.
  apply (in_ranges_true _ 0x0030 0x0039); [left; reflexivity | lia].
Qed.

Lemma digits_preserved (t : pystr) :
  t <> [] -> forallb is_ascii_digit t = true -> _should_preserve t = true.
Proof.
  intros Hne Ht. unfold _should_preserve, matches_preserve_pattern.
  rewrite (span_all _ _ (digit_decimal t Ht)).
  destruct t; [congruence |]. apply orb_true_r.
Qed.

Lemma digits_unchanged (t : pystr) (flag : bool) :
  t <> [] -> forallb is_ascii_digit t = true ->
  (if flag then unit_token else fun u => u)
    (correct_token ecommerce_terms 2 (rewrite_token (lower t))) = t.
Proof.
  intros Hne Ht.
  assert (Hd : is_ascii_digit (hd 0%N t) = true).
  { destruct t as [| c t]; [congruence |]. simpl in Ht.
    apply andb_prop in Ht as [Hc _]. exact Hc. }
  rewrite (digits_lower t Ht).
  unfold rewrite_token. rewrite (table_get_digit _ t rewrite_keys_no_digit Hd).
  unfold correct_token. rewrite (digits_preserved t Hne Ht).
  destruct flag; [| reflexivity].
  unfold unit_token. rewrite (table_get_digit _ t unit_keys_no_digit Hd). reflexivity.
Qed.

(** X7.  Numbers survive correction: a word of the input made of ASCII
    digits only is found unchanged at the same position of the corrected
    text, with or without unit normalization. *)
Theorem correct_keeps_numbers (text : pystr) (apply_unit_normalization : bool)
    (i : nat) (t : pystr) :
  nth_error (split text) i = Some t ->
  forallb is_ascii_digit t = true ->
  nth_error (split (default_correct text apply_unit_normalization)) i = Some t.
Proof.
  intros Hnth Hdigits.
  assert (Hne : t <> []).
  { pose proof (split_tokens text) as Htok. rewrite forallb_forall in Htok.
    apply nth_error_In in Hnth. specialize (Htok _ Hnth).
    apply is_token_spec in Htok. tauto. }
  rewrite correct_tokens. rewrite nth_error_map, Hnth. cbn [option_map].
  f_equal. apply digits_unchanged; assumption.
Qed.

Lemma correct_keeps_numbers_witness :
  nth_error (split (default_correct (Py.str "samsng glaxy under 15000 rs") true)) 3
  = Some (Py.str "15000").
Proof.
  apply (correct_keeps_numbers (Py.str "samsng glaxy under 15000 rs") true 3
           (Py.str "15000")).
  - vm_compute. reflexivity.
  - vm_compute. reflexivity.
Defined.

(** X8.  Without unit normalization, correction is idempotent on every
    input (default dictionary): only the unit stage can make a second pass
    differ from the first. *)
Theorem correct_idempotent_without_units (x : pystr) :
  default_correct (default_correct x false) false = default_correct x false.
Proof.
  unfold default_correct.
  destruct x as [| c x]; [reflexivity |].
  unfold correct at 2. unfold correct at 2.
  rewrite correct_cached_tokens by exact ecommerce_terms_good.
  pose proof (spell_checked_good ecommerce_terms 2 ecommerce_terms_good (c :: x)) as Hgood.
  assert (Hfix : forall t, In t (spell_checked ecommerce_terms 2 (c :: x)) ->
                   correct_token ecommerce_terms 2 (rewrite_token t) = t).
  { intros t Ht. unfold spell_checked, rewritten in Ht.
    rewrite map_map in Ht. apply in_map_iff in Ht as [t0 [<- _]].
    destruct (correct_token_stable (rewrite_token t0) (rewrite_token_idem t0))
      as [Hrw Hsp].
    rewrite Hrw. exact Hsp. }
  destruct (spell_checked ecommerce_terms 2 (c :: x)) as [| t0 rest] eqn:Hts;
    [reflexivity |].
  remember (t0 :: rest) as ts eqn:Hcons.
  assert (Hne : join space ts <> []).
  { subst ts. apply join_nonempty. apply forallb_good_tokens in Hgood.
    simpl in Hgood. apply andb_prop in Hgood as [Ht0 _].
    apply is_token_spec in Ht0. tauto. }
  destruct (join space ts) as [| d out] eqn:Hout; [congruence |].
  unfold correct. rewrite correct_cached_tokens by exact ecommerce_terms_good.
  rewrite <- Hout. f_equal.
  unfold spell_checked, rewritten.
  rewrite lower_join_space, forallb_good_lower by exact Hgood.
  rewrite split_join by (apply forallb_good_tokens; exact Hgood).
  rewrite map_map. rewrite <- (map_id ts) at 2.
  apply map_ext_in. exact Hfix.
Qed.

Lemma unit_values_not_keys :
  forallb (fun v => match table_get UNIT_PATTERNS v with None => true | Some _ => false end)
          (map snd UNIT_PATTERNS) = true.
Proof. vm_compute. reflexivity. Qed.

Lemma unit_token_not_key (t : pystr) : table_get UNIT_PATTERNS (unit_token t) = None.
Proof.
  destruct (table_get UNIT_PATTERNS t) as [v |] eqn:E.
  - assert (Hu : unit_token t = v) by (unfold unit_token; rewrite E; reflexivity).
    rewrite Hu. apply table_get_In in E.
    pose proof unit_values_not_keys as H. rewrite forallb_forall in H.
    specialize (H _ E). destruct (table_get UNIT_PATTERNS v); [discriminate | reflexivity].
  - assert (Hu : unit_token t = t) by (unfold unit_token; rewrite E; reflexivity).
    rewrite Hu. exact E.
Qed.

(** X9.  After correction with unit normalization no word of the result
    is one of the unit aliases ([rs], [taka], [inr], the rupee sign, [kg],
    [gm], ...): normalizing the units of the result again changes nothing. *)
Theorem correct_leaves_no_unit_alias (text t : pystr) :
  In t (split (default_correct text true)) ->
  table_get UNIT_PATTERNS t = None /\ unit_token t = t.
Proof.
  intros Ht. rewrite correct_tokens in Ht. apply in_map_iff in Ht as [t0 [<- _]].
  pose proof (unit_token_not_key
                (correct_token ecommerce_terms 2 (rewrite_token (lower t0)))) as H.
  split; [exact H |].
  set (u := unit_token (correct_token ecommerce_terms 2 (rewrite_token (lower t0)))) in *.
  unfold unit_token at 1. rewrite H. reflexivity.
Qed.

Lemma correct_leaves_no_unit_alias_witness :
  table_get UNIT_PATTERNS (Py.str "rupees") = None
  /\ unit_token (Py.str "rupees") = Py.str "rupees".
Proof.
  apply (correct_leaves_no_unit_alias (Py.str "samsng glaxy under 15000 rs")
           (Py.str "rupees")).
  vm_compute. tauto.
Defined.

End SpellTokenFacts.

(** ** Step 4: labels, methods and confidences of [detect] *)

Module DetectorFacts.

Import CodeMixDetector Tokenizer CodeMixFacts.
Import Examples.

(** *** The romanized-language scan *)

Lemma best_entry_In (cur : string * Q) (rest : list (string * Q)) :
  In (best_entry cur rest) (cur :: rest).
Proof.
  revert cur. induction rest as [| e rest IH]; intros cur; simpl; [left; reflexivity |].
  destruct (Qgt_bool (snd e) (snd cur)).
  - right. apply IH.
  - destruct (IH cur) as [H | H]; [left; exact H | right; right; exact H].
Qed.

Lemma half_count_range (n : nat) :
  (0 < n)%nat ->
  (1 # 2 <= py_min (inject_Z (Z.of_nat n) / 2) 1)%Q
  /\ (py_min (inject_Z (Z.of_nat n) / 2) 1 <= 1)%Q.
Proof.
  intros Hn.
  assert (Hhalf : (1 # 2 <= inject_Z (Z.of_nat n) / 2)%Q).
  { apply Qle_shift_div_l; [reflexivity |].
    assert (Hone : ((1 # 2) * 2 == inject_Z 1)%Q) by reflexivity.
    rewrite Hone. rewrite <- Zle_Qle. lia. }
  unfold py_min. destruct (Qgt_bool (inject_Z (Z.of_nat n) / 2) 1) eqn:E.
  - split; [discriminate | apply Qle_refl].
  - apply Qgt_bool_false_iff in E. split; assumption.
Qed.

Lemma lang_scores_range (text : Py.pystr)
    (patterns : list (string * list (list Py.pystr))) (e : string * Q) :
  In e (flat_map
          (fun lp : string * list (list Py.pystr) =>
             let total_matches :=
               fold_left (fun acc p => (acc + findall_count p text)%nat) (snd lp) 0%nat in
             if (0 <? total_matches)%nat
             then [(fst lp, py_min (inject_Z (Z.of_nat total_matches) / 2) 1)]
             else [])
          patterns) ->
  In (fst e) (map fst patterns) /\ (1 # 2 <= snd e)%Q /\ (snd e <= 1)%Q.
Proof.
  intros H. apply in_flat_map in H as [lp [Hlp He]]. cbv zeta in He.
  destruct (0 <? _)%nat eqn:Hpos in He; [| contradiction].
  destruct He as [<- | []]. cbn [fst snd].
  split; [apply in_map; exact Hlp |].
  apply half_count_range. apply Nat.ltb_lt. exact Hpos.
Qed.

Lemma detect_romanized_language_cases (text : Py.pystr) :
  detect_romanized_language text = ("none"%string, 0)
  \/ (In (fst (detect_romanized_language text))
         ["hindi"; "bengali"; "tamil"; "telugu"]%string
      /\ (1 # 2 <= snd (detect_romanized_language text))%Q
      /\ (snd (detect_romanized_language text) <= 1)%Q).
Proof.
  unfold detect_romanized_language.
  destruct text as [| c text]; [left; reflexivity |].
  remember (c :: text) as t eqn:Ht. clear Ht.
  match goal with
  | |- context [match ?l with [] => _ | e :: rest => _ end] =>
      destruct l as [| e rest] eqn:Hl
  end; [left; reflexivity |].
  right. apply (lang_scores_range t ROMANIZED_PATTERNS).
  cbv zeta. rewrite Hl. apply best_entry_In.
Qed.

(** X10.  The pattern scan for the romanized language either finds
    nothing and answers [none] with confidence 0, or names one of Hindi,
    Bengali, Tamil and Telugu with a confidence between 0.5 and 1.  So the
    smart checkpoint's test [romanized_conf > 0.3] holds exactly when some
    pattern matched. *)
Theorem detect_romanized_language_range (text : Py.pystr) :
  let r := detect_romanized_language text in
  (r = ("none"%string, 0)
   \/ (In (fst r) ["hindi"; "bengali"; "tamil"; "telugu"]%string
       /\ (1 # 2 <= snd r)%Q /\ (snd r <= 1)%Q))
  /\ Qgt_bool (snd r) (3 # 10) = negb (String.eqb (fst r) "none").
Proof.
  cbv zeta. split; [apply detect_romanized_language_cases |].
  destruct (detect_romanized_language_cases text) as [-> | [Hlang [Hlo _]]];
    [reflexivity |].
  assert (Hgt : Qgt_bool (snd (detect_romanized_language text)) (3 # 10) = true).
  { apply Qgt_bool_iff. eapply Qlt_le_trans; [| exact Hlo]. reflexivity. }
  rewrite Hgt. simpl in Hlang.
  destruct Hlang as [<- | [<- | [<- | [<- | []]]]]; reflexivity.
Qed.

(** *** The two stages of [detect] without an ONNX model *)

Lemma smart_checkpoint_cases (text : Py.pystr) (toks : list TaggedToken)
    (hint : string) (conf : Q) :
  let r := _classify_smart_checkpoint None text toks hint conf in
  (r = mkClass "mixed" (85 # 100) "smart_checkpoint_fallback" None
   /\ has_latin toks = true /\ has_native toks = true)
  \/ (exists l rc,
        r = mkClass "romanized_indic" (py_max rc (70 # 100)) "smart_checkpoint_fallback" (Some l)
        /\ detect_romanized_language (Py.lower text) = (l, rc)
        /\ has_latin toks = true /\ has_native toks = false
        /\ in_strings hint native_langs = true)
  \/ (r = mkClass "pure_english" (75 # 100) "smart_checkpoint_fallback" None
      /\ has_latin toks = true /\ has_native toks = false /\ hint = "en"%string
      /\ (2 <= count_english_markers (Py.lower text))%nat)
  \/ (exists l rc,
        r = mkClass "romanized_indic" rc "smart_checkpoint_fallback" (Some l)
        /\ detect_romanized_language (Py.lower text) = (l, rc)
        /\ (3 # 10 < rc)%Q
        /\ has_latin toks = true /\ has_native toks = false /\ hint = "en"%string)
  \/ r = mkClass "ambiguous" (5 # 10) "smart_checkpoint_fallback" None.
Proof.
  cbv zeta. unfold _classify_smart_checkpoint, has_latin, has_native.
  destruct (in_strings "Latin" (word_scripts toks)) eqn:Hl; cbn [andb];
    [| right; right; right; right; reflexivity].
  destruct (existsb (fun s => in_strings s native_scripts) (word_scripts toks)) eqn:Hn.
  { left. repeat split. }
  destruct (in_strings hint native_langs) eqn:Hh.
  { right. left.
    destruct (detect_romanized_language (Py.lower text)) as [l rc] eqn:Hr.
    exists l, rc. repeat split. }
  destruct (String.eqb_spec hint "en") as [He | He];
    [| right; right; right; right; reflexivity].
  destruct (2 <=? count_english_markers (Py.lower text))%nat eqn:Hm.
  { right. right. left. apply Nat.leb_le in Hm. repeat split; assumption. }
  destruct (detect_romanized_language (Py.lower text)) as [l rc] eqn:Hr.
  destruct (Qgt_bool rc (3 # 10)) eqn:Hgt;
    [| right; right; right; right; reflexivity].
  right. right. right. left. exists l, rc.
  apply Qgt_bool_iff in Hgt. repeat split; assumption.
Qed.

Lemma heuristic_cases (text : Py.pystr) (toks : list TaggedToken)
    (hint : string) (conf : Q) :
  let r := detect_heuristic text toks hint conf in
  r = ambiguous_heuristic
  \/ (r = mkClass "pure_native" (95 # 100) "fast_lane" None
      /\ word_scripts toks <> []
      /\ forallb (fun s => in_strings s native_scripts) (word_scripts toks) = true
      /\ in_strings hint native_langs = true)
  \/ (r = mkClass "pure_english" conf "fast_lane" None
      /\ word_scripts toks <> []
      /\ forallb (fun s => String.eqb s "Latin") (word_scripts toks) = true
      /\ hint = "en"%string /\ (85 # 100 < conf)%Q).
Proof.
  cbv zeta.
  destruct text as [| c text]; [left; reflexivity |].
  destruct (word_scripts toks) as [| s0 ws] eqn:Hws.
  { left. unfold detect_heuristic. destruct toks; [reflexivity |]. rewrite Hws. reflexivity. }
  assert (Hne : word_scripts toks <> []) by (rewrite Hws; discriminate).
  rewrite detect_heuristic_rules by (discriminate || exact Hne).
  rewrite Hws.
  destruct (forallb (fun s => in_strings s native_scripts) (s0 :: ws)
            && in_strings hint native_langs) eqn:Hnat.
  { right. left. apply andb_prop in Hnat as [H1 H2].
    split; [reflexivity |]. split; [discriminate |]. split; assumption. }
  destruct (forallb (fun s => String.eqb s "Latin") (s0 :: ws)
            && String.eqb hint "en" && Qgt_bool conf CONFIDENCE_THRESHOLD) eqn:Hen;
    [| left; reflexivity].
  right. right. apply andb_prop in Hen as [Hen Hgt]. apply andb_prop in Hen as [Hlat Hhint].
  apply String.eqb_eq in Hhint. apply Qgt_bool_iff in Hgt.
  split; [reflexivity |]. split; [discriminate |]. repeat split; assumption.
Qed.

Lemma all_latin_scripts (ws : list string) :
  ws <> [] -> forallb (fun s => String.eqb s "Latin") ws = true ->
  in_strings "Latin" ws = true
  /\ existsb (fun s => in_strings s native_scripts) ws = false.
Proof.
  intros Hne Hall. split.
  - destruct ws as [| s ws]; [congruence |]. simpl in Hall.
    apply andb_prop in Hall as [Hs _]. apply String.eqb_eq in Hs. subst s. reflexivity.
  - clear Hne. induction ws as [| s ws IH]; [reflexivity |].
    simpl in Hall. apply andb_prop in Hall as [Hs Hall].
    apply String.eqb_eq in Hs. subst s.
    change (existsb (fun s => in_strings s native_scripts) ("Latin"%string :: ws))
      with (existsb (fun s => in_strings s native_scripts) ws).
    exact (IH Hall).
Qed.

(** What [detect] returns when there is no ONNX model, case by case. *)
Lemma detect_cases (text : Py.pystr) (toks : list TaggedToken)
    (hint : string) (conf : Q) (usc : bool) :
  let r := cls (detect None text toks hint conf usc) in
  r = ambiguous_heuristic
  \/ (r = mkClass "pure_native" (95 # 100) "fast_lane" None
      /\ word_scripts toks <> []
      /\ forallb (fun s => in_strings s native_scripts) (word_scripts toks) = true
      /\ in_strings hint native_langs = true)
  \/ (r = mkClass "pure_english" conf "fast_lane" None
      /\ has_latin toks = true /\ has_native toks = false
      /\ hint = "en"%string /\ (85 # 100 < conf)%Q)
  \/ (r = mkClass "mixed" (85 # 100) "smart_checkpoint_fallback" None
      /\ has_latin toks = true /\ has_native toks = true)
  \/ (exists l rc,
        r = mkClass "romanized_indic" (py_max rc (70 # 100)) "smart_checkpoint_fallback" (Some l)
        /\ detect_romanized_language (Py.lower text) = (l, rc)
        /\ has_latin toks = true /\ has_native toks = false
        /\ in_strings hint native_langs = true)
  \/ (r = mkClass "pure_english" (75 # 100) "smart_checkpoint_fallback" None
      /\ has_latin toks = true /\ has_native toks = false /\ hint = "en"%string
      /\ (2 <= count_english_markers (Py.lower text))%nat)
  \/ (exists l rc,
        r = mkClass "romanized_indic" rc "smart_checkpoint_fallback" (Some l)
        /\ detect_romanized_language (Py.lower text) = (l, rc)
        /\ (6 # 10 < rc)%Q
        /\ has_latin toks = true /\ has_native toks = false /\ hint = "en"%string).
Proof.
  cbv zeta. unfold detect.
  destruct (heuristic_cases text toks hint conf) as [Hh | [[Hh Hrest] | [Hh Hrest]]];
    rewrite Hh; cbn [label ambiguous_heuristic in_strings existsb String.eqb Ascii.eqb
                     Bool.eqb orb andb cls].
  2:{ right. left. split; [reflexivity | exact Hrest]. }
  2:{ right. right. left. destruct Hrest as [Hne [Hlat [Hhint Hconf]]].
      destruct (all_latin_scripts _ Hne Hlat) as [H1 H2].
      split; [reflexivity |]. repeat split; assumption. }
  destruct usc; [| left; reflexivity].
  destruct (smart_checkpoint_cases text toks hint conf)
    as [[Hs Hrest] | [[l [rc [Hs Hrest]]] | [[Hs Hrest] | [[l [rc [Hs Hrest]]] | Hs]]]];
    cbv zeta in Hs; rewrite Hs; cbn [confidence].
  - right. right. right. left. split; [reflexivity | exact Hrest].
  - destruct (Qgt_bool (py_max rc (70 # 100)) (6 # 10)) eqn:Hgt.
    + right. right. right. right. left. exists l, rc. split; [reflexivity | exact Hrest].
    + left. reflexivity.
  - right. right. right. right. right. left. split; [reflexivity | exact Hrest].
  - destruct (Qgt_bool rc (6 # 10)) eqn:Hgt; [| left; reflexivity].
    right. right. right. right. right. right. exists l, rc.
    apply Qgt_bool_iff in Hgt. destruct Hrest as [Hr [_ Hrest]].
    split; [reflexivity |]. split; [exact Hr |]. split; [exact Hgt | exact Hrest].
  - left. reflexivity.
Qed.

(** X11.  Whatever the ONNX session answers, [detect] returns one of the
    five labels, and its method is one of [fast_lane], [heuristic],
    [smart_checkpoint_fallback] and [onnx]: a failed inference
    ([onnx_failed]) never reaches the caller. *)
Theorem detect_labels_and_methods
    (onnx : option (Py.pystr -> list TaggedToken -> option (nat * Q)))
    (text : Py.pystr) (toks : list TaggedToken) (hint : string) (conf : Q)
    (use_smart_checkpoint : bool) :
  let r := cls (detect onnx text toks hint conf use_smart_checkpoint) in
  In (label r) class_labels
  /\ In (method r) ["fast_lane"; "heuristic"; "smart_checkpoint_fallback"; "onnx"]%string.
Proof.
  cbv zeta. destruct onnx as [run |].
  - unfold detect.
    destruct (heuristic_cases text toks hint conf) as [Hh | [[Hh _] | [Hh _]]];
      rewrite Hh; cbn [label ambiguous_heuristic in_strings existsb String.eqb Ascii.eqb
                       Bool.eqb orb andb cls method].
    2,3: split; simpl; tauto.
    destruct use_smart_checkpoint; cbn [andb cls label method]; [| split; simpl; tauto].
    unfold _classify_smart_checkpoint, _classify_with_onnx.
    destruct (run text toks) as [[predicted_class c] |]; [| split; simpl; tauto].
    destruct (nth_error class_labels predicted_class) as [l |] eqn:Hl;
      [| split; simpl; tauto].
    cbn [confidence]. destruct (Qgt_bool c (6 # 10)); [| split; simpl; tauto].
    cbn [cls label method]. split; [| simpl; tauto].
    apply nth_error_In in Hl. exact Hl.
  - destruct (detect_cases text toks hint conf use_smart_checkpoint)
      as [H | [[H _] | [[H _] | [[H _] | [[l [rc [H _]]] | [[H _] | [l [rc [H _]]]]]]]]];
      cbv zeta in H; rewrite H; split; simpl; tauto.
Qed.

Lemma py_max_lower (a b : Q) : (b <= py_max a b)%Q.
Proof.
  unfold py_max. destruct (Qgt_bool b a) eqn:E; [apply Qle_refl |].
  apply Qgt_bool_false_iff in E. exact E.
Qed.

Lemma py_max_upper (a b c : Q) : (a <= c)%Q -> (b <= c)%Q -> (py_max a b <= c)%Q.
Proof. intros Ha Hb. unfold py_max. destruct (Qgt_bool b a); assumption. Qed.

Lemma romanized_conf_upper (text : Py.pystr) (l : string) (rc : Q) :
  detect_romanized_language text = (l, rc) -> (rc <= 1)%Q.
Proof.
  intros H. destruct (detect_romanized_language_cases text) as [Hn | [_ [_ Hup]]].
  - rewrite H in Hn. injection Hn as _ ->. discriminate.
  - rewrite H in Hup. exact Hup.
Qed.

(** X12.  Without an ONNX model (as the orchestrator builds the detector),
    the confidence [detect] reports is at least 0.5, and at most 1 when the
    language confidence is; the result is marked [skip_step5] exactly when
    its label is [pure_english] or [pure_native] (the 0.75 threshold never
    decides); and an [ambiguous] result is always the Fast Lane's, at 0.5. *)
Theorem detect_without_onnx
    (text : Py.pystr) (toks : list TaggedToken) (hint : string) (conf : Q)
    (use_smart_checkpoint : bool) :
  let d := detect None text toks hint conf use_smart_checkpoint in
  (1 # 2 <= confidence (cls d))%Q
  /\ ((conf <= 1)%Q -> (confidence (cls d) <= 1)%Q)
  /\ (skip_step5 d = true <->
      label (cls d) = "pure_english"%string \/ label (cls d) = "pure_native"%string)
  /\ (label (cls d) = "ambiguous"%string -> cls d = ambiguous_heuristic).
Proof.
  cbv zeta.
  pose proof (detect_flag None text toks hint conf use_smart_checkpoint) as Hflag.
  cbv zeta in Hflag. rewrite Hflag.
  destruct (detect_cases text toks hint conf use_smart_checkpoint)
    as [H | [[H _] | [[H [_ [_ [_ Hc]]]] | [[H _] | [[l [rc [H [Hr _]]]] | [[H _] |
        [l [rc [H [Hr [Hc _]]]]]]]]]]];
    cbv zeta in H; rewrite H; cbn [confidence label ambiguous_heuristic].
  - split; [discriminate |]. split; [intros _; discriminate |].
    split; [| reflexivity].
    split; [discriminate | intros [E | E]; discriminate E].
  - split; [discriminate |]. split; [intros _; discriminate |].
    split; [| discriminate].
    split; [intros _; right; reflexivity | reflexivity].
  - split; [apply Qlt_le_weak; eapply Qle_lt_trans; [| exact Hc]; discriminate |].
    split; [tauto |]. split; [| discriminate].
    split; [intros _; left; reflexivity |].
    intros _. apply should_skip_step5_spec. left. split; [reflexivity |].
    cbn [confidence]. apply Qlt_le_weak. eapply Qle_lt_trans; [| exact Hc]. discriminate.
  - split; [discriminate |]. split; [intros _; discriminate |].
    split; [| discriminate].
    split; [discriminate | intros [E | E]; discriminate E].
  - split; [eapply Qle_trans; [| apply py_max_lower]; discriminate |].
    split; [intros _; apply py_max_upper;
            [exact (romanized_conf_upper _ _ _ Hr) | discriminate] |].
    split; [| discriminate].
    split; [discriminate | intros [E | E]; discriminate E].
  - split; [discriminate |]. split; [intros _; discriminate |].
    split; [| discriminate].
    split; [intros _; left; reflexivity | reflexivity].
  - split; [apply Qlt_le_weak; eapply Qle_lt_trans; [| exact Hc]; discriminate |].
    split; [intros _; exact (romanized_conf_upper _ _ _ Hr) |].
    split; [| discriminate].
    split; [discriminate | intros [E | E]; discriminate E].
Qed.

Lemma detect_without_onnx_witness :
  let d := detect None mujhe_query (tagged_tokens mujhe_step3) (language mujhe_step3)
                  (language_confidence mujhe_step3) true in
  (confidence (cls d) <= 1)%Q /\ skip_step5 d = false.
Proof.
  cbv zeta.
  destruct (detect_without_onnx mujhe_query (tagged_tokens mujhe_step3)
              (language mujhe_step3) (language_confidence mujhe_step3) true)
    as [_ [Hup [Hskip _]]].
  split.
  - apply Hup. vm_compute. discriminate.
  - destruct (skip_step5 _) eqn:E; [| reflexivity].
    destruct Hskip as [Hskip _]. destruct (Hskip eq_refl) as [H | H];
      vm_compute in H; discriminate H.
Defined.

(** X13.  Without an ONNX model the label agrees with the script tags:
    [pure_native] needs word tokens that are all in a native script and a
    native language hint; [pure_english] a Latin token, no native token and
    the hint [en]; [mixed] both a Latin and a native token;
    [romanized_indic] a Latin token, no native token and a native or
    English hint, and it names the romanized language, possibly [none]. *)
Theorem detect_label_matches_scripts
    (text : Py.pystr) (toks : list TaggedToken) (hint : string) (conf : Q)
    (use_smart_checkpoint : bool) :
  let r := cls (detect None text toks hint conf use_smart_checkpoint) in
  (label r = "pure_native"%string ->
     word_scripts toks <> []
     /\ forallb (fun s => in_strings s native_scripts) (word_scripts toks) = true
     /\ in_strings hint native_langs = true)
  /\ (label r = "pure_english"%string ->
       has_latin toks = true /\ has_native toks = false /\ hint = "en"%string)
  /\ (label r = "mixed"%string ->
       has_latin toks = true /\ has_native toks = true)
  /\ (label r = "romanized_indic"%string ->
       has_latin toks = true /\ has_native toks = false
       /\ (in_strings hint native_langs = true \/ hint = "en"%string)
       /\ exists l, romanized_language r = Some l
                    /\ In l ["none"; "hindi"; "bengali"; "tamil"; "telugu"]%string).
Proof.
  cbv zeta.
  assert (Hlang : forall t l rc, detect_romanized_language t = (l, rc) ->
            In l ["none"; "hindi"; "bengali"; "tamil"; "telugu"]%string).
  { intros t l rc Hr. destruct (detect_romanized_language_cases t) as [Hn | [Hin _]].
    - rewrite Hr in Hn. injection Hn as -> _. left. reflexivity.
    - rewrite Hr in Hin. right. exact Hin. }
  destruct (detect_cases text toks hint conf use_smart_checkpoint)
    as [H | [[H Hrest] | [[H Hrest] | [[H Hrest] | [[l [rc [H Hrest]]] | [[H Hrest] |
        [l [rc [H Hrest]]]]]]]]];
    cbv zeta in H; rewrite H; cbn [label romanized_language ambiguous_heuristic].
  - repeat split; discriminate.
  - split; [intros _; exact Hrest |]. repeat split; discriminate.
  - split; [discriminate |]. split; [intros _; tauto |]. split; discriminate.
  - split; [discriminate |]. split; [discriminate |].
    split; [intros _; exact Hrest | discriminate].
  - split; [discriminate |]. split; [discriminate |]. split; [discriminate |].
    intros _. destruct Hrest as [Hr [H1 [H2 H3]]].
    split; [exact H1 |]. split; [exact H2 |]. split; [left; exact H3 |].
    exists l. split; [reflexivity | exact (Hlang _ _ _ Hr)].
  - split; [discriminate |]. split; [intros _; tauto |]. split; discriminate.
  - split; [discriminate |]. split; [discriminate |]. split; [discriminate |].
    intros _. destruct Hrest as [Hr [_ [H1 [H2 H3]]]].
    split; [exact H1 |]. split; [exact H2 |]. split; [right; exact H3 |].
    exists l. split; [reflexivity | exact (Hlang _ _ _ Hr)].
Qed.

Lemma detect_label_matches_scripts_witness :
  has_latin (tagged_tokens mujhe_step3) = true
  /\ has_native (tagged_tokens mujhe_step3) = false
  /\ word_scripts (tagged_tokens hindi_step3) <> [].
Proof.
  destruct (detect_label_matches_scripts mujhe_query (tagged_tokens mujhe_step3)
              (language mujhe_step3) (language_confidence mujhe_step3) true)
    as [_ [_ [_ Hrom]]].
  destruct (detect_label_matches_scripts hindi_query (tagged_tokens hindi_step3)
              (language hindi_step3) (language_confidence hindi_step3) true)
    as [Hnat _].
  destruct Hrom as [H1 [H2 _]]; [vm_compute; reflexivity |].
  destruct Hnat as [H3 _]; [vm_compute; reflexivity |].
  split; [exact H1 |]. split; [exact H2 | exact H3].
Defined.

End DetectorFacts.

(** ** The transliteration client and what Step 5 sends to it *)

Module ClientFacts.

Import TransliterationClient Transliteration.
Import Examples.

Lemma key_eqb_refl (k : CacheKey) : key_eqb k k = true.
Proof.
  destruct k as [[t l] p]. unfold key_eqb.
  rewrite InputHandlerFacts.eqb_refl, String.eqb_refl, Bool.eqb_reflx. reflexivity.
Qed.

Lemma lru_find_touch (k : CacheKey) (v : Py.pystr) (c : list (CacheKey * Py.pystr)) :
  lru_find key_eqb k (lru_touch key_eqb k v c) = Some v.
Proof. unfold lru_touch. simpl. rewrite key_eqb_refl. reflexivity. Qed.

Lemma lru_find_store (k : CacheKey) (v : Py.pystr) (c : list (CacheKey * Py.pystr)) :
  lru_find key_eqb k (lru_store (N.to_nat 10000) k v c) = Some v.
Proof.
  unfold lru_store.
  assert (Hn : exists n, N.to_nat 10000 = S n) by (exists (N.to_nat 9999); lia).
  destruct Hn as [n ->]. simpl. rewrite key_eqb_refl. reflexivity.
Qed.

(** X14.  A text the client has transliterated once is answered from its
    cache: repeating a call that returned gives the same text, sends no
    request (the later state of the service does not matter) and leaves the
    client healthy. *)
Theorem transliterate_repeat_is_cached
    (service service_later : Py.pystr -> string -> bool -> Response)
    (c c1 : Client) (text : Py.pystr) (target_language : string)
    (preserve_english : bool) (v : Py.pystr) :
  transliterate service c text target_language preserve_english = (Returned v, c1) ->
  let r := transliterate service_later c1 text target_language preserve_english in
  fst r = Returned v
  /\ posts (snd r) = posts c1
  /\ _is_healthy (snd r) = true.
Proof.
  unfold transliterate at 1. cbn [_is_healthy].
  destruct (_is_healthy c) eqn:Hh; cbn [negb]; [| discriminate].
  unfold _transliterate_cached. cbn [cache calls posts _is_healthy].
  assert (Hhit : forall c1,
    _is_healthy c1 = true ->
    lru_find key_eqb (text, target_language, preserve_english) (cache c1) = Some v ->
    let r := transliterate service_later c1 text target_language preserve_english in
    fst r = Returned v /\ posts (snd r) = posts c1 /\ _is_healthy (snd r) = true).
  { intros c2 H2 Hfind. unfold transliterate. cbn [_is_healthy]. rewrite H2. cbn [negb].
    unfold _transliterate_cached. cbn [cache calls posts _is_healthy].
    rewrite Hfind. cbn [fst snd posts _is_healthy]. repeat split; exact H2. }
  destruct (lru_find key_eqb (text, target_language, preserve_english) (cache c))
    as [v0 |] eqn:Hfind.
  - intros H. injection H as <- <-. apply Hhit; [reflexivity |].
    cbn [cache]. apply lru_find_touch.
  - destruct (service text target_language preserve_english) as [tr | | |];
      try discriminate.
    intros H. injection H as <- <-. apply Hhit; [reflexivity |].
    cbn [cache]. apply lru_find_store.
Qed.

Lemma transliterate_repeat_is_cached_witness :
  let first := transliterate echo_service fresh_client mujhe_query "hi" true in
  let r := transliterate (fun _ _ _ => ConnectionError) (snd first) mujhe_query "hi" true in
  fst r = Returned mujhe_query
  /\ posts (snd r) = posts (snd first)
  /\ _is_healthy (snd r) = true.
Proof.
  apply (transliterate_repeat_is_cached echo_service (fun _ _ _ => ConnectionError)
           fresh_client _ mujhe_query "hi" true mujhe_query).
  vm_compute. reflexivity.
Defined.

(** X15.  A lost connection disables the client: when the request of a
    healthy client fails with a connection error, the call raises
    [RuntimeError], and from then on every call of [transliterate] raises
    [RuntimeError] without a request, also for texts that are in the
    cache. *)
Theorem connection_lost_disables_client
    (service : Py.pystr -> string -> bool -> Response)
    (c : Client) (text : Py.pystr) (target_language : string) (preserve_english : bool) :
  _is_healthy c = true ->
  lru_find key_eqb (text, target_language, preserve_english) (cache c) = None ->
  service text target_language preserve_english = ConnectionError ->
  let r := transliterate service c text target_language preserve_english in
  fst r = Raised "RuntimeError"
  /\ _is_healthy (snd r) = false
  /\ cache (snd r) = cache c
  /\ forall service_later text' target' preserve',
       transliterate service_later (snd r) text' target' preserve'
       = (Raised "RuntimeError",
          mkClient false (cache c) (calls (snd r) ++ [(text', target')]) (posts (snd r))).
Proof.
  intros Hh Hfind Hserv. cbv zeta.
  assert (Hfirst : transliterate service c text target_language preserve_english
                   = (Raised "RuntimeError",
                      mkClient false (cache c) (calls c ++ [(text, target_language)])
                               (posts c ++ [(text, target_language)]))).
  { unfold transliterate. cbn [_is_healthy]. rewrite Hh. cbn [negb].
    unfold _transliterate_cached. cbn [cache calls posts _is_healthy].
    rewrite Hfind, Hserv. reflexivity. }
  rewrite Hfirst. cbn [fst snd _is_healthy cache calls posts].
  split; [reflexivity |]. split; [reflexivity |]. split; [reflexivity |].
  intros service_later text' target' preserve'. reflexivity.
Qed.

Lemma connection_lost_disables_client_witness :
  let r := transliterate (fun _ _ _ => ConnectionError) fresh_client mujhe_query "hi" true in
  fst r = Raised "RuntimeError"
  /\ _is_healthy (snd r) = false
  /\ cache (snd r) = cache fresh_client
  /\ forall service_later text' target' preserve',
       transliterate service_later (snd r) text' target' preserve'
       = (Raised "RuntimeError",
          mkClient false (cache fresh_client) (calls (snd r) ++ [(text', target')])
                   (posts (snd r))).
Proof.
  apply (connection_lost_disables_client (fun _ _ _ => ConnectionError) fresh_client
           mujhe_query "hi" true); reflexivity.
Defined.

(** *** What Step 5 sends to the client *)

Lemma dict_get_cases (d : list (string * string)) (k default : string) :
  dict_get d k default = default \/ In (dict_get d k default) (map snd d).
Proof.
  induction d as [| [k' v] d IH]; simpl; [left; reflexivity |].
  destruct (String.eqb k k'); [right; left; reflexivity |].
  destruct IH as [H | H]; [left; exact H | right; right; exact H].
Qed.

Lemma normalization_values_fixed :
  forallb (fun v => String.eqb (dict_get lang_normalization v v) v)
          (map snd lang_normalization) = true.
Proof. vm_compute. reflexivity. Qed.

Lemma resolve_target_normalized (target_lang : string) (romanized_language : option string) :
  dict_get lang_normalization (resolve_target target_lang romanized_language)
           (resolve_target target_lang romanized_language)
  = resolve_target target_lang romanized_language.
Proof.
  unfold resolve_target.
  set (t := match romanized_language with
            | Some name =>
                if String.eqb name "" then target_lang
                else dict_get LANGUAGE_NAME_TO_ISO (lower_string name) target_lang
            | None => target_lang
            end).
  destruct (dict_get_cases lang_normalization t t) as [H | H].
  - rewrite H. exact H.
  - pose proof normalization_values_fixed as Hfix. rewrite forallb_forall in Hfix.
    apply String.eqb_eq. apply Hfix. exact H.
Qed.

(** X16.  Step 5 either passes the query through with the client
    untouched, or calls [transliterate] exactly once, with the query and the
    resolved target language, and sends at most one request; it does so
    only for a query flagged as romanized, and the target is then a
    normalized code other than [en] that the service supports. *)
Theorem process_contacts_client_at_most_once
    (service : Py.pystr -> string -> bool -> Response)
    (supported_languages : list string) (c : Client) (query : Py.pystr)
    (flags : LanguageFlags) (target_lang : string) (romanized_language : option string) :
  let r := process service supported_languages c query flags target_lang
                   romanized_language in
  let target := resolve_target target_lang romanized_language in
  (r = (Returned (passthrough query flags), c))
  \/ (calls (snd r) = calls c ++ [(query, target)]
      /\ (posts (snd r) = posts c \/ posts (snd r) = posts c ++ [(query, target)])
      /\ romanized flags = true
      /\ target <> "en"%string
      /\ in_strings target supported_languages = true
      /\ dict_get lang_normalization target target = target).
Proof.
  cbv zeta. unfold process.
  destruct (native flags && negb (romanized flags)) eqn:H1; [left; reflexivity |].
  destruct (negb (romanized flags) && negb (native flags)) eqn:H2; [left; reflexivity |].
  destruct (String.eqb_spec (resolve_target target_lang romanized_language) "en")
    as [Hen | Hen]; [left; reflexivity |].
  destruct (in_strings (resolve_target target_lang romanized_language) supported_languages)
    eqn:Hsup; cbn [negb]; [| left; reflexivity].
  right.
  assert (Hrom : romanized flags = true).
  { destruct (romanized flags), (native flags); try reflexivity; discriminate. }
  assert (Hcalls :
    calls (snd (transliterate service c query
                  (resolve_target target_lang romanized_language) true))
    = calls c ++ [(query, resolve_target target_lang romanized_language)]
    /\ (posts (snd (transliterate service c query
                      (resolve_target target_lang romanized_language) true)) = posts c
        \/ posts (snd (transliterate service c query
                         (resolve_target target_lang romanized_language) true))
           = posts c ++ [(query, resolve_target target_lang romanized_language)])).
  { unfold transliterate. cbn [_is_healthy].
    destruct (negb (_is_healthy c)); [split; [reflexivity | left; reflexivity] |].
    unfold _transliterate_cached. cbn [cache calls posts _is_healthy].
    destruct (lru_find key_eqb _ (cache c));
      [split; [reflexivity | left; reflexivity] |].
    destruct (service query _ true); split; try reflexivity; right; reflexivity. }
  destruct (transliterate service c query
              (resolve_target target_lang romanized_language) true) as [[v | e] c'];
    cbn [snd] in *; destruct Hcalls as [Hc Hp];
    (split; [exact Hc |]; split; [exact Hp |]; split; [exact Hrom |];
     split; [exact Hen |]; split; [reflexivity | apply resolve_target_normalized]).
Qed.

End ClientFacts.

(** ** The transliteration client: failed requests *)

Module RetryFacts.

Import TransliterationClient Transliteration.
Import ClientFacts.
Import Examples.

(** X17.  A failed request is not cached and does not disable the
    client: when the request of a healthy client for an uncached text comes
    back with a bad status or times out, the call raises, the client stays
    healthy and its cache is unchanged, and the next call for the same text
    sends the request again and returns what the service then answers. *)
Theorem failed_request_is_not_cached
    (service service_later : Py.pystr -> string -> bool -> Response)
    (c : Client) (text : Py.pystr) (target_language : string) (preserve_english : bool)
    (v : Py.pystr) :
  _is_healthy c = true ->
  lru_find key_eqb (text, target_language, preserve_english) (cache c) = None ->
  service text target_language preserve_english = BadStatus
  \/ service text target_language preserve_english = Timeout ->
  service_later text target_language preserve_english = Ok200 v ->
  let r := transliterate service c text target_language preserve_english in
  let r' := transliterate service_later (snd r) text target_language preserve_english in
  (exists e, fst r = Raised e)
  /\ _is_healthy (snd r) = true
  /\ cache (snd r) = cache c
  /\ fst r' = Returned v
  /\ posts (snd r') = posts c ++ [(text, target_language); (text, target_language)].
Proof.
  intros Hh Hfind Hfail Hlater. cbv zeta.
  assert (Hfirst : exists e,
            transliterate service c text target_language preserve_english
            = (Raised e,
               mkClient true (cache c) (calls c ++ [(text, target_language)])
                        (posts c ++ [(text, target_language)]))).
  { unfold transliterate. cbn [_is_healthy]. rewrite Hh. cbn [negb].
    unfold _transliterate_cached. cbn [cache calls posts _is_healthy].
    rewrite Hfind.
    destruct Hfail as [-> | ->]; eexists; reflexivity. }
  destruct Hfirst as [e Hfirst]. rewrite Hfirst. cbn [fst snd _is_healthy cache].
  split; [exists e; reflexivity |]. split; [reflexivity |]. split; [reflexivity |].
  unfold transliterate. cbn [_is_healthy negb].
  unfold _transliterate_cached. cbn [cache calls posts _is_healthy].
  rewrite Hfind, Hlater. cbn [fst snd posts].
  split; [reflexivity |]. rewrite <- app_assoc. reflexivity.
Qed.

Lemma failed_request_is_not_cached_witness :
  let r := transliterate (fun _ _ _ => Timeout) fresh_client mujhe_query "hi" true in
  let r' := transliterate echo_service (snd r) mujhe_query "hi" true in
  (exists e, fst r = Raised e)
  /\ _is_healthy (snd r) = true
  /\ cache (snd r) = cache fresh_client
  /\ fst r' = Returned mujhe_query
  /\ posts (snd r') = posts fresh_client ++ [(mujhe_query, "hi"%string); (mujhe_query, "hi"%string)].
Proof.
  apply (failed_request_is_not_cached (fun _ _ _ => Timeout) echo_service fresh_client
           mujhe_query "hi" true mujhe_query); try reflexivity.
  right. reflexivity.
Defined.

End RetryFacts.

(** ** The orchestrator: where Step 5 sends each kind of query *)

Module RoutingFacts.

Import CodeMixDetector TransliterationClient Transliteration Pipeline Tokenizer.
Import CodeMixFacts DetectorFacts ClientFacts.
Import Examples.

Lemma state_eta (st : State) :
  mkState (translate_cache st) (cache_misses st) (client st) = st.
Proof. destruct st. reflexivity. Qed.

Section Routing.

Variable service : Py.pystr -> string -> bool -> Response.
Variable supported_languages : list string.

Lemma step5_mixed (st : State) (text : Py.pystr) (lang : string) (conf : Q)
    (d : Detection) :
  label (cls d) = "mixed"%string ->
  step5 service supported_languages st text lang conf d = (Returned text, st).
Proof.
  intros Hl. unfold step5. rewrite Hl.
  cbn [String.eqb Ascii.eqb Bool.eqb andb in_strings existsb orb].
  unfold process. cbn [romanized native negb andb passthrough normalized_query].
  rewrite state_eta. reflexivity.
Qed.

Lemma step5_english (st : State) (text : Py.pystr) (lang : string) (conf c : Q)
    (m : string) (rl : option string) (flag : bool) :
  (70 # 100 < c)%Q ->
  step5 service supported_languages st text lang conf
        (mkDetection (mkClass "pure_english" c m rl) flag) = (Returned text, st).
Proof.
  intros Hc. unfold step5. cbn [cls label confidence].
  apply Qgt_bool_iff in Hc. rewrite Hc. reflexivity.
Qed.

(** X18.  Steps 4 and 5 of the orchestrator leave a query alone, and
    leave the caches and the client untouched, whenever Step 4 labels it
    [pure_english] (at any confidence the detector can report) or [mixed],
    and also when the label is [ambiguous] and Step 3 detected English. *)
Theorem english_and_mixed_bypass_step5 (st : State) (text : Py.pystr)
    (toks : list TaggedToken) (lang : string) (conf : Q) :
  let r := process_async_steps_4_5 service supported_languages st text toks lang conf in
  label (cls (fst r)) = "pure_english"%string
  \/ label (cls (fst r)) = "mixed"%string
  \/ (label (cls (fst r)) = "ambiguous"%string /\ lang = "en"%string) ->
  snd r = (Returned text, st).
Proof.
  cbv zeta. unfold process_async_steps_4_5. cbn [fst snd].
  intros [Hl | [Hl | [Hl Hen]]].
  - remember (detect None text toks lang conf true) as d eqn:Hd.
    destruct (detect_cases text toks lang conf true)
      as [H | [[H _] | [[H [_ [_ [_ Hc]]]] | [[H _] | [[l [rc [H _]]] | [[H _] |
          [l [rc [H _]]]]]]]]];
      cbv zeta in H; rewrite <- Hd in H; rewrite H in Hl; try discriminate Hl.
    + destruct d as [cl fl]. cbn [cls] in H. subst cl.
      apply step5_english. eapply Qlt_trans; [| exact Hc]. reflexivity.
    + destruct d as [cl fl]. cbn [cls] in H. subst cl.
      apply step5_english. reflexivity.
  - apply step5_mixed. exact Hl.
  - unfold step5. rewrite Hl, Hen. reflexivity.
Qed.

Lemma in_strings_In (x : string) (xs : list string) :
  in_strings x xs = true -> In x xs.
Proof.
  unfold in_strings. intros H. apply existsb_exists in H as [y [Hy Hxy]].
  apply String.eqb_eq in Hxy. subst y. exact Hy.
Qed.

Lemma cached_translate_cold_romanized (st : State) (text : Py.pystr) (lang : string)
    (conf : Q) :
  lru_find translate_key_eqb (text, lang, conf) (translate_cache st) = None ->
  in_strings lang ["hi"; "bn"; "te"; "ta"; "mr"; "gu"; "kn"; "ml"; "pa"]%string = true ->
  in_strings lang supported_languages = true ->
  calls (client (snd (_cached_translate service supported_languages st text lang conf)))
  = calls (client st) ++ [(text, lang)].
Proof.
  intros Hcold Hnine Hsup. unfold _cached_translate. rewrite Hcold.
  assert (Htarget : resolve_target (dict_get lang_map lang "hin_Deva") None = lang
                    /\ String.eqb lang "en" = false).
  { apply in_strings_In in Hnine. simpl in Hnine.
    repeat (destruct Hnine as [<- | Hnine]; [split; reflexivity |]). contradiction. }
  destruct Htarget as [Htarget Hen].
  unfold process. rewrite Htarget, Hen, Hsup, Hnine.
  rewrite orb_true_r. cbn [romanized native negb andb].
  unfold transliterate. cbn [_is_healthy cache calls posts].
  destruct (negb (_is_healthy (client st))); [reflexivity |].
  unfold _transliterate_cached. cbn [_is_healthy cache calls posts].
  destruct (lru_find key_eqb (text, lang, true) (cache (client st))); [reflexivity |].
  destruct (service text lang true); reflexivity.
Qed.

Lemma cached_translate_cold_other (st : State) (text : Py.pystr) (lang : string)
    (conf : Q) :
  lru_find translate_key_eqb (text, lang, conf) (translate_cache st) = None ->
  in_strings lang ["or"; "sa"; "as"]%string = true ->
  fst (_cached_translate service supported_languages st text lang conf) = Returned text
  /\ client (snd (_cached_translate service supported_languages st text lang conf))
     = client st.
Proof.
  intros Hcold Hlang. unfold _cached_translate. rewrite Hcold.
  apply in_strings_In in Hlang. simpl in Hlang.
  destruct Hlang as [<- | [<- | [<- | []]]]; split; reflexivity.
Qed.

(** X19.  A query Step 4 labels [pure_native] is marked [skip_step5], and
    on a cold translation cache the orchestrator routes it by the detected
    language: for Hindi, Bengali, Telugu, Tamil, Marathi, Gujarati, Kannada,
    Malayalam and Punjabi it calls the transliteration client with the query
    and that language whenever the service supports it; for Odia, Sanskrit
    and Assamese it returns the query and leaves the client alone. *)
Theorem pure_native_routing (st : State) (text : Py.pystr)
    (toks : list TaggedToken) (lang : string) (conf : Q) :
  let r := process_async_steps_4_5 service supported_languages st text toks lang conf in
  label (cls (fst r)) = "pure_native"%string ->
  lru_find translate_key_eqb (text, lang, conf) (translate_cache st) = None ->
  skip_step5 (fst r) = true
  /\ ((in_strings lang ["hi"; "bn"; "te"; "ta"; "mr"; "gu"; "kn"; "ml"; "pa"]%string = true
       /\ (in_strings lang supported_languages = true ->
           calls (client (snd (snd r))) = calls (client st) ++ [(text, lang)]))
      \/ (in_strings lang ["or"; "sa"; "as"]%string = true
          /\ fst (snd r) = Returned text
          /\ client (snd (snd r)) = client st)).
Proof.
  cbv zeta. unfold process_async_steps_4_5. cbn [fst snd].
  intros Hl Hcold.
  pose proof (detect_flag None text toks lang conf true) as Hflag. cbv zeta in Hflag.
  remember (detect None text toks lang conf true) as d eqn:Hd.
  destruct (detect_cases text toks lang conf true)
    as [H | [[H [_ [_ Hhint]]] | [[H _] | [[H _] | [[l [rc [H _]]] | [[H _] |
        [l [rc [H _]]]]]]]]];
    cbv zeta in H; rewrite <- Hd in H; rewrite H in Hl; try discriminate Hl.
  rewrite Hflag, H. split; [reflexivity |].
  assert (Hstep : step5 service supported_languages st text lang conf d
                  = _cached_translate service supported_languages st text lang conf).
  { unfold step5. rewrite H. reflexivity. }
  rewrite Hstep.
  apply in_strings_In in Hhint. unfold native_langs in Hhint. simpl in Hhint.
  destruct Hhint as [<- | [<- | [<- | [<- | [<- | [<- | [<- | [<- | [<- | [<- | [<- |
                     [<- | []]]]]]]]]]]]].
  1-8,10: left; split; [reflexivity |]; intros Hsup;
          apply cached_translate_cold_romanized; [exact Hcold | reflexivity | exact Hsup].
  all: right; split; [reflexivity |];
       apply cached_translate_cold_other; [exact Hcold | reflexivity].
Qed.

Lemma step5_romanized (st : State) (text : Py.pystr) (lang : string) (conf c : Q)
    (m l : string) (flag : bool) :
  l <> ""%string ->
  let target := dict_get lang_normalization
                  (dict_get LANGUAGE_NAME_TO_ISO (lower_string l) "en")
                  (dict_get LANGUAGE_NAME_TO_ISO (lower_string l) "en") in
  let r := step5 service supported_languages st text lang conf
                 (mkDetection (mkClass "romanized_indic" c m (Some l)) flag) in
  (target = "en"%string -> r = (Returned text, st))
  /\ (in_strings target supported_languages = false -> r = (Returned text, st))
  /\ (target <> "en"%string -> in_strings target supported_languages = true ->
      calls (client (snd r)) = calls (client st) ++ [(text, target)]
      /\ translate_cache (snd r) = translate_cache st).
Proof.
  intros Hl. cbv zeta. unfold step5. cbn [cls label confidence romanized_language].
  cbn [String.eqb Ascii.eqb Bool.eqb andb in_strings existsb orb].
  assert (Hres : resolve_target "en" (Some l)
                 = dict_get lang_normalization
                     (dict_get LANGUAGE_NAME_TO_ISO (lower_string l) "en")
                     (dict_get LANGUAGE_NAME_TO_ISO (lower_string l) "en")).
  { unfold resolve_target. apply String.eqb_neq in Hl. rewrite Hl. reflexivity. }
  unfold process. rewrite Hres. cbn [romanized native negb andb].
  set (target := dict_get lang_normalization
                   (dict_get LANGUAGE_NAME_TO_ISO (lower_string l) "en")
                   (dict_get LANGUAGE_NAME_TO_ISO (lower_string l) "en")).
  split; [| split].
  - intros ->. cbn [String.eqb Ascii.eqb Bool.eqb passthrough normalized_query].
    rewrite state_eta. reflexivity.
  - intros Hsup. rewrite Hsup. cbn [negb].
    destruct (String.eqb target "en"); cbn [passthrough normalized_query];
      rewrite state_eta; reflexivity.
  - intros Hen Hsup. apply String.eqb_neq in Hen. rewrite Hen, Hsup. cbn [negb].
    unfold transliterate. cbn [_is_healthy cache calls posts].
    destruct (negb (_is_healthy (client st))); [split; reflexivity |].
    unfold _transliterate_cached. cbn [_is_healthy cache calls posts].
    destruct (lru_find key_eqb (text, target, true) (cache (client st)));
      [split; reflexivity |].
    destruct (service text target true); split; reflexivity.
Qed.

(** X20.  For a query labelled [romanized_indic] the language sent to
    the transliteration client is the one Step 4's pattern scan names
    (Hindi, Bengali, Tamil or Telugu), not the language Step 3 detected:
    the client is called with that language's code when the service
    supports it; and when the scan named no language ([none]) the query is
    returned as it is, with nothing sent. *)
Theorem romanized_routing (st : State) (text : Py.pystr)
    (toks : list TaggedToken) (lang : string) (conf : Q) :
  let r := process_async_steps_4_5 service supported_languages st text toks lang conf in
  label (cls (fst r)) = "romanized_indic"%string ->
  exists l,
    romanized_language (cls (fst r)) = Some l
    /\ ((l = "none"%string /\ snd r = (Returned text, st))
        \/ exists iso,
             In (l, iso) [("hindi", "hi"); ("bengali", "bn"); ("tamil", "ta");
                          ("telugu", "te")]%string
             /\ (in_strings iso supported_languages = true ->
                 calls (client (snd (snd r))) = calls (client st) ++ [(text, iso)]
                 /\ translate_cache (snd (snd r)) = translate_cache st)
             /\ (in_strings iso supported_languages = false ->
                 snd r = (Returned text, st))).
Proof.
  cbv zeta. unfold process_async_steps_4_5. cbn [fst snd].
  intros Hl.
  assert (Hgen : forall d l,
    cls d = mkClass "romanized_indic" (confidence (cls d)) (method (cls d)) (Some l) ->
    In l ["none"; "hindi"; "bengali"; "tamil"; "telugu"]%string ->
    (l = "none"%string
     /\ step5 service supported_languages st text lang conf d = (Returned text, st))
    \/ exists iso,
         In (l, iso) [("hindi", "hi"); ("bengali", "bn"); ("tamil", "ta");
                      ("telugu", "te")]%string
         /\ (in_strings iso supported_languages = true ->
             calls (client (snd (step5 service supported_languages st text lang conf d)))
             = calls (client st) ++ [(text, iso)]
             /\ translate_cache (snd (step5 service supported_languages st text lang conf d))
                = translate_cache st)
         /\ (in_strings iso supported_languages = false ->
             step5 service supported_languages st text lang conf d = (Returned text, st))).
  { intros [cl fl] l Hcl Hin. cbn [cls] in Hcl. rewrite Hcl.
    simpl in Hin.
    destruct Hin as [<- | [<- | [<- | [<- | [<- | []]]]]].
    - left. split; [reflexivity |].
      pose proof (step5_romanized st text lang conf (confidence cl) (method cl) "none" fl)
        as H. cbv zeta in H. destruct H as [H1 _]; [discriminate |].
      apply H1. reflexivity.
    - right. exists "hi"%string. split; [simpl; tauto |].
      pose proof (step5_romanized st text lang conf (confidence cl) (method cl) "hindi" fl)
        as H. cbv zeta in H. destruct H as [_ [H2 H3]]; [discriminate |].
      split; [intros Hs; apply H3; [discriminate | exact Hs] | exact H2].
    - right. exists "bn"%string. split; [simpl; tauto |].
      pose proof (step5_romanized st text lang conf (confidence cl) (method cl) "bengali" fl)
        as H. cbv zeta in H. destruct H as [_ [H2 H3]]; [discriminate |].
      split; [intros Hs; apply H3; [discriminate | exact Hs] | exact H2].
    - right. exists "ta"%string. split; [simpl; tauto |].
      pose proof (step5_romanized st text lang conf (confidence cl) (method cl) "tamil" fl)
        as H. cbv zeta in H. destruct H as [_ [H2 H3]]; [discriminate |].
      split; [intros Hs; apply H3; [discriminate | exact Hs] | exact H2].
    - right. exists "te"%string. split; [simpl; tauto |].
      pose proof (step5_romanized st text lang conf (confidence cl) (method cl) "telugu" fl)
        as H. cbv zeta in H. destruct H as [_ [H2 H3]]; [discriminate |].
      split; [intros Hs; apply H3; [discriminate | exact Hs] | exact H2]. }
  assert (Hlang : forall t l rc, detect_romanized_language t = (l, rc) ->
            In l ["none"; "hindi"; "bengali"; "tamil"; "telugu"]%string).
  { intros t l rc Hr. destruct (detect_romanized_language_cases t) as [Hn | [Hin _]].
    - rewrite Hr in Hn. injection Hn as -> _. left. reflexivity.
    - rewrite Hr in Hin. right. exact Hin. }
  remember (detect None text toks lang conf true) as d eqn:Hd.
  destruct (detect_cases text toks lang conf true)
    as [H | [[H _] | [[H _] | [[H _] | [[l [rc [H [Hr _]]]] | [[H _] |
        [l [rc [H [Hr _]]]]]]]]]];
    cbv zeta in H; rewrite <- Hd in H; rewrite H in Hl; try discriminate Hl.
  - exists l. split; [rewrite H; reflexivity |].
    apply Hgen; [rewrite H; reflexivity | exact (Hlang _ _ _ Hr)].
  - exists l. split; [rewrite H; reflexivity |].
    apply Hgen; [rewrite H; reflexivity | exact (Hlang _ _ _ Hr)].
Qed.

End Routing.

Lemma english_and_mixed_bypass_step5_witness :
  snd headphones_request = (Returned headphones_query, fresh_state).
Proof.
  apply (english_and_mixed_bypass_step5 echo_service advertised_languages fresh_state
           headphones_query (tagged_tokens headphones_step3)
           (language headphones_step3) (language_confidence headphones_step3)).
  left. vm_compute. reflexivity.
Defined.

Lemma pure_native_routing_witness :
  skip_step5 (fst hindi_request) = true
  /\ calls (client (snd (snd hindi_request)))
     = calls (client fresh_state) ++ [(hindi_query, language hindi_step3)].
Proof.
  destruct (pure_native_routing echo_service advertised_languages fresh_state
              hindi_query (tagged_tokens hindi_step3)
              (language hindi_step3) (language_confidence hindi_step3))
    as [Hskip [[_ Hcalls] | [Hother _]]].
  - vm_compute. reflexivity.
  - reflexivity.
  - split; [exact Hskip |]. apply Hcalls. vm_compute. reflexivity.
  - vm_compute in Hother. discriminate Hother.
Defined.

Lemma romanized_routing_witness :
  exists l,
    romanized_language (cls (fst mujhe_request)) = Some l
    /\ ((l = "none"%string /\ snd mujhe_request = (Returned mujhe_query, fresh_state))
        \/ exists iso,
             In (l, iso) [("hindi", "hi"); ("bengali", "bn"); ("tamil", "ta");
                          ("telugu", "te")]%string
             /\ (in_strings iso advertised_languages = true ->
                 calls (client (snd (snd mujhe_request)))
                 = calls (client fresh_state) ++ [(mujhe_query, iso)]
                 /\ translate_cache (snd (snd mujhe_request))
                    = translate_cache fresh_state)
             /\ (in_strings iso advertised_languages = false ->
                 snd mujhe_request = (Returned mujhe_query, fresh_state))).
Proof.
  apply (romanized_routing echo_service advertised_languages fresh_state
           mujhe_query (tagged_tokens mujhe_step3)
           (language mujhe_step3) (language_confidence mujhe_step3)).
  vm_compute. reflexivity.
Defined.

End RoutingFacts.

(** ** The orchestrator's translation cache *)

Module TranslateCacheFacts.

Import CodeMixDetector TransliterationClient Transliteration Pipeline Tokenizer.
Import Examples.

Lemma translate_key_eqb_refl (k : TranslateKey) : translate_key_eqb k k = true.
Proof.
  destruct k as [[t l] q]. unfold translate_key_eqb.
  rewrite InputHandlerFacts.eqb_refl, String.eqb_refl. simpl.
  apply Qeq_bool_iff. apply Qeq_refl.
Qed.

Lemma lru_find_store_first {K V : Type} (key_eqb : K -> K -> bool)
    (maxsize : nat) (k : K) (v : V) (c : list (K * V)) :
  key_eqb k k = true -> (0 < maxsize)%nat ->
  lru_find key_eqb k (lru_store maxsize k v c) = Some v.
Proof.
  intros Hrefl Hpos. unfold lru_store.
  destruct maxsize as [| n]; [lia |].
  cbn [firstn lru_find]. rewrite Hrefl. reflexivity.
Qed.

(** X21.  A translation the orchestrator has obtained once is answered
    from its cache: repeating a [_cached_translate] call that returned, with
    the same text, language and confidence, gives the same text without
    touching the client and without counting a miss, whatever the service
    would answer now. *)
Theorem cached_translate_repeat
    (service service_later : Py.pystr -> string -> bool -> Response)
    (supported_languages supported_later : list string)
    (st st1 : State) (text : Py.pystr) (source_lang : string) (lang_confidence : Q)
    (v : Py.pystr) :
  _cached_translate service supported_languages st text source_lang lang_confidence
  = (Returned v, st1) ->
  let r := _cached_translate service_later supported_later st1 text source_lang
                             lang_confidence in
  fst r = Returned v
  /\ client (snd r) = client st1
  /\ cache_misses (snd r) = cache_misses st1.
Proof.
  intros Hfirst.
  assert (Hhit : forall st2,
    lru_find translate_key_eqb (text, source_lang, lang_confidence) (translate_cache st2)
    = Some v ->
    let r := _cached_translate service_later supported_later st2 text source_lang
                               lang_confidence in
    fst r = Returned v /\ client (snd r) = client st2
    /\ cache_misses (snd r) = cache_misses st2).
  { intros st2 Hfind. unfold _cached_translate. rewrite Hfind. repeat split. }
  apply Hhit. revert Hfirst. unfold _cached_translate.
  destruct (lru_find translate_key_eqb (text, source_lang, lang_confidence)
                     (translate_cache st)) as [v0 |] eqn:Hfind.
  - intros H. injection H as <- <-. cbn [translate_cache].
    unfold lru_touch. cbn [lru_find]. rewrite translate_key_eqb_refl. reflexivity.
  - destruct (process service supported_languages (client st) text _ _ None)
      as [[result | e] c']; [| discriminate].
    intros H. injection H as <- <-. cbn [translate_cache].
    apply lru_find_store_first; [apply translate_key_eqb_refl | lia].
Qed.

Lemma cached_translate_repeat_witness :
  let first := _cached_translate echo_service advertised_languages fresh_state
                                 hindi_query "hi" (99 # 100) in
  let r := _cached_translate (fun _ _ _ => ConnectionError) [] (snd first)
                             hindi_query "hi" (99 # 100) in
  fst r = Returned hindi_query
  /\ client (snd r) = client (snd first)
  /\ cache_misses (snd r) = cache_misses (snd first).
Proof.
  apply (cached_translate_repeat echo_service (fun _ _ _ => ConnectionError)
           advertised_languages [] fresh_state _ hindi_query "hi" (99 # 100) hindi_query).
  vm_compute. reflexivity.
Defined.

End TranslateCacheFacts.

(** ** Step 3: tokens, marker words, edge n-grams and the Unicode fallback *)

Module Step3Facts.

Import CodeMixDetector Tokenizer.
Import CodeMixFacts DetectorFacts TokenizerFacts.
Import Examples.

(** *** Tokens carry no surrounding white space *)

Lemma lstrip_fixed (s : Py.pystr) :
  Py.isspace_cp (hd 0%N s) = false -> Py.lstrip s = s.
Proof.
  destruct s as [| c s]; [reflexivity |]. simpl. intros H. rewrite H. reflexivity.
Qed.

Lemma lstrip_idem (s : Py.pystr) : Py.lstrip (Py.lstrip s) = Py.lstrip s.
Proof.
  induction s as [| c s IH]; [reflexivity |].
  simpl. destruct (Py.isspace_cp c) eqn:E; [exact IH |].
  simpl. rewrite E. reflexivity.
Qed.

Lemma lstrip_suffix (s : Py.pystr) : exists p, s = p ++ Py.lstrip s.
Proof.
  induction s as [| c s [p IH]]; [exists []; reflexivity |].
  simpl. destruct (Py.isspace_cp c).
  - exists (c :: p). simpl. rewrite <- IH. reflexivity.
  - exists []. reflexivity.
Qed.

Lemma strip_idem (s : Py.pystr) : Py.strip (Py.strip s) = Py.strip s.
Proof.
  unfold Py.strip.
  set (a := Py.lstrip s). set (b := Py.lstrip (rev a)).
  assert (Hb : Py.lstrip (rev b) = rev b).
  { destruct (lstrip_suffix (rev a)) as [p Hp]. fold b in Hp.
    assert (Ha : a = rev b ++ rev p).
    { rewrite <- (rev_involutive a), Hp, rev_app_distr. reflexivity. }
    destruct (rev b) as [| c r] eqn:Hr; [reflexivity |].
    simpl. assert (Hc : Py.isspace_cp c = false).
    { apply (lstrip_head s c (r ++ rev p)). fold a. rewrite Ha. reflexivity. }
    rewrite Hc. reflexivity. }
  rewrite Hb, rev_involutive. unfold b. rewrite lstrip_idem. reflexivity.
Qed.

Lemma strip_ends (t : Py.pystr) :
  Py.strip t = t -> t <> [] ->
  Py.isspace_cp (hd 0%N t) = false /\ Py.isspace_cp (last t 0%N) = false.
Proof.
  intros Hfix Hne. split.
  - destruct t as [| c r]; [congruence |].
    destruct (strip_head (c :: r) c r Hfix) as [H _]. exact H.
  - unfold Py.strip in Hfix.
    assert (Hrev : rev t = Py.lstrip (rev (Py.lstrip t))).
    { rewrite <- Hfix at 1. apply rev_involutive. }
    destruct (rev t) as [| c r] eqn:Hr.
    + exfalso. apply Hne. rewrite <- (rev_involutive t), Hr. reflexivity.
    + assert (Ht : t = rev r ++ [c]).
      { rewrite <- (rev_involutive t), Hr. reflexivity. }
      rewrite Ht, last_last.
      symmetry in Hrev. exact (lstrip_head _ _ _ Hrev).
Qed.

(** X22.  Whatever the Rust pre-tokenizer returns, a token of Step 3 is
    never empty and carries no white space at either end: stripping it
    again changes nothing. *)
Theorem tokens_are_stripped (pre_tokenize_str : Py.pystr -> list Py.pystr)
    (text t : Py.pystr) :
  In t (tokenize_icu_style pre_tokenize_str text) ->
  t <> [] /\ Py.strip t = t
  /\ Py.isspace_cp (hd 0%N t) = false /\ Py.isspace_cp (last t 0%N) = false.
Proof.
  intros Hin. apply tokenize_icu_style_In in Hin as [t0 [_ [Ht Hne]]].
  assert (Hfix : Py.strip t = t) by (rewrite <- Ht; apply strip_idem).
  split; [exact Hne |]. split; [exact Hfix |].
  apply strip_ends; assumption.
Qed.

(** *** Romanized marker words decide Step 3 and Step 4 *)

Lemma marker_words_nonempty (text : Py.pystr) :
  (2 <= hindi_matches text)%nat \/ (2 <= bengali_matches text)%nat -> text <> [].
Proof.
  intros H Hnil. subst text. vm_compute in H. lia.
Qed.

Lemma marker_words_language
    (fasttext_predict : Py.pystr -> Prediction)
    (smart_detector : option (Py.pystr -> option string * Q))
    (fallback : Py.pystr -> string * Q) (text : Py.pystr) :
  (2 <= hindi_matches text)%nat \/ (2 <= bengali_matches text)%nat ->
  _detect_script_uncached fasttext_predict smart_detector fallback text
  = ((if (bengali_matches text <=? hindi_matches text)%nat then "hi" else "bn")%string,
     65 # 100).
Proof.
  intros H. pose proof (marker_words_nonempty text H) as Hne.
  unfold _detect_script_uncached.
  destruct text as [| c0 text0] eqn:Htext; [congruence |].
  rewrite <- Htext in *.
  assert (Hm : (2 <=? hindi_matches text)%nat || (2 <=? bengali_matches text)%nat = true).
  { apply orb_true_iff. destruct H as [H | H]; [left | right]; apply Nat.leb_le; exact H. }
  rewrite Hm. reflexivity.
Qed.

Lemma all_latin_not_native (ws : list string) :
  ws <> [] -> forallb (fun s => String.eqb s "Latin") ws = true ->
  forallb (fun s => in_strings s native_scripts) ws = false.
Proof.
  intros Hne Hall. destruct ws as [| s ws]; [congruence |].
  simpl in Hall. apply andb_prop in Hall as [Hs _].
  apply String.eqb_eq in Hs. subst s. reflexivity.
Qed.

(** X23.  Two or more romanized Hindi (or Bengali) marker words decide
    language identification: the answer is [hi] or [bn] at 0.65, whatever
    fastText, the smart detector and the fallback would say.  When the text
    is ASCII and has a token that is not a number, Step 4 (without ONNX)
    then labels it [romanized_indic] through the smart checkpoint, with a
    confidence of at least 0.70, names the language its pattern scan finds,
    and leaves [skip_step5] false. *)
Theorem romanized_marker_path
    (fasttext_predict : Py.pystr -> Prediction)
    (smart_detector : option (Py.pystr -> option string * Q))
    (fallback : Py.pystr -> string * Q)
    (pre_tokenize_str : Py.pystr -> list Py.pystr)
    (text : Py.pystr) :
  (2 <= hindi_matches text)%nat \/ (2 <= bengali_matches text)%nat ->
  _detect_script_uncached fasttext_predict smart_detector fallback text
  = ((if (bengali_matches text <=? hindi_matches text)%nat then "hi" else "bn")%string,
     65 # 100)
  /\ (has_only_ascii text = true ->
      (forall t c, In t (pre_tokenize_str text) -> In c t -> In c text) ->
      (exists t, In t (tokenize_icu_style pre_tokenize_str text) /\ Py.isdigit t = false) ->
      let r := tokenize_step3_strict fasttext_predict smart_detector fallback
                                     pre_tokenize_str text in
      let d := detect None text (tagged_tokens r) (language r) (language_confidence r)
                      true in
      label (cls d) = "romanized_indic"%string
      /\ method (cls d) = "smart_checkpoint_fallback"%string
      /\ (70 # 100 <= confidence (cls d))%Q
      /\ romanized_language (cls d)
         = Some (fst (CodeMixDetector.detect_romanized_language (Py.lower text)))
      /\ skip_step5 d = false).
Proof.
  intros Hmark.
  pose proof (marker_words_language fasttext_predict smart_detector fallback text Hmark)
    as Hlid.
  split; [exact Hlid |].
  intros Hascii Hcut Hword r d.
  pose proof (marker_words_nonempty text Hmark) as Hne.
  pose proof (ascii_word_scripts_latin fasttext_predict smart_detector fallback
                pre_tokenize_str text Hne Hascii Hcut) as Hlatin.
  pose proof (ascii_word_scripts_nonempty fasttext_predict smart_detector fallback
                pre_tokenize_str text Hne Hascii Hcut Hword) as Hnonempty.
  fold r in Hlatin, Hnonempty.
  assert (Hr : language r
               = (if (bengali_matches text <=? hindi_matches text)%nat
                  then "hi" else "bn")%string).
  { subst r. unfold tokenize_step3_strict.
    destruct text as [| c0 text0] eqn:Htext; [congruence |].
    rewrite <- Htext in *. rewrite Hlid. reflexivity. }
  assert (Hhint : in_strings (language r) native_langs = true
                  /\ String.eqb (language r) "en" = false).
  { rewrite Hr. destruct (bengali_matches text <=? hindi_matches text)%nat;
      split; reflexivity. }
  destruct Hhint as [Hnative Hen].
  destruct (all_latin_scripts _ Hnonempty Hlatin) as [Hhas_latin Hhas_native].
  assert (Hd : d = mkDetection
                     (mkClass "romanized_indic"
                        (py_max (snd (CodeMixDetector.detect_romanized_language
                                        (Py.lower text))) (70 # 100))
                        "smart_checkpoint_fallback"
                        (Some (fst (CodeMixDetector.detect_romanized_language
                                      (Py.lower text)))))
                     false).
  { subst d. unfold detect.
    rewrite (detect_heuristic_rules text (tagged_tokens r) (language r)
               (language_confidence r) Hne Hnonempty).
    rewrite (all_latin_not_native _ Hnonempty Hlatin), Hen.
    rewrite andb_false_r. cbn [andb label ambiguous_heuristic in_strings existsb
                               String.eqb Ascii.eqb Bool.eqb orb].
    unfold _classify_smart_checkpoint.
    rewrite Hhas_latin, Hhas_native, Hnative. cbn [andb].
    destruct (CodeMixDetector.detect_romanized_language (Py.lower text)) as [l rc].
    cbn [confidence fst snd].
    assert (Hgt : Qgt_bool (py_max rc (70 # 100)) (6 # 10) = true).
    { apply Qgt_bool_iff. eapply Qlt_le_trans; [| apply py_max_lower]. reflexivity. }
    rewrite Hgt. reflexivity. }
  rewrite Hd. cbn [cls label method confidence romanized_language skip_step5].
  repeat split. apply py_max_lower.
Qed.

Lemma romanized_marker_path_witness :
  _detect_script_uncached no_model None no_fallback mujhe_query = ("hi"%string, 65 # 100)
  /\ label (cls (detect None mujhe_query (tagged_tokens mujhe_step3)
                        (language mujhe_step3) (language_confidence mujhe_step3) true))
     = "romanized_indic"%string.
Proof.
  destruct (romanized_marker_path no_model None no_fallback Py.split mujhe_query)
    as [Hlid Hlabel].
  - left. vm_compute. lia.
  - split; [exact Hlid |].
    apply Hlabel.
    + vm_compute. reflexivity.
    + intros t c Ht Hc. vm_compute in Ht.
      repeat (destruct Ht as [<- | Ht]; [vm_compute in Hc |- *; tauto |]).
      destruct Ht.
    + exists (Py.str "mujhe"). split; vm_compute; auto.
Defined.

(** *** Edge n-grams *)

Lemma startswith_prefix (n : nat) (s : Py.pystr) : Py.startswith (firstn n s) s = true.
Proof.
  revert s. induction n as [| n IH]; intros s; [reflexivity |].
  destruct s as [| c s]; simpl; [reflexivity |].
  rewrite N.eqb_refl. apply IH.
Qed.

(** X24.  The edge n-grams of a token shorter than [min_gram] are the
    token alone; otherwise they are its prefixes of the lengths [min_gram]
    to [min(len(token), max_gram)], in increasing order, one each: every
    n-gram is a prefix of the token, of a length between [min_gram] and
    [max_gram], and the token itself is among them when it is no longer
    than [max_gram].  As [tokenize_production] calls it (tokens of seven or
    more characters, lengths 3 to 5) it gives the three prefixes of the
    lengths 3, 4 and 5. *)
Theorem generate_edge_ngrams_prefixes (token : Py.pystr) (min_gram max_gram : nat) :
  ((List.length token < min_gram)%nat ->
     generate_edge_ngrams token min_gram max_gram = [token])
  /\ ((min_gram <= List.length token)%nat ->
      List.length (generate_edge_ngrams token min_gram max_gram)
      = (Nat.min (List.length token) max_gram + 1 - min_gram)%nat
      /\ (forall k, (k < Nat.min (List.length token) max_gram + 1 - min_gram)%nat ->
            nth_error (generate_edge_ngrams token min_gram max_gram) k
            = Some (firstn (min_gram + k) token))
      /\ (forall g, In g (generate_edge_ngrams token min_gram max_gram) ->
            Py.startswith g token = true
            /\ (min_gram <= List.length g <= max_gram)%nat)
      /\ ((List.length token <= max_gram)%nat ->
            In token (generate_edge_ngrams token min_gram max_gram)))
  /\ ((7 <= List.length token)%nat ->
      generate_edge_ngrams token 3 5 = [firstn 3 token; firstn 4 token; firstn 5 token]).
Proof.
  unfold generate_edge_ngrams. split; [| split].
  - intros Hshort. apply Nat.ltb_lt in Hshort. rewrite Hshort. reflexivity.
  - intros Hlong. assert (Hf : (List.length token <? min_gram)%nat = false)
      by (apply Nat.ltb_ge; exact Hlong).
    rewrite Hf.
    assert (Hcount : (Nat.min (List.length token + 1) (max_gram + 1) - min_gram
                      = Nat.min (List.length token) max_gram + 1 - min_gram)%nat) by lia.
    rewrite Hcount.
    split; [rewrite length_map, length_seq; reflexivity |].
    split; [| split].
    + intros k Hk. rewrite nth_error_map, nth_error_seq.
      apply Nat.ltb_lt in Hk. rewrite Hk. reflexivity.
    + intros g Hg. apply in_map_iff in Hg as [i [<- Hi]]. apply in_seq in Hi.
      split; [apply startswith_prefix |].
      rewrite length_firstn. lia.
    + intros Hmax. apply in_map_iff. exists (List.length token).
      split; [apply firstn_all | apply in_seq; lia].
  - intros Hlong.
    assert (Hf : (List.length token <? 3)%nat = false) by (apply Nat.ltb_ge; lia).
    assert (Hn : (Nat.min (List.length token + 1) (5 + 1) - 3 = 3)%nat) by lia.
    rewrite Hf, Hn. reflexivity.
Qed.

Lemma generate_edge_ngrams_prefixes_witness :
  generate_edge_ngrams (Py.str "headphones") 3 5
  = [Py.str "hea"; Py.str "head"; Py.str "headp"]
  /\ In (Py.str "iphone") (generate_edge_ngrams (Py.str "iphone") 2 15)
  /\ generate_edge_ngrams (Py.str "a") 2 15 = [Py.str "a"].
Proof.
  destruct (generate_edge_ngrams_prefixes (Py.str "iphone") 2 15) as [_ [Hlong _]].
  destruct (generate_edge_ngrams_prefixes (Py.str "a") 2 15) as [Hshort _].
  destruct (generate_edge_ngrams_prefixes (Py.str "headphones") 3 5) as [_ [_ Hthree]].
  split; [apply Hthree; vm_compute; lia |]. split.
  - destruct Hlong as [_ [_ [_ Hin]]]; [vm_compute; lia |].
    apply Hin. vm_compute. lia.
  - apply Hshort. vm_compute. lia.
Defined.

(** *** The Unicode fallback of language identification *)

Lemma bump_total (script : string) (counts : list (string * nat)) :
  total_count (bump script counts) = S (total_count counts).
Proof.
  induction counts as [| [s n] counts IH]; [reflexivity |].
  simpl. destruct (String.eqb s script); simpl; [reflexivity |].
  rewrite IH. lia.
Qed.

Lemma bump_positive (script : string) (counts : list (string * nat)) :
  Forall (fun e => (0 < snd e)%nat) counts ->
  Forall (fun e => (0 < snd e)%nat) (bump script counts).
Proof.
  induction counts as [| [s n] counts IH]; intros H.
  - constructor; [simpl; lia | constructor].
  - inversion H as [| e l He Hl]; subst. simpl.
    destruct (String.eqb s script); constructor; simpl in *; try lia; auto.
Qed.

Lemma bump_keys (script : string) (counts : list (string * nat)) (P : string -> Prop) :
  P script -> Forall (fun e => P (fst e)) counts ->
  Forall (fun e => P (fst e)) (bump script counts).
Proof.
  intros Hs. induction counts as [| [s n] counts IH]; intros H.
  - constructor; [exact Hs | constructor].
  - inversion H as [| e l He Hl]; subst. simpl.
    destruct (String.eqb s script); constructor; simpl in *; auto.
Qed.

Lemma script_counts_total (text : Py.pystr) (acc : list (string * nat)) :
  total_count (fold_left count_step text acc)
  = (total_count acc + List.length (filter is_script_cp text))%nat.
Proof.
  revert acc. induction text as [| c text IH]; intros acc; simpl; [lia |].
  rewrite IH. unfold count_step.
  destruct (is_script_cp c); simpl; [rewrite bump_total |]; lia.
Qed.

Lemma script_counts_positive (text : Py.pystr) (acc : list (string * nat)) :
  Forall (fun e => (0 < snd e)%nat) acc ->
  Forall (fun e => (0 < snd e)%nat) (fold_left count_step text acc).
Proof.
  revert acc. induction text as [| c text IH]; intros acc H; simpl; [exact H |].
  apply IH. unfold count_step. destruct (is_script_cp c); [| exact H].
  apply bump_positive. exact H.
Qed.

Lemma script_cp_known (c : N) :
  is_script_cp c = true -> known_script (detect_script_unicode_fast c).
Proof.
  unfold is_script_cp, known_script, detect_script_unicode_fast.
  repeat match goal with
         | |- context [if ?b then _ else _] => destruct b
         end; intros H; try discriminate H; simpl; tauto.
Qed.

Lemma script_counts_known (text : Py.pystr) (acc : list (string * nat)) :
  Forall (fun e => known_script (fst e)) acc ->
  Forall (fun e => known_script (fst e)) (fold_left count_step text acc).
Proof.
  revert acc. induction text as [| c text IH]; intros acc H; simpl; [exact H |].
  apply IH. unfold count_step. destruct (is_script_cp c) eqn:E; [| exact H].
  apply bump_keys; [apply script_cp_known; exact E | exact H].
Qed.

Lemma max_count_In (cur : string * nat) (rest : list (string * nat)) :
  In (max_count cur rest) (map fst (cur :: rest)).
Proof.
  revert cur. induction rest as [| e rest IH]; intros cur; simpl; [left; reflexivity |].
  destruct (snd cur <? snd e)%nat.
  - right. apply IH.
  - destruct (IH cur) as [H | H]; [left; exact H | right; right; exact H].
Qed.

Lemma count_of_In (script : string) (counts : list (string * nat)) :
  In script (map fst counts) -> In (script, count_of script counts) counts.
Proof.
  induction counts as [| [s n] counts IH]; simpl; [tauto |].
  intros H. destruct (String.eqb_spec s script) as [-> | Hne].
  - left. reflexivity.
  - right. apply IH. destruct H as [H | H]; [contradiction | exact H].
Qed.

Lemma entry_le_total (e : string * nat) (counts : list (string * nat)) :
  In e counts -> (snd e <= total_count counts)%nat.
Proof.
  induction counts as [| e0 counts IH]; simpl; [tauto |].
  intros [-> | H]; [lia |]. specialize (IH H). lia.
Qed.

Lemma filter_none (p : N -> bool) (text : Py.pystr) :
  existsb p text = false -> List.length (filter p text) = 0%nat.
Proof.
  induction text as [| c text IH]; [reflexivity |].
  simpl. intros H. apply orb_false_iff in H as [Hc Hrest].
  rewrite Hc. apply IH. exact Hrest.
Qed.

Lemma fallback_unfold (c0 : N) (text0 : Py.pystr) :
  _detect_language_unicode_fallback (c0 :: text0)
  = match fold_left count_step (c0 :: text0) [] with
    | [] => ("unknown"%string, 0)
    | e :: rest =>
        if (List.length (filter is_script_cp (c0 :: text0)) =? 0)%nat
        then ("unknown"%string, 0)
        else (Transliteration.dict_get script_to_lang (max_count e rest) "unknown",
              inject_Z (Z.of_nat (count_of (max_count e rest) (e :: rest)))
              / inject_Z (Z.of_nat (List.length (filter is_script_cp (c0 :: text0)))))
    end.
Proof.
  unfold _detect_language_unicode_fallback. cbv zeta.
  destruct (fold_left count_step (c0 :: text0) []); reflexivity.
Qed.

(** X25.  The Unicode fallback answers [unknown] with confidence 0 when
    the text has no script character (only white space, digits and code
    points outside the scripts it knows, such as the rupee sign);
    otherwise it names one of the eleven languages of its script table,
    never [unknown], with a confidence above 0 and at most 1. *)
Theorem unicode_fallback_result (text : Py.pystr) :
  let r := _detect_language_unicode_fallback text in
  (existsb is_script_cp text = false -> r = ("unknown"%string, 0))
  /\ (existsb is_script_cp text = true ->
      In (fst r) fallback_languages
      /\ (0 < snd r)%Q /\ (snd r <= 1)%Q).
Proof.
  cbv zeta.
  destruct text as [| c0 text0]; [split; [reflexivity | discriminate] |].
  rewrite fallback_unfold.
  remember (c0 :: text0) as text eqn:Htext. clear Htext c0 text0.
  pose proof (script_counts_total text []) as Htotal. simpl in Htotal.
  pose proof (script_counts_positive text [] (Forall_nil _)) as Hpos.
  pose proof (script_counts_known text [] (Forall_nil _)) as Hknown.
  set (n := List.length (filter is_script_cp text)) in *.
  split.
  - intros Hnone.
    assert (Hn : n = 0%nat) by (apply filter_none; exact Hnone).
    rewrite Hn. destruct (fold_left count_step text []); reflexivity.
  - intros Hsome.
    assert (Hn : (0 < n)%nat).
    { unfold n. apply existsb_exists in Hsome as [c [Hin Hc]].
      assert (Hf : In c (filter is_script_cp text)) by (apply filter_In; split; assumption).
      destruct (filter is_script_cp text); [contradiction | simpl; lia]. }
    destruct (fold_left count_step text []) as [| e rest] eqn:Hcounts;
      [simpl in Htotal; lia |].
    assert (Hz : (n =? 0)%nat = false) by (apply Nat.eqb_neq; lia).
    rewrite Hz. cbn [fst snd].
    pose proof (max_count_In e rest) as Hin.
    apply count_of_In in Hin.
    set (k := max_count e rest) in *. set (m := count_of k (e :: rest)) in *.
    assert (Hm : (0 < m <= n)%nat).
    { split.
      - rewrite Forall_forall in Hpos. exact (Hpos _ Hin).
      - pose proof (entry_le_total _ _ Hin) as Hle. simpl in Hle. simpl in Htotal. lia. }
    split; [| split].
    + rewrite Forall_forall in Hknown. exact (Hknown _ Hin).
    + apply Qlt_shift_div_l.
      * change 0%Q with (inject_Z 0). rewrite <- Zlt_Qlt. lia.
      * rewrite Qmult_0_l. change 0%Q with (inject_Z 0). rewrite <- Zlt_Qlt. lia.
    + apply Qle_shift_div_r.
      * change 0%Q with (inject_Z 0). rewrite <- Zlt_Qlt. lia.
      * rewrite Qmult_1_l. rewrite <- Zle_Qle. lia.
Qed.

Lemma unicode_fallback_result_witness :
  _detect_language_unicode_fallback [0x20B9; 0x20; 0x35; 0x30; 0x30]%N = ("unknown"%string, 0)
  /\ fst (_detect_language_unicode_fallback hindi_query) = "hi"%string
  /\ (0 < snd (_detect_language_unicode_fallback hindi_query))%Q.
Proof.
  destruct (unicode_fallback_result [0x20B9; 0x20; 0x35; 0x30; 0x30]%N) as [Hnone _].
  destruct (unicode_fallback_result hindi_query) as [_ Hsome].
  split; [apply Hnone; vm_compute; reflexivity |].
  destruct Hsome as [_ [Hpos _]]; [vm_compute; reflexivity |].
  split; [vm_compute; reflexivity | exact Hpos].
Defined.

Lemma tokens_are_stripped_witness :
  Py.strip (Py.str "wireless") = Py.str "wireless".
Proof.
  destruct (tokens_are_stripped (fun _ => [Py.str " wireless  "; Py.str " "])
              headphones_query (Py.str "wireless")) as [_ [Hfix _]].
  - vm_compute. tauto.
  - exact Hfix.
Defined.

End Step3Facts.

(** ** Step 3: the script tags *)

Module ScriptTagFacts.

Import CodeMixDetector Tokenizer.
Import TokenizerFacts Step3Facts.
Import Examples.

Lemma script_fast_range (c : N) :
  In (detect_script_unicode_fast c)
     ("Space" :: "Number" :: "Other" :: script_names)%string.
Proof.
  unfold detect_script_unicode_fast, script_names.
  repeat match goal with
         | |- context [if ?b then _ else _] => destruct b
         end; simpl; tauto.
Qed.

Lemma token_counts_keys (t : Py.pystr) (acc : list (string * nat)) :
  Forall (fun e => In (fst e) ("Space" :: "Number" :: "Other" :: script_names)%string) acc ->
  Forall (fun e => In (fst e) ("Space" :: "Number" :: "Other" :: script_names)%string)
         (fold_left (fun acc c => bump (detect_script_unicode_fast c) acc) t acc).
Proof.
  revert acc. induction t as [| c t IH]; intros acc H; simpl; [exact H |].
  apply IH.
  apply (bump_keys _ _
           (fun s => In s ("Space" :: "Number" :: "Other" :: script_names)%string));
    [apply script_fast_range | exact H].
Qed.

Lemma detect_token_script_range (t : Py.pystr) :
  t <> [] ->
  In (detect_token_script t) ("Number" :: "Other" :: script_names)%string.
Proof.
  intros Hne. unfold detect_token_script.
  destruct t as [| c0 t0]; [congruence |].
  remember (c0 :: t0) as t eqn:Ht. clear Ht Hne c0 t0.
  pose proof (token_counts_keys t [] (Forall_nil _)) as Hkeys.
  set (counts := fold_left (fun acc c => bump (detect_script_unicode_fast c) acc) t [])
    in *.
  destruct (filter _ counts) as [| e rest] eqn:Hf.
  - destruct (existsb _ counts); simpl; tauto.
  - pose proof (max_count_In e rest) as Hin.
    apply in_map_iff in Hin as [e' [He' Hin]].
    rewrite <- Hf in Hin. apply filter_In in Hin as [Hin Hkeep].
    rewrite Forall_forall in Hkeys. specialize (Hkeys _ Hin).
    rewrite He' in Hkeys, Hkeep.
    right. right.
    destruct Hkeys as [H | [H | [H | H]]]; try exact H;
      rewrite <- H in Hkeep; discriminate Hkeep.
Qed.

Lemma tag_token_range (t : Py.pystr) :
  t <> [] -> In (tag_token t) ("Number" :: "Other" :: script_names)%string.
Proof.
  intros Hne. unfold tag_token.
  destruct t as [| c t0]; [congruence |].
  destruct (c <? 128)%N.
  - destruct (Py.isdigit (c :: t0)); simpl; tauto.
  - destruct (Py.in_range 2304 2431 c); [simpl; tauto |].
    destruct (Py.in_range 2432 2559 c); [simpl; tauto |].
    apply detect_token_script_range. discriminate.
Qed.

(** X26.  Every tagged token of Step 3 has a non-empty token and one of
    thirteen tags: [Number], [Other] or one of the eleven scripts.  [Space],
    [Unknown], [Digit] and [Gurmukhi] never occur, so a tag Step 4 counts
    as a word script is [Latin], [Arabic] or one of its native scripts. *)
Theorem step3_script_tags
    (fasttext_predict : Py.pystr -> Prediction)
    (smart_detector : option (Py.pystr -> option string * Q))
    (fallback : Py.pystr -> string * Q)
    (pre_tokenize_str : Py.pystr -> list Py.pystr) (text : Py.pystr)
    (tt : TaggedToken) :
  In tt (tagged_tokens (tokenize_step3_strict fasttext_predict smart_detector fallback
                                              pre_tokenize_str text)) ->
  token tt <> []
  /\ script tt = tag_token (token tt)
  /\ In (script tt) ("Number" :: "Other" :: script_names)%string
  /\ (in_strings (script tt) non_word_scripts = false ->
      script tt = "Latin"%string \/ script tt = "Arabic"%string
      \/ in_strings (script tt) native_scripts = true).
Proof.
  unfold tokenize_step3_strict.
  destruct text as [| c0 text0]; [simpl; tauto |].
  destruct (_detect_script_uncached _ _ _ _) as [l q]. cbn [tagged_tokens].
  intros Hin. apply in_map_iff in Hin as [t [<- Ht]]. cbn [token script].
  apply tokenize_icu_style_In in Ht as [t0 [_ [_ Hne]]].
  pose proof (tag_token_range t Hne) as Hrange.
  split; [exact Hne |]. split; [reflexivity |]. split; [exact Hrange |].
  intros Hword. unfold script_names in Hrange. simpl in Hrange.
  destruct Hrange as [H | [H | [H | [H | [H | [H | [H | [H | [H | [H | [H | [H | [H | []
    ]]]]]]]]]]]]]; rewrite <- H in *; try discriminate Hword; auto.
Qed.

Lemma step3_script_tags_witness :
  In "Latin"%string ("Number" :: "Other" :: script_names)%string
  /\ tag_token (Py.str "mujhe") = "Latin"%string.
Proof.
  destruct (step3_script_tags no_model None no_fallback Py.split mujhe_query
              (mkTagged (Py.str "mujhe") "Latin")) as [_ [Htag [Hrange _]]].
  - vm_compute. tauto.
  - split; [exact Hrange | symmetry; exact Htag].
Defined.

End ScriptTagFacts.

(** ** Step 3: the dominant script of a token *)

Module DominantScriptFacts.

Import CodeMixDetector Tokenizer.
Import TokenizerFacts Step3Facts ScriptTagFacts.
Import Examples.

Lemma count_of_bump (s s' : string) (counts : list (string * nat)) :
  count_of s (bump s' counts)
  = if String.eqb s' s then S (count_of s counts) else count_of s counts.
Proof.
  induction counts as [| [k n] counts IH]; simpl.
  - destruct (String.eqb s' s); reflexivity.
  - destruct (String.eqb_spec k s') as [-> | Hk]; simpl.
    + destruct (String.eqb s' s); reflexivity.
    + rewrite IH. destruct (String.eqb_spec k s) as [-> | Hks]; [| reflexivity].
      destruct (String.eqb_spec s' s) as [-> | Hs]; [congruence | reflexivity].
Qed.

Lemma token_counts_count_of (s : string) (t : Py.pystr) (acc : list (string * nat)) :
  count_of s (fold_left (fun acc c => bump (detect_script_unicode_fast c) acc) t acc)
  = (count_of s acc + script_count s t)%nat.
Proof.
  revert acc. induction t as [| c t IH]; intros acc; simpl.
  - unfold script_count. simpl. lia.
  - rewrite IH, count_of_bump. unfold script_count. simpl.
    destruct (String.eqb (detect_script_unicode_fast c) s); simpl; lia.
Qed.

Lemma bump_keys_nodup (s : string) (counts : list (string * nat)) :
  NoDup (map fst counts) -> NoDup (map fst (bump s counts)).
Proof.
  assert (Hkeys : forall k cs, In k (map fst (bump s cs)) -> k = s \/ In k (map fst cs)).
  { intros k cs. induction cs as [| [k0 n] cs IH]; simpl.
    - intros [H | []]; left; symmetry; exact H.
    - destruct (String.eqb k0 s); simpl; [tauto |].
      intros [H | H]; [right; left; exact H |].
      destruct (IH H) as [H' | H']; [left; exact H' | right; right; exact H']. }
  induction counts as [| [k n] counts IH]; simpl; intros Hnd.
  - constructor; [simpl; tauto | constructor].
  - inversion Hnd as [| x l Hnotin Hnd']; subst.
    destruct (String.eqb_spec k s) as [-> | Hk]; simpl.
    + constructor; assumption.
    + constructor; [| exact (IH Hnd')].
      intros Hin. destruct (Hkeys _ _ Hin) as [H | H]; [congruence | contradiction].
Qed.

Lemma token_counts_nodup (t : Py.pystr) (acc : list (string * nat)) :
  NoDup (map fst acc) ->
  NoDup (map fst (fold_left (fun acc c => bump (detect_script_unicode_fast c) acc) t acc)).
Proof.
  revert acc. induction t as [| c t IH]; intros acc H; simpl; [exact H |].
  apply IH. apply bump_keys_nodup. exact H.
Qed.

Lemma count_of_entry (k : string) (n : nat) (counts : list (string * nat)) :
  NoDup (map fst counts) -> In (k, n) counts -> count_of k counts = n.
Proof.
  induction counts as [| [k0 n0] counts IH]; simpl; [tauto |].
  intros Hnd Hin. inversion Hnd as [| x l Hnotin Hnd']; subst.
  destruct Hin as [H | H].
  - injection H as -> ->. rewrite String.eqb_refl. reflexivity.
  - destruct (String.eqb_spec k0 k) as [-> | Hk]; [| exact (IH Hnd' H)].
    exfalso. apply Hnotin. apply in_map_iff. exists (k, n). split; [reflexivity | exact H].
Qed.

Lemma max_count_entry (cur : string * nat) (rest : list (string * nat)) :
  exists n, In (max_count cur rest, n) (cur :: rest)
            /\ forall e, In e (cur :: rest) -> (snd e <= n)%nat.
Proof.
  revert cur. induction rest as [| e rest IH]; intros cur.
  - exists (snd cur). split; [left; destruct cur; reflexivity |].
    intros e [<- | []]. lia.
  - simpl. destruct (snd cur <? snd e)%nat eqn:E.
    + destruct (IH e) as [n [Hin Hmax]]. exists n. split; [right; exact Hin |].
      apply Nat.ltb_lt in E. intros e' [<- | He'].
      * specialize (Hmax e (or_introl eq_refl)). lia.
      * exact (Hmax e' He').
    + destruct (IH cur) as [n [Hin Hmax]]. exists n. split.
      * destruct Hin as [H | H]; [left; exact H | right; right; exact H].
      * apply Nat.ltb_ge in E. intros e' [<- | [<- | He']].
        -- exact (Hmax cur (or_introl eq_refl)).
        -- specialize (Hmax cur (or_introl eq_refl)). lia.
        -- exact (Hmax e' (or_intror He')).
Qed.

Lemma count_of_absent (s : string) (counts : list (string * nat)) :
  ~ In s (map fst counts) -> count_of s counts = 0%nat.
Proof.
  induction counts as [| [k n] counts IH]; simpl; [reflexivity |].
  intros H. destruct (String.eqb_spec k s) as [-> | Hk]; [tauto |].
  apply IH. tauto.
Qed.

Lemma script_count_positive (t : Py.pystr) :
  existsb is_script_cp t = true ->
  exists s, In s script_names /\ (0 < script_count s t)%nat.
Proof.
  intros H. apply existsb_exists in H as [c [Hin Hc]].
  exists (detect_script_unicode_fast c). split.
  - pose proof (script_fast_range c) as Hr. unfold is_script_cp in Hc.
    destruct Hr as [H | [H | [H | H]]]; try exact H;
      rewrite <- H in Hc; discriminate Hc.
  - unfold script_count.
    assert (Hf : In c (filter (fun c0 => String.eqb (detect_script_unicode_fast c0)
                                           (detect_script_unicode_fast c)) t)).
    { apply filter_In. split; [exact Hin | apply String.eqb_refl]. }
    destruct (filter _ t); [contradiction | simpl; lia].
Qed.

Lemma script_count_none (s : string) (t : Py.pystr) :
  existsb is_script_cp t = false -> In s script_names -> script_count s t = 0%nat.
Proof.
  intros Hnone Hs. unfold script_count.
  induction t as [| c t IH]; [reflexivity |].
  simpl in Hnone. apply orb_false_iff in Hnone as [Hc Hrest].
  simpl. destruct (String.eqb_spec (detect_script_unicode_fast c) s) as [He | He];
    [| exact (IH Hrest)].
  exfalso. unfold is_script_cp in Hc. rewrite He in Hc.
  unfold script_names in Hs. simpl in Hs.
  repeat (destruct Hs as [<- | Hs]; [discriminate Hc |]). contradiction.
Qed.

Lemma token_counts_positive (t : Py.pystr) (acc : list (string * nat)) :
  Forall (fun e => (0 < snd e)%nat) acc ->
  Forall (fun e => (0 < snd e)%nat)
         (fold_left (fun acc c => bump (detect_script_unicode_fast c) acc) t acc).
Proof.
  revert acc. induction t as [| c t IH]; intros acc H; simpl; [exact H |].
  apply IH. apply bump_positive. exact H.
Qed.

Lemma has_key_count (s : string) (counts : list (string * nat)) :
  Forall (fun e => (0 < snd e)%nat) counts ->
  existsb (fun e : string * nat => String.eqb (fst e) s) counts
  = (0 <? count_of s counts)%nat.
Proof.
  induction counts as [| [k n] counts IH]; intros H; [reflexivity |].
  inversion H as [| e l He Hl]; subst. simpl in *.
  destruct (String.eqb k s); simpl; [| exact (IH Hl)].
  symmetry. apply Nat.ltb_lt. exact He.
Qed.

(** X27.  [detect_token_script] returns the dominant script of a token:
    when the token has a script character, a script that occurs in it and
    that no other script outnumbers (digits, spaces and symbols are not
    counted); when it has none, [Number] if it has a digit and [Other]
    otherwise. *)
Theorem detect_token_script_dominant (token : Py.pystr) :
  token <> [] ->
  (existsb is_script_cp token = true ->
     In (detect_token_script token) script_names
     /\ (0 < script_count (detect_token_script token) token)%nat
     /\ forall s, In s script_names ->
          (script_count s token <= script_count (detect_token_script token) token)%nat)
  /\ (existsb is_script_cp token = false ->
      detect_token_script token
      = if (0 <? script_count "Number" token)%nat then "Number"%string
        else "Other"%string).
Proof.
  intros Hne. unfold detect_token_script.
  destruct token as [| c0 t0]; [congruence |].
  remember (c0 :: t0) as t eqn:Ht. clear Ht Hne c0 t0.
  pose proof (token_counts_keys t [] (Forall_nil _)) as Hkeys.
  pose proof (token_counts_nodup t [] (NoDup_nil _)) as Hnd.
  pose proof (token_counts_positive t [] (Forall_nil _)) as Hpositive.
  assert (Hcount : forall s,
    count_of s (fold_left (fun acc c => bump (detect_script_unicode_fast c) acc) t [])
    = script_count s t).
  { intros s. rewrite token_counts_count_of. reflexivity. }
  set (counts := fold_left (fun acc c => bump (detect_script_unicode_fast c) acc) t [])
    in *.
  set (keep := fun e : string * nat =>
                 negb (in_strings (fst e) ["Number"; "Space"; "Other"]%string)).
  assert (Hkept : forall s, In s script_names -> (0 < script_count s t)%nat ->
                    In (s, script_count s t) (filter keep counts)).
  { intros s Hs Hpos. apply filter_In. split.
    - rewrite <- Hcount. apply count_of_In.
      destruct (in_dec string_dec s (map fst counts)) as [Hin | Hnot]; [exact Hin |].
      apply count_of_absent in Hnot. rewrite Hcount in Hnot. lia.
    - unfold keep. cbn [fst]. unfold script_names in Hs. simpl in Hs.
      repeat (destruct Hs as [<- | Hs]; [reflexivity |]). contradiction. }
  split.
  - intros Hsome. destruct (script_count_positive t Hsome) as [s0 [Hs0 Hpos0]].
    pose proof (Hkept s0 Hs0 Hpos0) as Hin0.
    destruct (filter keep counts) as [| e rest] eqn:Hf; [contradiction |].
    destruct (max_count_entry e rest) as [n [Hin Hmax]].
    set (k := max_count e rest) in *.
    assert (Hk : In (k, n) counts /\ keep (k, n) = true).
    { rewrite <- Hf in Hin. apply filter_In in Hin. exact Hin. }
    destruct Hk as [Hkin Hkkeep].
    assert (Hn : script_count k t = n).
    { rewrite <- Hcount. apply count_of_entry; assumption. }
    assert (Hkname : In k script_names).
    { rewrite Forall_forall in Hkeys. specialize (Hkeys _ Hkin). cbn [fst] in Hkeys.
      unfold keep in Hkkeep. cbn [fst] in Hkkeep.
      destruct Hkeys as [H | [H | [H | H]]]; try exact H;
        rewrite <- H in Hkkeep; discriminate Hkkeep. }
    split; [exact Hkname |]. split.
    + rewrite Hn. specialize (Hmax _ Hin0). cbn [snd] in Hmax. lia.
    + intros s Hs. rewrite Hn.
      destruct (script_count s t) as [| m] eqn:Hm; [lia |].
      assert (Hpos : (0 < script_count s t)%nat) by lia.
      pose proof (Hkept s Hs Hpos) as Hsin.
      specialize (Hmax _ Hsin). cbn [snd] in Hmax. lia.
  - intros Hnone.
    assert (Hempty : filter keep counts = []).
    { destruct (filter keep counts) as [| [k n] rest] eqn:Hf; [reflexivity |].
      exfalso.
      assert (Hin : In (k, n) (filter keep counts)) by (rewrite Hf; left; reflexivity).
      apply filter_In in Hin as [Hin Hkeep].
      assert (Hkname : In k script_names).
      { rewrite Forall_forall in Hkeys. specialize (Hkeys _ Hin). cbn [fst] in Hkeys.
        unfold keep in Hkeep. cbn [fst] in Hkeep.
        destruct Hkeys as [H | [H | [H | H]]]; try exact H;
          rewrite <- H in Hkeep; discriminate Hkeep. }
      pose proof (script_count_none k t Hnone Hkname) as Hzero.
      pose proof (count_of_entry k n counts Hnd Hin) as Hn. rewrite Hcount in Hn.
      rewrite Forall_forall in Hpositive. specialize (Hpositive _ Hin).
      cbn [snd] in Hpositive. lia. }
    rewrite Hempty.
    rewrite (has_key_count "Number" counts Hpositive), Hcount. reflexivity.
Qed.

Lemma detect_token_script_dominant_witness :
  In (detect_token_script (Py.str "head123")) script_names
  /\ detect_token_script (Py.str "5000") = "Number"%string.
Proof.
  destruct (detect_token_script_dominant (Py.str "head123")) as [Hsome _];
    [discriminate |].
  destruct (detect_token_script_dominant (Py.str "5000")) as [_ Hnone];
    [discriminate |].
  split.
  - destruct Hsome as [Hin _]; [vm_compute; reflexivity | exact Hin].
  - apply Hnone. vm_compute. reflexivity.
Defined.

End DominantScriptFacts.

(** ** The smart romanized detector: no core word, no romanized language *)

Module CoreWordFacts.

Import SmartRomanizedDetector SmartDetectorFacts.
Import Examples.

Lemma decide_english (scores : Scores) :
  (hi_Latn scores < en scores)%Q -> (bn_Latn scores < en scores)%Q ->
  (15 # 100 < en scores - py_max (hi_Latn scores) (bn_Latn scores))%Q ->
  decide scores = (None, 0).
Proof.
  intros Hhi Hbn Hgap.
  assert (Hbest : best_lang_of scores = "en"%string).
  { unfold best_lang_of. simpl.
    destruct (Qgt_bool (bn_Latn scores) (hi_Latn scores)); simpl.
    - apply Qgt_bool_iff in Hbn. rewrite Hbn. reflexivity.
    - apply Qgt_bool_iff in Hhi. rewrite Hhi. reflexivity. }
  unfold decide, select_language. rewrite Hbest.
  cbn [String.eqb Ascii.eqb Bool.eqb].
  assert (Hclose : Qle_bool (en scores - py_max (hi_Latn scores) (bn_Latn scores))
                            (15 # 100) = false).
  { destruct (Qle_bool _ _) eqn:E; [| reflexivity].
    apply Qle_bool_iff in E. exfalso. exact (Qlt_not_le _ _ Hgap E). }
  rewrite Hclose, andb_false_r. cbn [String.eqb Ascii.eqb Bool.eqb negb].
  rewrite andb_false_r. reflexivity.
Qed.

Lemma count_if_none {A : Type} (p : A -> bool) (xs : list A) :
  forallb (fun x => negb (p x)) xs = true -> count_if p xs = 0%nat.
Proof.
  unfold count_if. induction xs as [| x xs IH]; [reflexivity |].
  simpl. intros H. apply andb_prop in H as [Hx Hrest].
  apply negb_true_iff in Hx. rewrite Hx. exact (IH Hrest).
Qed.

Lemma core_words_none (words : list Py.pystr) :
  words <> [] ->
  forallb (fun w => negb (Py.mem w core_hindi_words)) words = true ->
  forallb (fun w => negb (Py.mem w core_bengali_words)) words = true ->
  _analyze_core_words words = mkScores 0 0 1.
Proof.
  intros Hne Hh Hb. unfold _analyze_core_words.
  destruct words as [| w ws]; [congruence |].
  rewrite (count_if_none _ _ Hh), (count_if_none _ _ Hb). reflexivity.
Qed.

(** X28.  The smart romanized detector never reports a romanized
    language for a text none of whose words is in its core Hindi or core
    Bengali vocabulary: n-grams, letter frequencies and phonetic patterns
    together weigh 35%, too little against the core-word score. *)
Theorem no_core_word_no_romanized (isalpha_cp isdigit_cp : N -> bool)
    (cosines : Scores) (text : Py.pystr) :
  nonneg_scores cosines ->
  forallb (fun w => negb (Py.mem w core_hindi_words)) (Py.split (Py.lower text)) = true ->
  forallb (fun w => negb (Py.mem w core_bengali_words)) (Py.split (Py.lower text)) = true ->
  detect_romanized_language isalpha_cp isdigit_cp cosines text = (None, 0).
Proof.
  intros Hcos Hh Hb. unfold detect_romanized_language.
  destruct (Py.strip text); [reflexivity |].
  destruct (forallb (fun word => isdigit isdigit_cp word || (List.length word <=? 2)%nat)
                    (Py.split (Py.lower text))) eqn:Hearly; [reflexivity |].
  assert (Hne : Py.split (Py.lower text) <> []).
  { intros Hnil. rewrite Hnil in Hearly. discriminate. }
  destruct (char_frequency_unit isalpha_cp cosines (Py.lower text) Hcos)
    as [[Hf1 Hf2] [[Hf3 Hf4] [Hf5 Hf6]]].
  destruct (ngrams_unit isalpha_cp (Py.lower text)) as [[Hn1 Hn2] [[Hn3 Hn4] [Hn5 Hn6]]].
  destruct (phonetic_unit isalpha_cp (Py.lower text))
    as [[Hp1 Hp2] [[Hp3 Hp4] [Hp5 Hp6]]].
  assert (Hscores :
    (hi_Latn (combined_scores isalpha_cp cosines (Py.lower text)) <= 35 # 100)%Q
    /\ (bn_Latn (combined_scores isalpha_cp cosines (Py.lower text)) <= 35 # 100)%Q
    /\ (65 # 100 <= en (combined_scores isalpha_cp cosines (Py.lower text)))%Q).
  { unfold combined_scores. rewrite (core_words_none _ Hne Hh Hb).
    unfold add_weighted. simpl. repeat split; lra. }
  destruct Hscores as [H1 [H2 H3]].
  apply decide_english; try lra.
  destruct (py_max_cases (hi_Latn (combined_scores isalpha_cp cosines (Py.lower text)))
                         (bn_Latn (combined_scores isalpha_cp cosines (Py.lower text))))
    as [[-> _] | [-> _]]; lra.
Qed.

Lemma no_core_word_no_romanized_witness :
  detect_romanized_language Py.isalpha_cp Py.isdigit_cp sample_cosines
                            (Py.str "chhota bheem khilona")
  = (None, 0).
Proof.
  apply (no_core_word_no_romanized Py.isalpha_cp Py.isdigit_cp sample_cosines
           (Py.str "chhota bheem khilona")).
  - vm_compute. repeat split; discriminate.
  - vm_compute. reflexivity.
  - vm_compute. reflexivity.
Defined.

End CoreWordFacts.

(** ** Characters outside ASCII

    The string primitives and the functions built on them, at inputs where
    Unicode matters: case, digits, word characters. *)

Module UnicodeExamples.

Import CodeMixDetector Tokenizer InputHandler SpellCorrector SmartRomanizedDetector.
Import Examples.

(** [str.lower] lowers every cased letter (here U+00C9), the Kelvin sign
    U+212A to [k], U+0130 to two code points, and the capital sigma to the
    final sigma at the end of a word. *)
Example lower_beyond_ascii :
  Py.lower [67; 65; 70; 0x00C9]%N = [99; 97; 102; 0x00E9]%N
  /\ Py.lower [0x212A]%N = Py.str "k"
  /\ Py.lower [0x0130]%N = [0x0069; 0x0307]%N
  /\ Py.lower [0x0391; 0x03A3; 32; 0x03A3; 0x0391]%N
     = [0x03B1; 0x03C2; 32; 0x03C3; 0x03B1]%N.
Proof. repeat split; vm_compute; reflexivity. Qed.

(** The superscript two U+00B2 is a digit for [str.isdigit] and not for
    [\d]; the full-width digits U+FF11 to U+FF13 are digits for both. *)
Example digits_beyond_ascii :
  Py.isdigit_cp 0x00B2 = true /\ Py.isdecimal_cp 0x00B2 = false
  /\ Py.isdigit [0xFF11; 0xFF12; 0xFF13]%N = true
  /\ forallb Py.isdecimal_cp [0xFF11; 0xFF12; 0xFF13]%N = true.
Proof. repeat split; vm_compute; reflexivity. Qed.

(** Step 3 on such digits: they are numbers, and a text made of them has
    no language. *)
Example scripts_of_digits :
  detect_script_unicode_fast 0x00B2 = "Number"%string
  /\ detect_token_script [0x00B2]%N = "Number"%string
  /\ detect_token_script [0xFF11; 0xFF12]%N = "Number"%string
  /\ tag_token [53; 0x00B2]%N = "Number"%string
  /\ _detect_language_unicode_fallback [0x00B2]%N = ("unknown"%string, 0).
Proof. repeat split; vm_compute; reflexivity. Qed.

(** A Myntra product id written in full-width digits is extracted. *)
Example myntra_id_full_width :
  search_from myntra_id_at (Py.str "/shoes/" ++ [0xFF11; 0xFF12; 0xFF13]%N ++ Py.str "/buy")
  = Some [0xFF11; 0xFF12; 0xFF13]%N.
Proof. vm_compute. reflexivity. Qed.

(** Marker words spelled with the Kelvin sign are counted: two Hindi and
    three Bengali markers make the text Bengali, and [Kya Kya] has core
    Hindi words. *)
Example markers_with_kelvin_sign :
  _detect_script_uncached no_model None no_fallback
    (Py.str "mujhe chahiye " ++ [0x212A]%N ++ Py.str "on " ++ [0x212A]%N ++ Py.str "oro "
     ++ [0x212A]%N ++ Py.str "orte")
  = ("bn"%string, 65 # 100)
  /\ count_if (fun w => Py.mem w core_hindi_words)
              (Py.split (Py.lower ([0x212A]%N ++ Py.str "ya " ++ [0x212A]%N ++ Py.str "ya")))
     = 2%nat.
Proof. split; vm_compute; reflexivity. Qed.

(** The brand test of [_product_to_text] ignores the case of U+00C9: the
    brand is in the name and is not added. *)
Example brand_in_name_beyond_ascii :
  _product_to_text
    (mkProduct (Py.str "Nestl" ++ [0x00E9]%N ++ Py.str " Milk") [] [] []
               (Py.str "NESTL" ++ [0x00C9]%N) [])
  = Py.str "Nestl" ++ [0x00E9]%N ++ Py.str " Milk".
Proof. vm_compute. reflexivity. Qed.

(** The ellipsis, the rupee sign and a Devanagari vowel sign are not word
    characters, so a marker word next to one is a word of its own; the
    underscore is a word character. *)
Example word_boundaries :
  findall_count (words ["ka"; "ki"]%string)
    (Py.str "ka" ++ [0x2026]%N ++ Py.str "ki ka" ++ [0x20B9]%N ++ Py.str " ka" ++ [0x093E]%N
     ++ Py.str " ka_ki")
  = 4%nat.
Proof. vm_compute. reflexivity. Qed.

(** Patterns compiled with [re.IGNORECASE]: the long s U+017F matches [s]
    in [https], and a digit run followed by the dotless i U+0131 is a
    model code for [_should_preserve]. *)
Example ignore_case_beyond_ascii :
  _is_url (Py.str "http" ++ [0x017F]%N ++ Py.str "://x") = true
  /\ _should_preserve [49; 50; 51; 0x0131]%N = true
  /\ _should_preserve [49; 50; 51; 0x00E9]%N = false.
Proof. repeat split; vm_compute; reflexivity. Qed.

End UnicodeExamples.
